(** * The mock GEM device: construction, unwind and teardown

    A shallow embedding of [mock_gem_device], [mock_destroy_device],
    [mock_device_release] and [mock_device_flush] (the selftest device of the
    i915 backport), and of [is_cow_mapping] from the backported
    [linux/mm.h].

    The device code is a straight line of calls into the kernel and into the
    rest of the driver.  Each call is recorded in a trace; what it acquires
    or releases is recorded in a ledger; whether a fallible call succeeds is
    read from an [oracle].  The device aggregate and the PCI device live in a
    store and are reached through handles, as they are reached through
    pointers in the C code. *)

From Stdlib Require Import ZArith List String Lia Bool.
From stdpp Require Import base option list gmap.

Import ListNotations.
Local Open Scope Z_scope.

(** ** Constants declared outside the two source files *)

Record kconst := {
  I915_MAX_CACHE_LEVEL : nat;   (* enum i915_cache_level, one past the last level *)
  I915_NUM_ENGINES : nat;       (* capacity of gt->engine[] *)
  RCS0 : nat;                   (* enum intel_engine_id of the render engine *)
  I915_WEDGED : Z;              (* bit number in gt->reset.flags *)
  PCI_BASE_CLASS_DISPLAY : Z;
  I915_GTT_PAGE_SIZE_4K : Z;
  I915_GTT_PAGE_SIZE_64K : Z;
  I915_GTT_PAGE_SIZE_2M : Z;
  REGION_SMEM : Z;
  I915_IOV_MODE_NONE : Z;
  MAX_SCHEDULE_TIMEOUT : Z;
  WQ_UNBOUND : Z;
  DRIVER_GEM : Z;
  CONFIG_INTEL_IOMMU : bool;    (* IS_ENABLED(CONFIG_IOMMU_API) && defined(CONFIG_INTEL_IOMMU) *)
  (* RCS0 is one of the engine ids, so gt->engine[RCS0] is inside the array *)
  RCS0_in_range : (RCS0 < I915_NUM_ENGINES)%nat
}.

(** ** Handles, resources and calls *)

(** A handle stands for a non-null pointer; [None] of [option handle] is NULL. *)
Definition handle := nat.

(** What the construction sequence acquires.  A resource is entered in the
    ledger by the call that creates it and struck by the call that releases
    it. *)
Inductive resource :=
| Identity            (* the pci_dev: kzalloc / release_dev's kfree *)
| DevresGroup         (* devres_open_group / devres_release_group *)
| DeviceAggregate     (* devm_drm_dev_alloc / final drm device release *)
| ConfigCopy          (* i915_params_copy / i915_params_free *)
| ModeConfig          (* drm_mode_config_init / drm_mode_config_cleanup *)
| RootGt              (* intel_root_gt_init_early / intel_gt_driver_late_release_all *)
| RegisterShim        (* mock_uncore_init / mock_uncore_uninit *)
| MemoryRegions       (* intel_memory_regions_hw_probe / intel_memory_regions_driver_release *)
| Workqueue           (* alloc_workqueue / destroy_workqueue *)
| Scheduler           (* i915_sched_engine_create_cpu / i915_sched_engine_put *)
| GgttMemory          (* drmm_kzalloc / drm managed release *)
| TranslationLayer    (* mock_init_ggtt, i915_vm_get / mock_fini_ggtt *)
| ComputeEngine       (* mock_engine / intel_gt_driver_remove *)
| Debugger.           (* i915_debugger_init / i915_debugger_fini *)

#[global] Instance resource_eq_dec : EqDecision resource.
Proof. solve_decision. Defined.

(** The affinity mask handed to the scheduler. *)
Inductive cpumask := cpu_all_mask.

(** The calls that leave the two source files, with the arguments and
    results that matter to the caller.  The first handle is the object the
    call is made on (the pci_dev for the bus calls, the device aggregate for
    the driver calls). *)
Inductive call :=
| c_kzalloc_pdev (r : option handle)
| c_device_initialize (pdev : handle)
| c_dev_set_name (pdev : handle) (name : string)
| c_dma_coerce_mask_and_coherent (pdev : handle) (mask : Z)
| c_devres_open_group (pdev : handle) (ok : bool)
| c_devm_drm_dev_alloc (pdev : handle) (r : option handle)
| c_pr_err (fmt : string) (args : list Z)
| c_pci_set_drvdata (pdev i915 : handle)
| c_dev_pm_domain_set (pdev : handle)
| c_pm_runtime_enable (pdev : handle)
| c_pm_runtime_dont_use_autosuspend (pdev : handle)
| c_pm_runtime_enabled (pdev : handle) (r : bool)
| c_pm_runtime_get_sync (pdev : handle) (r : Z)
| c_WARN_ON
| c_i915_params_copy (i915 : handle)
| c_intel_runtime_pm_init_early (i915 : handle)
| c_drm_mode_config_init (i915 : handle)
| c_intel_root_gt_init_early (i915 : handle)
| c_mock_uncore_init (i915 : handle) (r : Z)
| c_intel_memory_regions_hw_probe (i915 : handle)
| c_spin_lock_init (i915 : handle)
| c_init_waitqueue_head (i915 : handle)
| c_i915_gem_init__mm (i915 : handle)
| c_alloc_workqueue (fmt : string) (flags : Z) (max_active : Z) (name : string)
                    (r : option handle)
| c_i915_sched_engine_create_cpu (width : Z) (wq : option handle) (mask : cpumask)
                                 (r : option handle)
| c_mock_init_contexts (i915 : handle)
| c_drmm_kzalloc (i915 : handle) (r : option handle)
| c_mock_init_ggtt (i915 : handle)
| c_i915_vm_get (ggtt : option handle)
| c_mock_engine (i915 : handle) (name : string) (id : nat) (r : option handle)
| c_mock_engine_init (engine : option handle) (r : Z)
| c_intel_engines_driver_register (i915 : handle)
| c_ida_init (i915 : handle)
| c_i915_debugger_init (i915 : handle)
| c_i915_debugger_fini (i915 : handle)
| c_mock_engine_flush (engine : handle)
| c_intel_gt_retire_requests_timeout (i915 : handle) (timeout : Z) (r : bool)
| c_intel_gt_driver_remove (i915 : handle)
| c_i915_gem_drain_workqueue (i915 : handle)
| c_i915_gem_drain_freed_objects (i915 : handle)
| c_mock_fini_ggtt (ggtt : option handle)
| c_i915_sched_engine_put (sched : option handle)
| c_intel_gt_driver_late_release_all (i915 : handle)
| c_intel_memory_regions_driver_release (i915 : handle)
| c_destroy_workqueue (wq : option handle)
| c_drm_mode_config_cleanup (i915 : handle)
| c_mock_uncore_uninit (i915 : handle)
| c_i915_params_free (i915 : handle)
| c_devres_release_group (pdev : handle)
| c_put_device (pdev : handle)
| c_kfree (pdev : handle).

(** ** The objects *)

(** The callbacks the source installs, named after the functions. *)
Inductive drm_release_cb := cb_mock_device_release.
Inductive dev_release_cb := cb_release_dev.
Inductive pm_cb := cb_pm_domain_suspend | cb_pm_domain_resume.

(** [struct drm_driver]. *)
Record drm_driver := {
  drv_name : string;
  driver_features : Z;
  drv_release : option drm_release_cb
}.

(** [struct dev_pm_domain], the two hooks the source fills in. *)
Record dev_pm_domain := {
  runtime_suspend : option pm_cb;
  runtime_resume : option pm_cb
}.

(** An entry of the device's devres list. *)
Inductive devres_node :=
| devres_group_marker
| devres_drm_dev (i915 : handle).

(** [struct pci_dev] with its embedded [struct device]: the fields the source
    writes, the reference count and the devres list. *)
Record pci_dev := {
  class : Z;
  dev_release : option dev_release_cb;
  dev_name : option string;
  dev_dma_mask : Z;
  dev_iommu_fake : bool;
  dev_drvdata : option handle;
  dev_pm : option dev_pm_domain;
  dev_kref : nat;
  dev_devres : list devres_node
}.

(** [struct intel_gt], the root tile [i915->gt0]. *)
Record intel_gt := {
  gt_name : option string;
  gt_mock : bool;
  gt_wakeref_count : Z;
  gt_ggtt : option handle;
  gt_vm : option handle;
  gt_info_engine_mask : Z;
  gt_engine : list (option handle);
  gt_reset_flags : Z
}.

(** [struct drm_i915_private], the device aggregate. *)
Record drm_i915_private := {
  drm_dev : handle;                     (* drm.dev, the parent device *)
  drm_driver_of : drm_driver;            (* drm.driver *)
  drm_managed : list handle;            (* drm.managed: drmm allocations *)
  iov_mode : Z;                         (* __mode *)
  graphics_ver : Z;                     (* device info graphics.ver *)
  runtime_graphics_ver : Z;             (* runtime info graphics.ver *)
  page_sizes : Z;
  cachelevel_to_pat : list Z;
  platform_engine_mask : Z;
  memory_regions : Z;
  gt_slot0 : bool;                      (* gt[0] == &gt0 *)
  gt0 : intel_gt;
  wq : option handle;
  sched : option handle;
  mm_wq : option handle;
  mm_sched : option handle;
  do_release : bool
}.

(** ** The world *)

Record world := {
  calls : list call;                      (* oldest first *)
  acquired : list resource;               (* oldest first *)
  released : list resource;               (* oldest first *)
  retire_calls : nat;                     (* calls of the retire routine so far *)
  next_handle : handle;
  pdevs : gmap handle pci_dev;
  devs : gmap handle drm_i915_private
}.

(** What decides the calls that can fail, and what the retire routine
    answers on its k-th call with the timeout it was handed: whether it
    found the tile idle, and the timeout it leaves behind. *)
Record oracle := {
  o_kzalloc_pdev : bool;
  o_devres_open_group : bool;
  o_devm_drm_dev_alloc : bool;
  o_devm_drm_dev_alloc_err : Z;   (* the errno behind the ERR_PTR when it fails *)
  o_pm_runtime_enabled : bool;
  o_pm_runtime_get_sync : Z;
  o_mock_uncore_init : Z;
  o_alloc_workqueue : bool;
  o_sched_engine_create : bool;
  o_drmm_kzalloc : bool;
  o_mock_engine : bool;
  o_mock_engine_init : Z;
  o_retire : nat -> Z -> bool * Z
}.

(** ** The monad: state, running out of fuel, and wild pointers *)

Inductive outcome (A : Type) :=
| Ret (a : A) (w : world)
| OutOfFuel (w : world)      (* the drain loop was cut short here *)
| Fault (w : world).         (* a handle with nothing behind it was used *)
Arguments Ret {A} a w.
Arguments OutOfFuel {A} w.
Arguments Fault {A} w.

Definition M (A : Type) := world -> outcome A.

Definition ret {A} (a : A) : M A := fun w => Ret a w.

Definition bind {A B} (m : M A) (k : A -> M B) : M B :=
  fun w =>
    match m w with
    | Ret a w' => k a w'
    | OutOfFuel w' => OutOfFuel w'
    | Fault w' => Fault w'
    end.

Declare Scope prog_scope.
Delimit Scope prog_scope with prog.
Notation "'let*' x := m 'in' k" := (bind m (fun x => k))
  (at level 10, x name, m at level 100, k at level 200) : prog_scope.
Notation "m >> k" := (bind m (fun _ => k))
  (at level 100, k at level 200, right associativity) : prog_scope.
Local Open Scope prog_scope.

(** ** Field updates *)

Definition add_call (c : call) (w : world) : world :=
  {| calls := calls w ++ [c]; acquired := acquired w; released := released w;
     retire_calls := retire_calls w; next_handle := next_handle w;
     pdevs := pdevs w; devs := devs w |}.

Definition add_acquired (r : resource) (w : world) : world :=
  {| calls := calls w; acquired := acquired w ++ [r]; released := released w;
     retire_calls := retire_calls w; next_handle := next_handle w;
     pdevs := pdevs w; devs := devs w |}.

Definition add_released (r : resource) (w : world) : world :=
  {| calls := calls w; acquired := acquired w; released := released w ++ [r];
     retire_calls := retire_calls w; next_handle := next_handle w;
     pdevs := pdevs w; devs := devs w |}.

Definition count_retire (w : world) : world :=
  {| calls := calls w; acquired := acquired w; released := released w;
     retire_calls := S (retire_calls w); next_handle := next_handle w;
     pdevs := pdevs w; devs := devs w |}.

Definition bump_handle (w : world) : world :=
  {| calls := calls w; acquired := acquired w; released := released w;
     retire_calls := retire_calls w; next_handle := S (next_handle w);
     pdevs := pdevs w; devs := devs w |}.

Definition with_pdevs (m : gmap handle pci_dev) (w : world) : world :=
  {| calls := calls w; acquired := acquired w; released := released w;
     retire_calls := retire_calls w; next_handle := next_handle w;
     pdevs := m; devs := devs w |}.

Definition with_devs (m : gmap handle drm_i915_private) (w : world) : world :=
  {| calls := calls w; acquired := acquired w; released := released w;
     retire_calls := retire_calls w; next_handle := next_handle w;
     pdevs := pdevs w; devs := m |}.

Definition set_class (v : Z) (p : pci_dev) : pci_dev :=
  {| class := v; dev_release := dev_release p; dev_name := dev_name p;
     dev_dma_mask := dev_dma_mask p; dev_iommu_fake := dev_iommu_fake p;
     dev_drvdata := dev_drvdata p; dev_pm := dev_pm p; dev_kref := dev_kref p;
     dev_devres := dev_devres p |}.

Definition set_dev_release (v : option dev_release_cb) (p : pci_dev) : pci_dev :=
  {| class := class p; dev_release := v; dev_name := dev_name p;
     dev_dma_mask := dev_dma_mask p; dev_iommu_fake := dev_iommu_fake p;
     dev_drvdata := dev_drvdata p; dev_pm := dev_pm p; dev_kref := dev_kref p;
     dev_devres := dev_devres p |}.

Definition set_dev_name (v : option string) (p : pci_dev) : pci_dev :=
  {| class := class p; dev_release := dev_release p; dev_name := v;
     dev_dma_mask := dev_dma_mask p; dev_iommu_fake := dev_iommu_fake p;
     dev_drvdata := dev_drvdata p; dev_pm := dev_pm p; dev_kref := dev_kref p;
     dev_devres := dev_devres p |}.

Definition set_dev_dma_mask (v : Z) (p : pci_dev) : pci_dev :=
  {| class := class p; dev_release := dev_release p; dev_name := dev_name p;
     dev_dma_mask := v; dev_iommu_fake := dev_iommu_fake p;
     dev_drvdata := dev_drvdata p; dev_pm := dev_pm p; dev_kref := dev_kref p;
     dev_devres := dev_devres p |}.

Definition set_dev_iommu_fake (v : bool) (p : pci_dev) : pci_dev :=
  {| class := class p; dev_release := dev_release p; dev_name := dev_name p;
     dev_dma_mask := dev_dma_mask p; dev_iommu_fake := v;
     dev_drvdata := dev_drvdata p; dev_pm := dev_pm p; dev_kref := dev_kref p;
     dev_devres := dev_devres p |}.

Definition set_dev_drvdata (v : option handle) (p : pci_dev) : pci_dev :=
  {| class := class p; dev_release := dev_release p; dev_name := dev_name p;
     dev_dma_mask := dev_dma_mask p; dev_iommu_fake := dev_iommu_fake p;
     dev_drvdata := v; dev_pm := dev_pm p; dev_kref := dev_kref p;
     dev_devres := dev_devres p |}.

Definition set_dev_pm (v : option dev_pm_domain) (p : pci_dev) : pci_dev :=
  {| class := class p; dev_release := dev_release p; dev_name := dev_name p;
     dev_dma_mask := dev_dma_mask p; dev_iommu_fake := dev_iommu_fake p;
     dev_drvdata := dev_drvdata p; dev_pm := v; dev_kref := dev_kref p;
     dev_devres := dev_devres p |}.

Definition set_dev_kref (v : nat) (p : pci_dev) : pci_dev :=
  {| class := class p; dev_release := dev_release p; dev_name := dev_name p;
     dev_dma_mask := dev_dma_mask p; dev_iommu_fake := dev_iommu_fake p;
     dev_drvdata := dev_drvdata p; dev_pm := dev_pm p; dev_kref := v;
     dev_devres := dev_devres p |}.

Definition set_dev_devres (v : list devres_node) (p : pci_dev) : pci_dev :=
  {| class := class p; dev_release := dev_release p; dev_name := dev_name p;
     dev_dma_mask := dev_dma_mask p; dev_iommu_fake := dev_iommu_fake p;
     dev_drvdata := dev_drvdata p; dev_pm := dev_pm p; dev_kref := dev_kref p;
     dev_devres := v |}.

Definition set_gt_name (v : option string) (g : intel_gt) : intel_gt :=
  {| gt_name := v; gt_mock := gt_mock g; gt_wakeref_count := gt_wakeref_count g;
     gt_ggtt := gt_ggtt g; gt_vm := gt_vm g;
     gt_info_engine_mask := gt_info_engine_mask g; gt_engine := gt_engine g;
     gt_reset_flags := gt_reset_flags g |}.

Definition set_gt_mock (v : bool) (g : intel_gt) : intel_gt :=
  {| gt_name := gt_name g; gt_mock := v; gt_wakeref_count := gt_wakeref_count g;
     gt_ggtt := gt_ggtt g; gt_vm := gt_vm g;
     gt_info_engine_mask := gt_info_engine_mask g; gt_engine := gt_engine g;
     gt_reset_flags := gt_reset_flags g |}.

Definition set_gt_wakeref_count (v : Z) (g : intel_gt) : intel_gt :=
  {| gt_name := gt_name g; gt_mock := gt_mock g; gt_wakeref_count := v;
     gt_ggtt := gt_ggtt g; gt_vm := gt_vm g;
     gt_info_engine_mask := gt_info_engine_mask g; gt_engine := gt_engine g;
     gt_reset_flags := gt_reset_flags g |}.

Definition set_gt_ggtt (v : option handle) (g : intel_gt) : intel_gt :=
  {| gt_name := gt_name g; gt_mock := gt_mock g;
     gt_wakeref_count := gt_wakeref_count g; gt_ggtt := v; gt_vm := gt_vm g;
     gt_info_engine_mask := gt_info_engine_mask g; gt_engine := gt_engine g;
     gt_reset_flags := gt_reset_flags g |}.

Definition set_gt_vm (v : option handle) (g : intel_gt) : intel_gt :=
  {| gt_name := gt_name g; gt_mock := gt_mock g;
     gt_wakeref_count := gt_wakeref_count g; gt_ggtt := gt_ggtt g; gt_vm := v;
     gt_info_engine_mask := gt_info_engine_mask g; gt_engine := gt_engine g;
     gt_reset_flags := gt_reset_flags g |}.

Definition set_gt_info_engine_mask (v : Z) (g : intel_gt) : intel_gt :=
  {| gt_name := gt_name g; gt_mock := gt_mock g;
     gt_wakeref_count := gt_wakeref_count g; gt_ggtt := gt_ggtt g;
     gt_vm := gt_vm g; gt_info_engine_mask := v; gt_engine := gt_engine g;
     gt_reset_flags := gt_reset_flags g |}.

Definition set_gt_engine (v : list (option handle)) (g : intel_gt) : intel_gt :=
  {| gt_name := gt_name g; gt_mock := gt_mock g;
     gt_wakeref_count := gt_wakeref_count g; gt_ggtt := gt_ggtt g;
     gt_vm := gt_vm g; gt_info_engine_mask := gt_info_engine_mask g;
     gt_engine := v; gt_reset_flags := gt_reset_flags g |}.

Definition set_gt_reset_flags (v : Z) (g : intel_gt) : intel_gt :=
  {| gt_name := gt_name g; gt_mock := gt_mock g;
     gt_wakeref_count := gt_wakeref_count g; gt_ggtt := gt_ggtt g;
     gt_vm := gt_vm g; gt_info_engine_mask := gt_info_engine_mask g;
     gt_engine := gt_engine g; gt_reset_flags := v |}.

Definition set_drm_managed (v : list handle) (d : drm_i915_private) : drm_i915_private :=
  {| drm_dev := drm_dev d; drm_driver_of := drm_driver_of d; drm_managed := v;
     iov_mode := iov_mode d; graphics_ver := graphics_ver d;
     runtime_graphics_ver := runtime_graphics_ver d;
     page_sizes := page_sizes d; cachelevel_to_pat := cachelevel_to_pat d;
     platform_engine_mask := platform_engine_mask d;
     memory_regions := memory_regions d; gt_slot0 := gt_slot0 d; gt0 := gt0 d;
     wq := wq d; sched := sched d; mm_wq := mm_wq d; mm_sched := mm_sched d;
     do_release := do_release d |}.

Definition set_iov_mode (v : Z) (d : drm_i915_private) : drm_i915_private :=
  {| drm_dev := drm_dev d; drm_driver_of := drm_driver_of d;
     drm_managed := drm_managed d; iov_mode := v;
     graphics_ver := graphics_ver d;
     runtime_graphics_ver := runtime_graphics_ver d;
     page_sizes := page_sizes d; cachelevel_to_pat := cachelevel_to_pat d;
     platform_engine_mask := platform_engine_mask d;
     memory_regions := memory_regions d; gt_slot0 := gt_slot0 d; gt0 := gt0 d;
     wq := wq d; sched := sched d; mm_wq := mm_wq d; mm_sched := mm_sched d;
     do_release := do_release d |}.

Definition set_graphics_ver (v : Z) (d : drm_i915_private) : drm_i915_private :=
  {| drm_dev := drm_dev d; drm_driver_of := drm_driver_of d;
     drm_managed := drm_managed d; iov_mode := iov_mode d; graphics_ver := v;
     runtime_graphics_ver := runtime_graphics_ver d;
     page_sizes := page_sizes d; cachelevel_to_pat := cachelevel_to_pat d;
     platform_engine_mask := platform_engine_mask d;
     memory_regions := memory_regions d; gt_slot0 := gt_slot0 d; gt0 := gt0 d;
     wq := wq d; sched := sched d; mm_wq := mm_wq d; mm_sched := mm_sched d;
     do_release := do_release d |}.

Definition set_runtime_graphics_ver (v : Z) (d : drm_i915_private) : drm_i915_private :=
  {| drm_dev := drm_dev d; drm_driver_of := drm_driver_of d;
     drm_managed := drm_managed d; iov_mode := iov_mode d;
     graphics_ver := graphics_ver d; runtime_graphics_ver := v;
     page_sizes := page_sizes d; cachelevel_to_pat := cachelevel_to_pat d;
     platform_engine_mask := platform_engine_mask d;
     memory_regions := memory_regions d; gt_slot0 := gt_slot0 d; gt0 := gt0 d;
     wq := wq d; sched := sched d; mm_wq := mm_wq d; mm_sched := mm_sched d;
     do_release := do_release d |}.

Definition set_page_sizes (v : Z) (d : drm_i915_private) : drm_i915_private :=
  {| drm_dev := drm_dev d; drm_driver_of := drm_driver_of d;
     drm_managed := drm_managed d; iov_mode := iov_mode d;
     graphics_ver := graphics_ver d;
     runtime_graphics_ver := runtime_graphics_ver d; page_sizes := v;
     cachelevel_to_pat := cachelevel_to_pat d;
     platform_engine_mask := platform_engine_mask d;
     memory_regions := memory_regions d; gt_slot0 := gt_slot0 d; gt0 := gt0 d;
     wq := wq d; sched := sched d; mm_wq := mm_wq d; mm_sched := mm_sched d;
     do_release := do_release d |}.

Definition set_cachelevel_to_pat (v : list Z) (d : drm_i915_private) : drm_i915_private :=
  {| drm_dev := drm_dev d; drm_driver_of := drm_driver_of d;
     drm_managed := drm_managed d; iov_mode := iov_mode d;
     graphics_ver := graphics_ver d;
     runtime_graphics_ver := runtime_graphics_ver d;
     page_sizes := page_sizes d; cachelevel_to_pat := v;
     platform_engine_mask := platform_engine_mask d;
     memory_regions := memory_regions d; gt_slot0 := gt_slot0 d; gt0 := gt0 d;
     wq := wq d; sched := sched d; mm_wq := mm_wq d; mm_sched := mm_sched d;
     do_release := do_release d |}.

Definition set_platform_engine_mask (v : Z) (d : drm_i915_private) : drm_i915_private :=
  {| drm_dev := drm_dev d; drm_driver_of := drm_driver_of d;
     drm_managed := drm_managed d; iov_mode := iov_mode d;
     graphics_ver := graphics_ver d;
     runtime_graphics_ver := runtime_graphics_ver d;
     page_sizes := page_sizes d; cachelevel_to_pat := cachelevel_to_pat d;
     platform_engine_mask := v; memory_regions := memory_regions d;
     gt_slot0 := gt_slot0 d; gt0 := gt0 d; wq := wq d; sched := sched d;
     mm_wq := mm_wq d; mm_sched := mm_sched d; do_release := do_release d |}.

Definition set_memory_regions (v : Z) (d : drm_i915_private) : drm_i915_private :=
  {| drm_dev := drm_dev d; drm_driver_of := drm_driver_of d;
     drm_managed := drm_managed d; iov_mode := iov_mode d;
     graphics_ver := graphics_ver d;
     runtime_graphics_ver := runtime_graphics_ver d;
     page_sizes := page_sizes d; cachelevel_to_pat := cachelevel_to_pat d;
     platform_engine_mask := platform_engine_mask d; memory_regions := v;
     gt_slot0 := gt_slot0 d; gt0 := gt0 d; wq := wq d; sched := sched d;
     mm_wq := mm_wq d; mm_sched := mm_sched d; do_release := do_release d |}.

Definition set_gt_slot0 (v : bool) (d : drm_i915_private) : drm_i915_private :=
  {| drm_dev := drm_dev d; drm_driver_of := drm_driver_of d;
     drm_managed := drm_managed d; iov_mode := iov_mode d;
     graphics_ver := graphics_ver d;
     runtime_graphics_ver := runtime_graphics_ver d;
     page_sizes := page_sizes d; cachelevel_to_pat := cachelevel_to_pat d;
     platform_engine_mask := platform_engine_mask d;
     memory_regions := memory_regions d; gt_slot0 := v; gt0 := gt0 d;
     wq := wq d; sched := sched d; mm_wq := mm_wq d; mm_sched := mm_sched d;
     do_release := do_release d |}.

Definition set_gt0 (v : intel_gt) (d : drm_i915_private) : drm_i915_private :=
  {| drm_dev := drm_dev d; drm_driver_of := drm_driver_of d;
     drm_managed := drm_managed d; iov_mode := iov_mode d;
     graphics_ver := graphics_ver d;
     runtime_graphics_ver := runtime_graphics_ver d;
     page_sizes := page_sizes d; cachelevel_to_pat := cachelevel_to_pat d;
     platform_engine_mask := platform_engine_mask d;
     memory_regions := memory_regions d; gt_slot0 := gt_slot0 d; gt0 := v;
     wq := wq d; sched := sched d; mm_wq := mm_wq d; mm_sched := mm_sched d;
     do_release := do_release d |}.

Definition set_wq (v : option handle) (d : drm_i915_private) : drm_i915_private :=
  {| drm_dev := drm_dev d; drm_driver_of := drm_driver_of d;
     drm_managed := drm_managed d; iov_mode := iov_mode d;
     graphics_ver := graphics_ver d;
     runtime_graphics_ver := runtime_graphics_ver d;
     page_sizes := page_sizes d; cachelevel_to_pat := cachelevel_to_pat d;
     platform_engine_mask := platform_engine_mask d;
     memory_regions := memory_regions d; gt_slot0 := gt_slot0 d; gt0 := gt0 d;
     wq := v; sched := sched d; mm_wq := mm_wq d; mm_sched := mm_sched d;
     do_release := do_release d |}.

Definition set_sched (v : option handle) (d : drm_i915_private) : drm_i915_private :=
  {| drm_dev := drm_dev d; drm_driver_of := drm_driver_of d;
     drm_managed := drm_managed d; iov_mode := iov_mode d;
     graphics_ver := graphics_ver d;
     runtime_graphics_ver := runtime_graphics_ver d;
     page_sizes := page_sizes d; cachelevel_to_pat := cachelevel_to_pat d;
     platform_engine_mask := platform_engine_mask d;
     memory_regions := memory_regions d; gt_slot0 := gt_slot0 d; gt0 := gt0 d;
     wq := wq d; sched := v; mm_wq := mm_wq d; mm_sched := mm_sched d;
     do_release := do_release d |}.

Definition set_mm_wq (v : option handle) (d : drm_i915_private) : drm_i915_private :=
  {| drm_dev := drm_dev d; drm_driver_of := drm_driver_of d;
     drm_managed := drm_managed d; iov_mode := iov_mode d;
     graphics_ver := graphics_ver d;
     runtime_graphics_ver := runtime_graphics_ver d;
     page_sizes := page_sizes d; cachelevel_to_pat := cachelevel_to_pat d;
     platform_engine_mask := platform_engine_mask d;
     memory_regions := memory_regions d; gt_slot0 := gt_slot0 d; gt0 := gt0 d;
     wq := wq d; sched := sched d; mm_wq := v; mm_sched := mm_sched d;
     do_release := do_release d |}.

Definition set_mm_sched (v : option handle) (d : drm_i915_private) : drm_i915_private :=
  {| drm_dev := drm_dev d; drm_driver_of := drm_driver_of d;
     drm_managed := drm_managed d; iov_mode := iov_mode d;
     graphics_ver := graphics_ver d;
     runtime_graphics_ver := runtime_graphics_ver d;
     page_sizes := page_sizes d; cachelevel_to_pat := cachelevel_to_pat d;
     platform_engine_mask := platform_engine_mask d;
     memory_regions := memory_regions d; gt_slot0 := gt_slot0 d; gt0 := gt0 d;
     wq := wq d; sched := sched d; mm_wq := mm_wq d; mm_sched := v;
     do_release := do_release d |}.

Definition set_do_release (v : bool) (d : drm_i915_private) : drm_i915_private :=
  {| drm_dev := drm_dev d; drm_driver_of := drm_driver_of d;
     drm_managed := drm_managed d; iov_mode := iov_mode d;
     graphics_ver := graphics_ver d;
     runtime_graphics_ver := runtime_graphics_ver d;
     page_sizes := page_sizes d; cachelevel_to_pat := cachelevel_to_pat d;
     platform_engine_mask := platform_engine_mask d;
     memory_regions := memory_regions d; gt_slot0 := gt_slot0 d; gt0 := gt0 d;
     wq := wq d; sched := sched d; mm_wq := mm_wq d; mm_sched := mm_sched d;
     do_release := v |}.

(** [to_gt(i915)] is [i915->gt[0]], which points at [i915->gt0]. *)
Definition to_gt (d : drm_i915_private) : intel_gt := gt0 d.

Definition on_gt (f : intel_gt -> intel_gt) (d : drm_i915_private) : drm_i915_private :=
  set_gt0 (f (gt0 d)) d.

(** ** State primitives *)

Definition emit (c : call) : M unit := fun w => Ret tt (add_call c w).
Definition acquire (r : resource) : M unit := fun w => Ret tt (add_acquired r w).
Definition release (r : resource) : M unit := fun w => Ret tt (add_released r w).
Definition out_of_fuel {A} : M A := fun w => OutOfFuel w.
Definition fault {A} : M A := fun w => Fault w.

(** A pointer nobody else holds. *)
Definition new_handle : M handle := fun w => Ret (next_handle w) (bump_handle w).

(** Reading and writing through a [struct pci_dev *]. *)
Definition pdev_get {A} (pdev : handle) (proj : pci_dev -> A) : M A :=
  fun w => match pdevs w !! pdev with
           | Some p => Ret (proj p) w
           | None => Fault w
           end.

Definition pdev_set (pdev : handle) (f : pci_dev -> pci_dev) : M unit :=
  fun w => match pdevs w !! pdev with
           | Some p => Ret tt (with_pdevs (<[pdev := f p]> (pdevs w)) w)
           | None => Fault w
           end.

(** Reading and writing through a [struct drm_i915_private *]. *)
Definition i915_get {A} (i915 : handle) (proj : drm_i915_private -> A) : M A :=
  fun w => match devs w !! i915 with
           | Some d => Ret (proj d) w
           | None => Fault w
           end.

Definition i915_set (i915 : handle) (f : drm_i915_private -> drm_i915_private) : M unit :=
  fun w => match devs w !! i915 with
           | Some d => Ret tt (with_devs (<[i915 := f d]> (devs w)) w)
           | None => Fault w
           end.

(** Modelled from the spec: [for_each_engine(engine, gt, id)] visits the
    slots of [gt->engine[]] in index order and skips the empty ones. *)
Fixpoint for_each_engine (slots : list (option handle)) (body : handle -> M unit) : M unit :=
  match slots with
  | [] => ret tt
  | None :: rest => for_each_engine rest body
  | Some engine :: rest => body engine >> for_each_engine rest body
  end.

(** Modelled from the spec: [DMA_BIT_MASK(n)], the mask of the low [n]
    address bits. *)
Definition DMA_BIT_MASK (n : Z) : Z := if n =? 64 then 2 ^ 64 - 1 else 2 ^ n - 1.

(** The line feed that ends a log line, the C escape [\n]. *)
Definition newline : string := String (Ascii.ascii_of_nat 10) EmptyString.

(** Modelled from the spec: [BIT(n)]. *)
Definition BIT (n : Z) : Z := Z.shiftl 1 n.

(** Memory as [kzalloc] and [devm_drm_dev_alloc] hand it out: all zero. *)
Definition zeroed_pci_dev : pci_dev :=
  {| class := 0; dev_release := None; dev_name := None; dev_dma_mask := 0;
     dev_iommu_fake := false; dev_drvdata := None; dev_pm := None;
     dev_kref := 0; dev_devres := [] |}.

Section Device.

Variable K : kconst.

Definition zeroed_gt : intel_gt :=
  {| gt_name := None; gt_mock := false; gt_wakeref_count := 0; gt_ggtt := None;
     gt_vm := None; gt_info_engine_mask := 0;
     gt_engine := replicate (I915_NUM_ENGINES K) None; gt_reset_flags := 0 |}.

Definition zeroed_i915 (pdev : handle) (driver : drm_driver) : drm_i915_private :=
  {| drm_dev := pdev; drm_driver_of := driver; drm_managed := [];
     iov_mode := 0; graphics_ver := 0; runtime_graphics_ver := 0;
     page_sizes := 0; cachelevel_to_pat := replicate (I915_MAX_CACHE_LEVEL K) 0;
     platform_engine_mask := 0; memory_regions := 0; gt_slot0 := false;
     gt0 := zeroed_gt; wq := None; sched := None; mm_wq := None;
     mm_sched := None; do_release := false |}.

Section Run.

Variable o : oracle.

(** ** The collaborators

    Each is reduced to its contract: the call is recorded, a successful
    acquisition enters the ledger, a release strikes it, and a failure leaves
    nothing behind. *)

(** Modelled from the spec: [kzalloc] of the pci_dev, the identity. *)
Definition kzalloc_pdev : M (option handle) :=
  if o_kzalloc_pdev o then
    let* p := new_handle in
    emit (c_kzalloc_pdev (Some p)) >>
    acquire Identity >>
    (fun w => Ret (Some p) (with_pdevs (<[p := zeroed_pci_dev]> (pdevs w)) w))
  else
    emit (c_kzalloc_pdev None) >> ret None.

(** Modelled from the spec: [device_initialize] starts the reference count
    of the identity at one. *)
Definition device_initialize (pdev : handle) : M unit :=
  emit (c_device_initialize pdev) >>
  pdev_set pdev (fun p => set_dev_devres [] (set_dev_kref 1 p)).

(** Modelled from the spec: [dev_set_name] and
    [dma_coerce_mask_and_coherent] name the identity and give it its address
    capability; neither can fail here and neither holds a resource. *)
Definition dev_set_name (pdev : handle) (name : string) : M unit :=
  emit (c_dev_set_name pdev name) >>
  pdev_set pdev (set_dev_name (Some name)).

Definition dma_coerce_mask_and_coherent (pdev : handle) (mask : Z) : M unit :=
  emit (c_dma_coerce_mask_and_coherent pdev mask) >>
  pdev_set pdev (set_dev_dma_mask mask).

(** Modelled from the spec: [devres_open_group] opens the grouped scope on
    the identity; the newest devres entry is kept first. *)
Definition devres_open_group (pdev : handle) : M bool :=
  emit (c_devres_open_group pdev (o_devres_open_group o)) >>
  if o_devres_open_group o then
    acquire DevresGroup >>
    let* l := pdev_get pdev dev_devres in
    pdev_set pdev (set_dev_devres (devres_group_marker :: l)) >>
    ret true
  else ret false.

(** Modelled from the spec: [devm_drm_dev_alloc] allocates the zeroed
    device aggregate, binds it to the identity and the driver, and enters it
    in the grouped scope.  It answers with the pointer, [inr], or with
    [ERR_PTR(err)], [inl err], for a negative errno [err]. *)
Definition devm_drm_dev_alloc (pdev : handle) (driver : drm_driver) : M (Z + handle) :=
  if o_devm_drm_dev_alloc o then
    let* i915 := new_handle in
    emit (c_devm_drm_dev_alloc pdev (Some i915)) >>
    acquire DeviceAggregate >>
    (fun w => Ret tt (with_devs (<[i915 := zeroed_i915 pdev driver]> (devs w)) w)) >>
    let* l := pdev_get pdev dev_devres in
    pdev_set pdev (set_dev_devres (devres_drm_dev i915 :: l)) >>
    ret (inr i915)
  else
    emit (c_devm_drm_dev_alloc pdev None) >> ret (inl (o_devm_drm_dev_alloc_err o)).

(** Modelled from the spec: [pci_set_drvdata] and the power-management
    calls bind the hooks and enable runtime power management; best effort,
    nothing to release. *)
Definition pci_set_drvdata (pdev i915 : handle) : M unit :=
  emit (c_pci_set_drvdata pdev i915) >>
  pdev_set pdev (set_dev_drvdata (Some i915)).

Definition dev_pm_domain_set (pdev : handle) (pd : dev_pm_domain) : M unit :=
  emit (c_dev_pm_domain_set pdev) >>
  pdev_set pdev (set_dev_pm (Some pd)).

Definition pm_runtime_enable (pdev : handle) : M unit :=
  emit (c_pm_runtime_enable pdev).

Definition pm_runtime_dont_use_autosuspend (pdev : handle) : M unit :=
  emit (c_pm_runtime_dont_use_autosuspend pdev).

Definition pm_runtime_enabled (pdev : handle) : M bool :=
  emit (c_pm_runtime_enabled pdev (o_pm_runtime_enabled o)) >>
  ret (o_pm_runtime_enabled o).

Definition pm_runtime_get_sync (pdev : handle) : M Z :=
  emit (c_pm_runtime_get_sync pdev (o_pm_runtime_get_sync o)) >>
  ret (o_pm_runtime_get_sync o).

(** Modelled from the spec: [WARN_ON(x)] complains when [x] is not zero
    and carries on. *)
Definition WARN_ON (x : Z) : M unit :=
  if negb (x =? 0) then emit c_WARN_ON else ret tt.

(** Modelled from the spec: [i915_params_copy] makes the device's private
    copy of the configuration, [i915_params_free] frees it. *)
Definition i915_params_copy (i915 : handle) : M unit :=
  emit (c_i915_params_copy i915) >> acquire ConfigCopy.

Definition i915_params_free (i915 : handle) : M unit :=
  emit (c_i915_params_free i915) >> release ConfigCopy.

(** Modelled from the spec: [intel_runtime_pm_init_early], bookkeeping
    only. *)
Definition intel_runtime_pm_init_early (i915 : handle) : M unit :=
  emit (c_intel_runtime_pm_init_early i915).

(** Modelled from the spec: the mode configuration object,
    [drm_mode_config_init] and [drm_mode_config_cleanup]. *)
Definition drm_mode_config_init (i915 : handle) : M unit :=
  emit (c_drm_mode_config_init i915) >> acquire ModeConfig.

Definition drm_mode_config_cleanup (i915 : handle) : M unit :=
  emit (c_drm_mode_config_cleanup i915) >> release ModeConfig.

(** Modelled from the spec: [intel_root_gt_init_early] sets up the root
    tile, [gt[0] = &gt0]; [intel_gt_driver_late_release_all] releases the
    late allocations of the tiles. *)
Definition intel_root_gt_init_early (i915 : handle) : M unit :=
  emit (c_intel_root_gt_init_early i915) >>
  acquire RootGt >>
  i915_set i915 (set_gt_slot0 true).

Definition intel_gt_driver_late_release_all (i915 : handle) : M unit :=
  emit (c_intel_gt_driver_late_release_all i915) >> release RootGt.

(** Modelled from the spec: the register shim, [init] and [uninit]; [init]
    answers zero on success. *)
Definition mock_uncore_init (i915 : handle) : M Z :=
  emit (c_mock_uncore_init i915 (o_mock_uncore_init o)) >>
  (if o_mock_uncore_init o =? 0 then acquire RegisterShim else ret tt) >>
  ret (o_mock_uncore_init o).

Definition mock_uncore_uninit (i915 : handle) : M unit :=
  emit (c_mock_uncore_uninit i915) >> release RegisterShim.

(** Modelled from the spec: the memory regions, probed by
    [intel_memory_regions_hw_probe] (cannot fail here) and released by
    [intel_memory_regions_driver_release]. *)
Definition intel_memory_regions_hw_probe (i915 : handle) : M unit :=
  emit (c_intel_memory_regions_hw_probe i915) >> acquire MemoryRegions.

Definition intel_memory_regions_driver_release (i915 : handle) : M unit :=
  emit (c_intel_memory_regions_driver_release i915) >> release MemoryRegions.

(** Modelled from the spec: locks, wait queues and the memory-management
    bookkeeping are initialised in place. *)
Definition spin_lock_init (i915 : handle) : M unit := emit (c_spin_lock_init i915).
Definition init_waitqueue_head (i915 : handle) : M unit := emit (c_init_waitqueue_head i915).
Definition i915_gem_init__mm (i915 : handle) : M unit := emit (c_i915_gem_init__mm i915).

(** Modelled from the spec: the workqueue, [allocate] and [destroy]. *)
Definition alloc_workqueue (fmt : string) (flags max_active : Z) (name : string)
  : M (option handle) :=
  if o_alloc_workqueue o then
    let* q := new_handle in
    emit (c_alloc_workqueue fmt flags max_active name (Some q)) >>
    acquire Workqueue >> ret (Some q)
  else
    emit (c_alloc_workqueue fmt flags max_active name None) >> ret None.

Definition destroy_workqueue (q : option handle) : M unit :=
  emit (c_destroy_workqueue q) >> release Workqueue.

(** Modelled from the spec: the scheduler, [create(engine_count, workqueue,
    affinity_mask)] and [release]. *)
Definition i915_sched_engine_create_cpu (width : Z) (q : option handle) (mask : cpumask)
  : M (option handle) :=
  if o_sched_engine_create o then
    let* s := new_handle in
    emit (c_i915_sched_engine_create_cpu width q mask (Some s)) >>
    acquire Scheduler >> ret (Some s)
  else
    emit (c_i915_sched_engine_create_cpu width q mask None) >> ret None.

Definition i915_sched_engine_put (s : option handle) : M unit :=
  emit (c_i915_sched_engine_put s) >> release Scheduler.

(** Modelled from the spec: [mock_init_contexts], test-support
    bookkeeping with no resource of its own. *)
Definition mock_init_contexts (i915 : handle) : M unit := emit (c_mock_init_contexts i915).

(** Modelled from the spec: [drmm_kzalloc], a device-managed allocation,
    freed with the device. *)
Definition drmm_kzalloc (i915 : handle) : M (option handle) :=
  if o_drmm_kzalloc o then
    let* g := new_handle in
    emit (c_drmm_kzalloc i915 (Some g)) >>
    acquire GgttMemory >>
    let* l := i915_get i915 drm_managed in
    i915_set i915 (set_drm_managed (g :: l)) >>
    ret (Some g)
  else
    emit (c_drmm_kzalloc i915 None) >> ret None.

(** Modelled from the spec: the translation layer, [init] and [teardown];
    the teardown unmaps and drops the address-space reference. *)
Definition mock_init_ggtt (i915 : handle) : M unit :=
  emit (c_mock_init_ggtt i915) >> acquire TranslationLayer.

Definition i915_vm_get (ggtt : option handle) : M (option handle) :=
  emit (c_i915_vm_get ggtt) >> ret ggtt.

Definition mock_fini_ggtt (ggtt : option handle) : M unit :=
  emit (c_mock_fini_ggtt ggtt) >> release TranslationLayer.

(** Modelled from the spec: the compute engine, [construct], [init] and
    [remove]; [init] answers zero on success. *)
Definition mock_engine (i915 : handle) (name : string) (id : nat) : M (option handle) :=
  if o_mock_engine o then
    let* e := new_handle in
    emit (c_mock_engine i915 name id (Some e)) >>
    acquire ComputeEngine >> ret (Some e)
  else
    emit (c_mock_engine i915 name id None) >> ret None.

Definition mock_engine_init (engine : option handle) : M Z :=
  emit (c_mock_engine_init engine (o_mock_engine_init o)) >>
  ret (o_mock_engine_init o).

Definition intel_gt_driver_remove (i915 : handle) : M unit :=
  emit (c_intel_gt_driver_remove i915) >> release ComputeEngine.

(** Modelled from the spec: [intel_engines_driver_register] enters the
    engine in the driver-visible table; [ida_init] initialises an allocator
    of ids in place. *)
Definition intel_engines_driver_register (i915 : handle) : M unit :=
  emit (c_intel_engines_driver_register i915).

Definition ida_init (i915 : handle) : M unit := emit (c_ida_init i915).

(** Modelled from the spec: the debugger hooks, [init] and [fini]. *)
Definition i915_debugger_init (i915 : handle) : M unit :=
  emit (c_i915_debugger_init i915) >> acquire Debugger.

Definition i915_debugger_fini (i915 : handle) : M unit :=
  emit (c_i915_debugger_fini i915) >> release Debugger.

(** Modelled from the spec: [mock_engine_flush] flushes the emulated queue
    of one engine. *)
Definition mock_engine_flush (engine : handle) : M unit :=
  emit (c_mock_engine_flush engine).

(** Modelled from the spec: the retire routine attempts to retire all
    in-flight work within the timeout it is handed through the pointer, and
    answers true when no work remains. *)
Definition intel_gt_retire_requests_timeout (i915 : handle) (timeout : Z) : M (bool * Z) :=
  fun w =>
    let r := o_retire o (retire_calls w) timeout in
    Ret r (count_retire (add_call (c_intel_gt_retire_requests_timeout i915 timeout (fst r)) w)).

(** Modelled from the spec: the two drains of deferred object
    destruction. *)
Definition i915_gem_drain_workqueue (i915 : handle) : M unit :=
  emit (c_i915_gem_drain_workqueue i915).

Definition i915_gem_drain_freed_objects (i915 : handle) : M unit :=
  emit (c_i915_gem_drain_freed_objects i915).

(** Modelled from the spec: [pr_err] logs its format string with the
    arguments to fill in. *)
Definition pr_err (fmt : string) (args : list Z) : M unit := emit (c_pr_err fmt args).

(** Modelled from the spec: [kfree] of the pci_dev frees the backing
    storage of the identity. *)
Definition kfree_pdev (pdev : handle) : M unit :=
  emit (c_kfree pdev) >>
  release Identity >>
  (fun w => Ret tt (with_pdevs (delete pdev (pdevs w)) w)).

(** ** The source: draining and the release callback *)

(** [mock_device_flush]: the [do ... while] loop, one unit of fuel for each
    round.  The timeout starts at [MAX_SCHEDULE_TIMEOUT] and is handed to the
    retire routine by reference. *)
Fixpoint mock_device_flush_loop (fuel : nat) (i915 : handle) (timeout : Z) : M unit :=
  match fuel with
  | O => out_of_fuel
  | S fuel' =>
      let* gt := i915_get i915 to_gt in
      for_each_engine (gt_engine gt) mock_engine_flush >>
      let* r := intel_gt_retire_requests_timeout i915 timeout in
      if negb (fst r) then mock_device_flush_loop fuel' i915 (snd r) else ret tt
  end.

Definition mock_device_flush (fuel : nat) (i915 : handle) : M unit :=
  mock_device_flush_loop fuel i915 (MAX_SCHEDULE_TIMEOUT K).

(** [mock_device_release]; [to_i915(dev)] is the same object. *)
Definition mock_device_release (fuel : nat) (dev : handle) : M unit :=
  let i915 := dev in
  let* full := i915_get i915 do_release in
  (if negb full then ret tt (* goto out *)
   else
     i915_debugger_fini i915 >>
     mock_device_flush fuel i915 >>
     intel_gt_driver_remove i915 >>
     i915_gem_drain_workqueue i915 >>
     i915_gem_drain_freed_objects i915 >>
     (let* g := i915_get i915 (fun d => gt_ggtt (to_gt d)) in mock_fini_ggtt g) >>
     (let* s := i915_get i915 sched in i915_sched_engine_put s) >>
     intel_gt_driver_late_release_all i915 >>
     intel_memory_regions_driver_release i915 >>
     (let* q := i915_get i915 wq in destroy_workqueue q) >>
     drm_mode_config_cleanup i915 >>
     mock_uncore_uninit i915) >>
  (* out: *)
  i915_params_free i915.

Definition mock_driver : drm_driver :=
  {| drv_name := "mock"%string; driver_features := DRIVER_GEM K;
     drv_release := Some cb_mock_device_release |}.

(** [release_dev]; [to_pci_dev(dev)] is the same object. *)
Definition release_dev (dev : handle) : M unit :=
  let pdev := dev in
  kfree_pdev pdev.

Definition pm_domain : dev_pm_domain :=
  {| runtime_suspend := Some cb_pm_domain_suspend;
     runtime_resume := Some cb_pm_domain_resume |}.

Definition mock_gt_probe (i915 : handle) : M unit :=
  i915_set i915 (set_gt_slot0 true) >>
  i915_set i915 (on_gt (set_gt_name (Some "Mock GT"%string))).

(** ** The kernel's side of release: devres and the two reference counts *)

(** Modelled from the spec: when the last reference of the drm device goes,
    the driver's release callback runs, then the managed allocations and the
    aggregate itself are freed. *)
Definition drm_dev_release (fuel : nat) (i915 : handle) : M unit :=
  let* driver := i915_get i915 drm_driver_of in
  match drv_release driver with
  | Some cb_mock_device_release => mock_device_release fuel i915
  | None => ret tt
  end >>
  let* managed := i915_get i915 drm_managed in
  foldr (fun _ rest => release GgttMemory >> rest) (ret tt) managed >>
  release DeviceAggregate >>
  (fun w => Ret tt (with_devs (delete i915 (devs w)) w)).

(** Modelled from the spec: releasing a devres entry; the group marker
    stands for the grouped scope itself. *)
Definition devres_release_node (fuel : nat) (n : devres_node) : M unit :=
  match n with
  | devres_group_marker => release DevresGroup
  | devres_drm_dev i915 => drm_dev_release fuel i915
  end.

Fixpoint devres_release_nodes (fuel : nat) (l : list devres_node) : M unit :=
  match l with
  | [] => ret tt
  | n :: rest => devres_release_node fuel n >> devres_release_nodes fuel rest
  end.

(** Modelled from the spec: the entries of the latest open group (newest
    first) and what is left of the list outside it. *)
Fixpoint devres_latest_group (l : list devres_node)
  : option (list devres_node * list devres_node) :=
  match l with
  | [] => None
  | devres_group_marker :: rest => Some ([], rest)
  | n :: rest =>
      match devres_latest_group rest with
      | Some (inside, outside) => Some (n :: inside, outside)
      | None => None
      end
  end.

(** Modelled from the spec: [devres_release_group(dev, NULL)] releases what
    was registered in the latest open group, newest first, and then the group
    itself. *)
Definition devres_release_group (fuel : nat) (pdev : handle) : M unit :=
  emit (c_devres_release_group pdev) >>
  let* l := pdev_get pdev dev_devres in
  match devres_latest_group l with
  | None => ret tt
  | Some (inside, outside) =>
      pdev_set pdev (set_dev_devres outside) >>
      devres_release_nodes fuel inside >>
      devres_release_node fuel devres_group_marker
  end.

(** Modelled from the spec: [put_device] drops a reference of the identity;
    at zero whatever devres still holds is released and the release callback
    of the identity runs. *)
Definition put_device (fuel : nat) (pdev : handle) : M unit :=
  emit (c_put_device pdev) >>
  let* n := pdev_get pdev dev_kref in
  match n with
  | O => fault
  | S O =>
      pdev_set pdev (set_dev_kref 0) >>
      let* l := pdev_get pdev dev_devres in
      pdev_set pdev (set_dev_devres []) >>
      devres_release_nodes fuel l >>
      let* cb := pdev_get pdev dev_release in
      match cb with
      | Some cb_release_dev => release_dev pdev
      | None => ret tt
      end
  | S n' => pdev_set pdev (set_dev_kref n')
  end.

(** ** The source: destruction and construction *)

Definition mock_destroy_device (fuel : nat) (i915 : handle) : M unit :=
  let* dev := i915_get i915 drm_dev in
  devres_release_group fuel dev >>
  put_device fuel dev.

(** The labels of the unwind chain, each falling through to the next. *)
Definition err_drv (fuel : nat) (i915 : handle) : M (option handle) :=
  intel_gt_driver_late_release_all i915 >>
  intel_memory_regions_driver_release i915 >>
  drm_mode_config_cleanup i915 >>
  mock_destroy_device fuel i915 >>
  ret None.

Definition err_uncore (fuel : nat) (i915 : handle) : M (option handle) :=
  mock_uncore_uninit i915 >>
  err_drv fuel i915.

Definition err_free_wq (fuel : nat) (i915 : handle) : M (option handle) :=
  (let* q := i915_get i915 wq in destroy_workqueue q) >>
  err_uncore fuel i915.

Definition err_unlock (fuel : nat) (i915 : handle) : M (option handle) :=
  (let* s := i915_get i915 sched in i915_sched_engine_put s) >>
  err_free_wq fuel i915.

Definition err_context (fuel : nat) (i915 : handle) : M (option handle) :=
  intel_gt_driver_remove i915 >>
  err_unlock fuel i915.

(** [for (i = 0; i < I915_MAX_CACHE_LEVEL; i++) cachelevel_to_pat[i] = i;]
    with [n] rounds to go.  The bound is an enumeration constant, so the
    unsigned counter reaches it without wrapping. *)
Fixpoint cachelevel_loop (n : nat) (i : nat) (i915 : handle) : M unit :=
  match n with
  | O => ret tt
  | S n' =>
      i915_set i915 (fun d =>
        set_cachelevel_to_pat (<[i := Z.of_nat i]> (cachelevel_to_pat d)) d) >>
      cachelevel_loop n' (S i) i915
  end.

(** [mock_gem_device] from the allocation of the engine on.  The slot
    [RCS0] lies inside [gt->engine[]] ([RCS0_in_range]); a read outside the
    array would be a wild pointer. *)
Definition mock_gem_device_engine (fuel : nat) (i915 : handle) : M (option handle) :=
  let* e := mock_engine i915 "mock"%string (RCS0 K) in
  i915_set i915 (on_gt (fun g => set_gt_engine (<[RCS0 K := e]> (gt_engine g)) g)) >>
  let* e := i915_get i915 (fun d => gt_engine (to_gt d) !! RCS0 K) in
  match e with
  | None => fault
  | Some None => err_unlock fuel i915
  | Some (Some _) =>
      let* e := i915_get i915 (fun d => gt_engine (to_gt d) !! RCS0 K) in
      let* r := mock_engine_init (mjoin e) in
      if negb (r =? 0) then err_context fuel i915
      else
        i915_set i915 (on_gt (fun g =>
          set_gt_reset_flags (Z.clearbit (gt_reset_flags g) (I915_WEDGED K)) g)) >>
        intel_engines_driver_register i915 >>
        i915_set i915 (set_do_release true) >>
        ida_init i915 >>
        i915_debugger_init i915 >>
        ret (Some i915)
  end.

(** [mock_gem_device] from the register shim on. *)
Definition mock_gem_device_resources (fuel : nat) (i915 : handle) : M (option handle) :=
  let* r := mock_uncore_init i915 in
  if negb (r =? 0) then err_drv fuel i915
  else
    i915_set i915 (on_gt (fun g => set_gt_wakeref_count (gt_wakeref_count g + 1) g)) >>
    mock_gt_probe i915 >>
    i915_set i915 (set_memory_regions (REGION_SMEM K)) >>
    intel_memory_regions_hw_probe i915 >>
    spin_lock_init i915 >>
    init_waitqueue_head i915 >>
    i915_gem_init__mm i915 >>
    let* q := alloc_workqueue "%s"%string (WQ_UNBOUND K) 0 "mock"%string in
    i915_set i915 (set_wq q) >>
    let* q := i915_get i915 wq in
    match q with
    | None => err_uncore fuel i915
    | Some _ =>
        let* q := i915_get i915 wq in
        let* s := i915_sched_engine_create_cpu 3 q cpu_all_mask in
        i915_set i915 (set_sched s) >>
        let* s := i915_get i915 sched in
        match s with
        | None => err_free_wq fuel i915
        | Some _ =>
            i915_set i915 (fun d => set_mm_sched (sched d) d) >>
            i915_set i915 (fun d => set_mm_wq (wq d) d) >>
            mock_init_contexts i915 >>
            let* ggtt := drmm_kzalloc i915 in
            match ggtt with
            | None => err_unlock fuel i915
            | Some _ =>
                i915_set i915 (on_gt (set_gt_ggtt ggtt)) >>
                mock_init_ggtt i915 >>
                let* g := i915_get i915 (fun d => gt_ggtt (to_gt d)) in
                let* vm := i915_vm_get g in
                i915_set i915 (on_gt (set_gt_vm vm)) >>
                i915_set i915 (set_platform_engine_mask (BIT 0)) >>
                i915_set i915 (on_gt (set_gt_info_engine_mask (BIT 0))) >>
                mock_gem_device_engine fuel i915
            end
        end
    end.

(** [mock_gem_device] once the device aggregate is there. *)
Definition mock_gem_device_init (fuel : nat) (pdev i915 : handle) : M (option handle) :=
  pci_set_drvdata pdev i915 >>
  dev_pm_domain_set pdev pm_domain >>
  pm_runtime_enable pdev >>
  pm_runtime_dont_use_autosuspend pdev >>
  (let* enabled := pm_runtime_enabled pdev in
   if enabled then let* r := pm_runtime_get_sync pdev in WARN_ON r else ret tt) >>
  i915_set i915 (set_iov_mode (I915_IOV_MODE_NONE K)) >>
  i915_params_copy i915 >>
  intel_runtime_pm_init_early i915 >>
  drm_mode_config_init i915 >>
  i915_set i915 (set_graphics_ver (-1)) >>
  i915_set i915 (set_runtime_graphics_ver (Z.lnot 0)) >>
  i915_set i915 (set_page_sizes
    (Z.lor (Z.lor (I915_GTT_PAGE_SIZE_4K K) (I915_GTT_PAGE_SIZE_64K K))
           (I915_GTT_PAGE_SIZE_2M K))) >>
  cachelevel_loop (I915_MAX_CACHE_LEVEL K) 0 i915 >>
  intel_root_gt_init_early i915 >>
  i915_set i915 (on_gt (set_gt_mock true)) >>
  mock_gem_device_resources fuel i915.

(** [mock_gem_device]; the fuel is for the drain loop that the release
    callback would run on a device whose [do_release] is set. *)
Definition mock_gem_device (fuel : nat) : M (option handle) :=
  let* pdev := kzalloc_pdev in
  match pdev with
  | None => ret None
  | Some pdev =>
      device_initialize pdev >>
      pdev_set pdev (set_class (Z.shiftl (PCI_BASE_CLASS_DISPLAY K) 16)) >>
      pdev_set pdev (set_dev_release (Some cb_release_dev)) >>
      dev_set_name pdev "mock"%string >>
      dma_coerce_mask_and_coherent pdev (DMA_BIT_MASK 64) >>
      (if CONFIG_INTEL_IOMMU K then pdev_set pdev (set_dev_iommu_fake true) else ret tt) >>
      let* opened := devres_open_group pdev in
      if negb opened then
        put_device fuel pdev >>
        ret None
      else
        let* i915 := devm_drm_dev_alloc pdev mock_driver in
        match i915 with
        | inl err =>                      (* IS_ERR(i915), err = PTR_ERR(i915) *)
            pr_err ("Failed to allocate mock GEM device: err=%ld" ++ newline)%string [err] >>
            devres_release_group fuel pdev >>
            put_device fuel pdev >>
            ret None
        | inr i915 => mock_gem_device_init fuel pdev i915
        end
  end.

End Run.

End Device.

(** ** The backported [linux/mm.h] *)

Section Mm.

(** The two flag masks come from the kernel's own [linux/mm.h]. *)
Variables VM_SHARED VM_MAYWRITE : Z.

(** [is_cow_mapping]; [vm_flags_t] is an unsigned long. *)
Definition is_cow_mapping (flags : Z) : bool :=
  Z.land flags (Z.lor VM_SHARED VM_MAYWRITE) =? VM_MAYWRITE.

End Mm.

(** ** What a run leaves behind

    The runs of the functions above in closed form: the calls they make and
    the ledger entries they write, as lists.  The lemmas further down prove
    that the functions produce exactly these. *)

(** The calls of one pass over the engines. *)
Definition flushed (slots : list (option handle)) : list call :=
  map c_mock_engine_flush (omap id slots).

(** The world after more calls and more releases, the retire count at [k]. *)
Definition extend (cs : list call) (rel : list resource) (k : nat) (w : world) : world :=
  {| calls := calls w ++ cs; acquired := acquired w; released := released w ++ rel;
     retire_calls := k; next_handle := next_handle w;
     pdevs := pdevs w; devs := devs w |}.

(** The world once the device aggregate and its identity are freed. *)
Definition gone (pdev i915 : handle) (w : world) : world :=
  {| calls := calls w; acquired := acquired w; released := released w;
     retire_calls := retire_calls w; next_handle := next_handle w;
     pdevs := delete pdev (pdevs w); devs := delete i915 (devs w) |}.

(** The world after a run of the construction: more calls, more ledger
    entries, [handles] pointers handed out, and the two stores as given. *)
Definition grow (cs : list call) (acq rel : list resource) (handles : nat)
    (pd : gmap handle pci_dev) (dv : gmap handle drm_i915_private) (w : world) : world :=
  {| calls := calls w ++ cs; acquired := acquired w ++ acq;
     released := released w ++ rel; retire_calls := retire_calls w;
     next_handle := (handles + next_handle w)%nat; pdevs := pd; devs := dv |}.

Definition stop {A} (finished : bool) (a : A) (w : world) : outcome A :=
  if finished then Ret a w else OutOfFuel w.

(** The managed allocations go with the device. *)
Definition managed_released (managed : list handle) : list resource :=
  map (fun _ => GgttMemory) managed.

(** What [mock_device_release] calls after the drain, and what that releases. *)
Definition teardown_calls (i915 : handle) (d : drm_i915_private) : list call :=
  [c_intel_gt_driver_remove i915;
   c_i915_gem_drain_workqueue i915;
   c_i915_gem_drain_freed_objects i915;
   c_mock_fini_ggtt (gt_ggtt (gt0 d));
   c_i915_sched_engine_put (sched d);
   c_intel_gt_driver_late_release_all i915;
   c_intel_memory_regions_driver_release i915;
   c_destroy_workqueue (wq d);
   c_drm_mode_config_cleanup i915;
   c_mock_uncore_uninit i915;
   c_i915_params_free i915].

Definition teardown_released : list resource :=
  [ComputeEngine; TranslationLayer; Scheduler; RootGt; MemoryRegions; Workqueue;
   ModeConfig; RegisterShim; ConfigCopy].

(** The table the loop over the cache levels leaves, [n] rounds from [i]. *)
Fixpoint cachelevel_fill (n i : nat) (tbl : list Z) : list Z :=
  match n with
  | O => tbl
  | S n' => cachelevel_fill n' (S i) (<[i := Z.of_nat i]> tbl)
  end.

(** A call that ends the drain: the retire routine answering that no work
    remains. *)
Definition is_idle_report (c : call) : bool :=
  match c with
  | c_intel_gt_retire_requests_timeout _ _ true => true
  | _ => false
  end.

(** The calls the drain loop makes. *)
Definition is_drain_call (c : call) : bool :=
  match c with
  | c_mock_engine_flush _ | c_intel_gt_retire_requests_timeout _ _ _ => true
  | _ => false
  end.

(** The calls that release the engine and the translation layer. *)
Definition is_engine_or_ggtt_release (c : call) : bool :=
  match c with
  | c_intel_gt_driver_remove _ | c_mock_fini_ggtt _ => true
  | _ => false
  end.

(** The step of the teardown sequence a call belongs to, numbered as the
    design document numbers them. *)
Definition teardown_step (c : call) : option nat :=
  match c with
  | c_i915_debugger_fini _ => Some 1%nat
  | c_mock_engine_flush _ | c_intel_gt_retire_requests_timeout _ _ _ => Some 2%nat
  | c_intel_gt_driver_remove _ => Some 3%nat
  | c_i915_gem_drain_workqueue _ | c_i915_gem_drain_freed_objects _ => Some 4%nat
  | c_mock_fini_ggtt _ => Some 5%nat
  | c_i915_sched_engine_put _ => Some 6%nat
  | c_intel_gt_driver_late_release_all _
  | c_intel_memory_regions_driver_release _ => Some 7%nat
  | c_destroy_workqueue _ => Some 8%nat
  | c_drm_mode_config_cleanup _ => Some 9%nat
  | c_mock_uncore_uninit _ => Some 10%nat
  | c_devres_release_group _ | c_put_device _ | c_kfree _ => Some 11%nat
  | c_i915_params_free _ => Some 12%nat
  | _ => None
  end.

(** The steps of a trace, in the order the calls were made. *)
Definition teardown_steps (cs : list call) : list nat := omap teardown_step cs.

(** Steps taken in order: no step before an earlier-numbered one. *)
Fixpoint in_step_order (steps : list nat) : bool :=
  match steps with
  | a :: (b :: _) as rest => (a <=? b)%nat && in_step_order rest
  | _ => true
  end.

(** What is acquired and not yet released: each release strikes the oldest
    matching entry. *)
Fixpoint strike (r : resource) (l : list resource) : list resource :=
  match l with
  | [] => []
  | x :: rest => if decide (x = r) then rest else x :: strike r rest
  end.

Definition outstanding (acq rel : list resource) : list resource :=
  foldl (fun l r => strike r l) acq rel.

Definition held (w : world) : list resource := outstanding (acquired w) (released w).

(** How often a resource was released. *)
Definition times_released (r : resource) (rel : list resource) : nat :=
  length (filter (fun x => x = r) rel).

Section Summary.

Variable K : kconst.
Variable o : oracle.

(** The rounds of the drain loop: the calls made, the retire count reached,
    and whether the loop came to its end before the fuel ran out. *)
Fixpoint flush_rounds (fuel : nat) (slots : list (option handle)) (i915 : handle)
    (k : nat) (timeout : Z) : list call * nat * bool :=
  match fuel with
  | O => ([], k, false)
  | S fuel' =>
      let r := o_retire o k timeout in
      let round :=
        flushed slots ++ [c_intel_gt_retire_requests_timeout i915 timeout (fst r)] in
      if fst r then (round, S k, true)
      else
        let '(cs, k', finished) := flush_rounds fuel' slots i915 (S k) (snd r) in
        (round ++ cs, k', finished)
  end.

(** The timeout the retire routine is handed on its round [n] of a drain
    that starts at retire count [k] with timeout [t]. *)
Fixpoint timeout_at (n k : nat) (t : Z) : Z :=
  match n with
  | O => t
  | S n' => timeout_at n' (S k) (snd (o_retire o k t))
  end.

(** The retire routine answers "idle" on round [n] of such a drain. *)
Definition idle_at (n k : nat) (t : Z) : Prop :=
  fst (o_retire o (k + n) (timeout_at n k t)) = true.

(** A device aggregate wired to its identity as [mock_gem_device] wires
    them: one reference, one devres group holding the device. *)
Definition bound (pdev i915 : handle) (p : pci_dev) (d : drm_i915_private) : Prop :=
  drm_dev d = pdev /\ drm_driver_of d = mock_driver K /\
  dev_kref p = 1%nat /\ dev_release p = Some cb_release_dev /\
  dev_devres p = [devres_drm_dev i915; devres_group_marker].

Section Handles.

(** The pointers of one construction, in the order they are handed out,
    starting from [n]. *)
Variable n : handle.

Definition the_pdev : handle := n.
Definition the_i915 : handle := S n.
Definition the_wq : handle := S (S n).
Definition the_sched : handle := S (S (S n)).
Definition the_ggtt : handle := S (S (S (S n))).
Definition the_engine : handle := S (S (S (S (S n)))).

Definition bus_calls : list call :=
  [c_kzalloc_pdev (Some the_pdev);
   c_device_initialize the_pdev;
   c_dev_set_name the_pdev "mock"%string;
   c_dma_coerce_mask_and_coherent the_pdev (DMA_BIT_MASK 64)].

Definition pm_calls : list call :=
  [c_pci_set_drvdata the_pdev the_i915;
   c_dev_pm_domain_set the_pdev;
   c_pm_runtime_enable the_pdev;
   c_pm_runtime_dont_use_autosuspend the_pdev;
   c_pm_runtime_enabled the_pdev (o_pm_runtime_enabled o)] ++
  (if o_pm_runtime_enabled o then
     c_pm_runtime_get_sync the_pdev (o_pm_runtime_get_sync o) ::
     (if negb (o_pm_runtime_get_sync o =? 0) then [c_WARN_ON] else [])
   else []).

Definition early_calls : list call :=
  pm_calls ++
  [c_i915_params_copy the_i915;
   c_intel_runtime_pm_init_early the_i915;
   c_drm_mode_config_init the_i915;
   c_intel_root_gt_init_early the_i915].

Definition probe_calls : list call :=
  [c_intel_memory_regions_hw_probe the_i915;
   c_spin_lock_init the_i915;
   c_init_waitqueue_head the_i915;
   c_i915_gem_init__mm the_i915].

(** What [mock_destroy_device] calls on a device that is not ready. *)
Definition destroy_calls : list call :=
  [c_devres_release_group the_pdev;
   c_i915_params_free the_i915;
   c_put_device the_pdev;
   c_kfree the_pdev].

(** The unwind chain from each label, up to the call of
    [mock_destroy_device]. *)
Definition err_drv_head : list call :=
  [c_intel_gt_driver_late_release_all the_i915;
   c_intel_memory_regions_driver_release the_i915;
   c_drm_mode_config_cleanup the_i915].

Definition err_uncore_head : list call :=
  c_mock_uncore_uninit the_i915 :: err_drv_head.

Definition err_free_wq_head : list call :=
  c_destroy_workqueue (Some the_wq) :: err_uncore_head.

Definition err_unlock_head : list call :=
  c_i915_sched_engine_put (Some the_sched) :: err_free_wq_head.

Definition err_context_head : list call :=
  c_intel_gt_driver_remove the_i915 :: err_unlock_head.

Definition err_drv_calls : list call := err_drv_head ++ destroy_calls.
Definition err_uncore_calls : list call := err_uncore_head ++ destroy_calls.
Definition err_free_wq_calls : list call := err_free_wq_head ++ destroy_calls.
Definition err_unlock_calls : list call := err_unlock_head ++ destroy_calls.
Definition err_context_calls : list call := err_context_head ++ destroy_calls.

Definition err_drv_released (managed : list handle) : list resource :=
  [RootGt; MemoryRegions; ModeConfig; ConfigCopy] ++ managed_released managed ++
  [DeviceAggregate; DevresGroup; Identity].

(** The calls up to and including each fallible step. *)
Definition calls_to_group (ok : bool) : list call :=
  bus_calls ++ [c_devres_open_group the_pdev ok].

Definition calls_to_device (r : option handle) : list call :=
  calls_to_group true ++ [c_devm_drm_dev_alloc the_pdev r].

Definition calls_to_shim : list call :=
  calls_to_device (Some the_i915) ++ early_calls ++
  [c_mock_uncore_init the_i915 (o_mock_uncore_init o)].

Definition calls_to_workqueue (r : option handle) : list call :=
  calls_to_shim ++ probe_calls ++
  [c_alloc_workqueue "%s"%string (WQ_UNBOUND K) 0 "mock"%string r].

Definition calls_to_scheduler (r : option handle) : list call :=
  calls_to_workqueue (Some the_wq) ++
  [c_i915_sched_engine_create_cpu 3 (Some the_wq) cpu_all_mask r].

Definition calls_to_ggtt (r : option handle) : list call :=
  calls_to_scheduler (Some the_sched) ++
  [c_mock_init_contexts the_i915; c_drmm_kzalloc the_i915 r].

Definition calls_to_engine (r : option handle) : list call :=
  calls_to_ggtt (Some the_ggtt) ++
  [c_mock_init_ggtt the_i915; c_i915_vm_get (Some the_ggtt);
   c_mock_engine the_i915 "mock"%string (RCS0 K) r].

Definition calls_to_engine_init : list call :=
  calls_to_engine (Some the_engine) ++
  [c_mock_engine_init (Some the_engine) (o_mock_engine_init o)].

Definition calls_to_end : list call :=
  calls_to_engine_init ++
  [c_intel_engines_driver_register the_i915; c_ida_init the_i915;
   c_i915_debugger_init the_i915].

(** The calls that follow the creation of the scheduler. *)
Definition after_engine_init : list call :=
  if negb (o_mock_engine_init o =? 0) then err_context_calls
  else [c_intel_engines_driver_register the_i915; c_ida_init the_i915;
        c_i915_debugger_init the_i915].

Definition after_ggtt : list call :=
  [c_mock_init_ggtt the_i915; c_i915_vm_get (Some the_ggtt)] ++
  (if negb (o_mock_engine o) then
     c_mock_engine the_i915 "mock"%string (RCS0 K) None :: err_unlock_calls
   else
     c_mock_engine the_i915 "mock"%string (RCS0 K) (Some the_engine) ::
     c_mock_engine_init (Some the_engine) (o_mock_engine_init o) :: after_engine_init).

Definition after_scheduler : list call :=
  if negb (o_sched_engine_create o) then err_free_wq_calls
  else
    c_mock_init_contexts the_i915 ::
    (if negb (o_drmm_kzalloc o) then c_drmm_kzalloc the_i915 None :: err_unlock_calls
     else c_drmm_kzalloc the_i915 (Some the_ggtt) :: after_ggtt).

(** The identity as the construction leaves it. *)
Definition constructed_pdev : pci_dev :=
  {| class := Z.shiftl (PCI_BASE_CLASS_DISPLAY K) 16;
     dev_release := Some cb_release_dev;
     dev_name := Some "mock"%string;
     dev_dma_mask := DMA_BIT_MASK 64;
     dev_iommu_fake := CONFIG_INTEL_IOMMU K;
     dev_drvdata := Some the_i915;
     dev_pm := Some pm_domain;
     dev_kref := 1%nat;
     dev_devres := [devres_drm_dev the_i915; devres_group_marker] |}.

(** The device aggregate when the register shim is about to be set up. *)
Definition prepared_i915 : drm_i915_private :=
  {| drm_dev := the_pdev; drm_driver_of := mock_driver K; drm_managed := [];
     iov_mode := I915_IOV_MODE_NONE K; graphics_ver := -1;
     runtime_graphics_ver := Z.lnot 0;
     page_sizes :=
       Z.lor (Z.lor (I915_GTT_PAGE_SIZE_4K K) (I915_GTT_PAGE_SIZE_64K K))
             (I915_GTT_PAGE_SIZE_2M K);
     cachelevel_to_pat :=
       cachelevel_fill (I915_MAX_CACHE_LEVEL K) 0 (replicate (I915_MAX_CACHE_LEVEL K) 0);
     platform_engine_mask := 0; memory_regions := 0; gt_slot0 := true;
     gt0 :=
       {| gt_name := None; gt_mock := true; gt_wakeref_count := 0; gt_ggtt := None;
          gt_vm := None; gt_info_engine_mask := 0;
          gt_engine := replicate (I915_NUM_ENGINES K) None; gt_reset_flags := 0 |};
     wq := None; sched := None; mm_wq := None; mm_sched := None;
     do_release := false |}.

(** The device aggregate that [mock_gem_device] hands to its caller. *)
Definition constructed_i915 : drm_i915_private :=
  {| drm_dev := the_pdev; drm_driver_of := mock_driver K; drm_managed := [the_ggtt];
     iov_mode := I915_IOV_MODE_NONE K; graphics_ver := -1;
     runtime_graphics_ver := Z.lnot 0;
     page_sizes :=
       Z.lor (Z.lor (I915_GTT_PAGE_SIZE_4K K) (I915_GTT_PAGE_SIZE_64K K))
             (I915_GTT_PAGE_SIZE_2M K);
     cachelevel_to_pat :=
       cachelevel_fill (I915_MAX_CACHE_LEVEL K) 0 (replicate (I915_MAX_CACHE_LEVEL K) 0);
     platform_engine_mask := BIT 0; memory_regions := REGION_SMEM K; gt_slot0 := true;
     gt0 :=
       {| gt_name := Some "Mock GT"%string; gt_mock := true; gt_wakeref_count := 0 + 1;
          gt_ggtt := Some the_ggtt; gt_vm := Some the_ggtt;
          gt_info_engine_mask := BIT 0;
          gt_engine := <[RCS0 K := Some the_engine]> (replicate (I915_NUM_ENGINES K) None);
          gt_reset_flags := Z.clearbit 0 (I915_WEDGED K) |};
     wq := Some the_wq; sched := Some the_sched;
     mm_wq := Some the_wq; mm_sched := Some the_sched;
     do_release := true |}.

End Handles.

(** The world when the register shim is about to be set up. *)
Definition prepared (w : world) : world :=
  let n := next_handle w in
  grow (calls_to_device n (Some (the_i915 n)) ++ early_calls n)
       [Identity; DevresGroup; DeviceAggregate; ConfigCopy; ModeConfig; RootGt] [] 2
       (<[the_pdev n := constructed_pdev n]> (pdevs w))
       (<[the_i915 n := prepared_i915 n]> (devs w)) w.

(** Every resource a construction that comes to its end acquires, in the
    order of acquisition. *)
Definition all_acquired : list resource :=
  [Identity; DevresGroup; DeviceAggregate; ConfigCopy; ModeConfig; RootGt;
   RegisterShim; MemoryRegions; Workqueue; Scheduler; GgttMemory; TranslationLayer;
   ComputeEngine; Debugger].

(** A failed construction: the calls made, what was acquired and released,
    how many pointers were handed out, and whether the device aggregate was
    ever there. *)
Definition failed (cs : list call) (acq rel : list resource) (handles : nat)
    (had_i915 : bool) (w : world) : outcome (option handle) :=
  let n := next_handle w in
  Ret None
    (grow cs acq rel handles (delete (the_pdev n) (pdevs w))
          (if had_i915 then delete (the_i915 n) (devs w) else devs w) w).

(** The run of [mock_gem_device], step by fallible step. *)
Definition construct_outcome (w : world) : outcome (option handle) :=
  let n := next_handle w in
  if negb (o_kzalloc_pdev o) then
    Ret None (grow [c_kzalloc_pdev None] [] [] 0 (pdevs w) (devs w) w)
  else if negb (o_devres_open_group o) then
    failed (calls_to_group n false ++ [c_put_device (the_pdev n); c_kfree (the_pdev n)])
           [Identity] [Identity] 1 false w
  else if negb (o_devm_drm_dev_alloc o) then
    failed (calls_to_device n None ++
            [c_pr_err ("Failed to allocate mock GEM device: err=%ld" ++ newline)%string
                      [o_devm_drm_dev_alloc_err o];
             c_devres_release_group (the_pdev n);
             c_put_device (the_pdev n); c_kfree (the_pdev n)])
           [Identity; DevresGroup] [DevresGroup; Identity] 1 false w
  else if negb (o_mock_uncore_init o =? 0) then
    failed (calls_to_shim n ++ err_drv_calls n)
           (take 6 all_acquired) (err_drv_released []) 2 true w
  else if negb (o_alloc_workqueue o) then
    failed (calls_to_workqueue n None ++ err_uncore_calls n)
           (take 8 all_acquired) (RegisterShim :: err_drv_released []) 2 true w
  else if negb (o_sched_engine_create o) then
    failed (calls_to_scheduler n None ++ err_free_wq_calls n)
           (take 9 all_acquired)
           (Workqueue :: RegisterShim :: err_drv_released []) 3 true w
  else if negb (o_drmm_kzalloc o) then
    failed (calls_to_ggtt n None ++ err_unlock_calls n)
           (take 10 all_acquired)
           (Scheduler :: Workqueue :: RegisterShim :: err_drv_released []) 4 true w
  else if negb (o_mock_engine o) then
    failed (calls_to_engine n None ++ err_unlock_calls n)
           (take 12 all_acquired)
           (Scheduler :: Workqueue :: RegisterShim :: err_drv_released [the_ggtt n])
           5 true w
  else if negb (o_mock_engine_init o =? 0) then
    failed (calls_to_engine_init n ++ err_context_calls n)
           (take 13 all_acquired)
           (ComputeEngine :: Scheduler :: Workqueue :: RegisterShim ::
            err_drv_released [the_ggtt n])
           6 true w
  else
    Ret (Some (the_i915 n))
      (grow (calls_to_end n) all_acquired [] 6
            (<[the_pdev n := constructed_pdev n]> (pdevs w))
            (<[the_i915 n := constructed_i915 n]> (devs w)) w).

(** Every fallible step of the construction succeeds. *)
Definition construction_succeeds : bool :=
  o_kzalloc_pdev o && o_devres_open_group o && o_devm_drm_dev_alloc o &&
  (o_mock_uncore_init o =? 0) && o_alloc_workqueue o && o_sched_engine_create o &&
  o_drmm_kzalloc o && o_mock_engine o && (o_mock_engine_init o =? 0).

(** The device aggregate gets allocated. *)
Definition device_allocated : bool :=
  o_kzalloc_pdev o && o_devres_open_group o && o_devm_drm_dev_alloc o.

End Summary.

(** ** Constants and oracles to run the model on *)

(** The constants with the values of the upstream kernel headers. *)
Definition upstream : kconst :=
  {| I915_MAX_CACHE_LEVEL := 4%nat; I915_NUM_ENGINES := 27%nat; RCS0 := 0%nat;
     I915_WEDGED := 63;
     PCI_BASE_CLASS_DISPLAY := 3; I915_GTT_PAGE_SIZE_4K := 4096;
     I915_GTT_PAGE_SIZE_64K := 65536; I915_GTT_PAGE_SIZE_2M := 2097152;
     REGION_SMEM := 1; I915_IOV_MODE_NONE := 1;
     MAX_SCHEDULE_TIMEOUT := 9223372036854775807; WQ_UNBOUND := 2; DRIVER_GEM := 1;
     CONFIG_INTEL_IOMMU := true;
     RCS0_in_range := Nat.lt_0_succ 26 |}.

(** A retire routine that finds work left on its first [busy] calls and
    uses up one tick of the timeout each time. *)
Definition retire_after (busy : nat) (k : nat) (timeout : Z) : bool * Z :=
  ((busy <=? k)%nat, timeout - 1).

(** Every call succeeds; the tile is idle after [busy] rounds. *)
Definition all_succeed (busy : nat) : oracle :=
  {| o_kzalloc_pdev := true; o_devres_open_group := true;
     o_devm_drm_dev_alloc := true; o_devm_drm_dev_alloc_err := -12; o_pm_runtime_enabled := true;
     o_pm_runtime_get_sync := 0; o_mock_uncore_init := 0;
     o_alloc_workqueue := true; o_sched_engine_create := true;
     o_drmm_kzalloc := true; o_mock_engine := true; o_mock_engine_init := 0;
     o_retire := retire_after busy |}.

(** The allocation of the translation layer fails. *)
Definition ggtt_alloc_fails : oracle :=
  {| o_kzalloc_pdev := true; o_devres_open_group := true;
     o_devm_drm_dev_alloc := true; o_devm_drm_dev_alloc_err := -12; o_pm_runtime_enabled := true;
     o_pm_runtime_get_sync := 0; o_mock_uncore_init := 0;
     o_alloc_workqueue := true; o_sched_engine_create := true;
     o_drmm_kzalloc := false; o_mock_engine := true; o_mock_engine_init := 0;
     o_retire := retire_after 0 |}.

(** The creation of the scheduler fails. *)
Definition sched_create_fails : oracle :=
  {| o_kzalloc_pdev := true; o_devres_open_group := true;
     o_devm_drm_dev_alloc := true; o_devm_drm_dev_alloc_err := -12; o_pm_runtime_enabled := true;
     o_pm_runtime_get_sync := 0; o_mock_uncore_init := 0;
     o_alloc_workqueue := true; o_sched_engine_create := false;
     o_drmm_kzalloc := true; o_mock_engine := true; o_mock_engine_init := 0;
     o_retire := retire_after 0 |}.

(** The construction of the engine fails, after the translation layer was
    set up. *)
Definition engine_fails : oracle :=
  {| o_kzalloc_pdev := true; o_devres_open_group := true;
     o_devm_drm_dev_alloc := true; o_devm_drm_dev_alloc_err := -12; o_pm_runtime_enabled := true;
     o_pm_runtime_get_sync := 0; o_mock_uncore_init := 0;
     o_alloc_workqueue := true; o_sched_engine_create := true;
     o_drmm_kzalloc := true; o_mock_engine := false; o_mock_engine_init := 0;
     o_retire := retire_after 0 |}.

(** A machine on which nothing has happened yet. *)
Definition boot : world :=
  {| calls := []; acquired := []; released := []; retire_calls := 0%nat;
     next_handle := 1%nat; pdevs := ∅; devs := ∅ |}.

(** The machine after one construction that came to its end, with the
    upstream constants. *)
Definition built : world :=
  grow (calls_to_end upstream (all_succeed 0) 1%nat) all_acquired [] 6
       {[ 1%nat := constructed_pdev upstream 1%nat ]}
       {[ 2%nat := constructed_i915 upstream 1%nat ]} boot.

(** A machine holding a device aggregate that construction gave up on
    before [do_release] was set. *)
Definition abandoned : world :=
  grow (calls_to_device 1%nat (Some 2%nat) ++ early_calls (all_succeed 0) 1%nat)
       (take 6 all_acquired) [] 2
       {[ 1%nat := constructed_pdev upstream 1%nat ]}
       {[ 2%nat := prepared_i915 upstream 1%nat ]} boot.

(** ** Reading a trace *)

Definition is_mock_fini_ggtt (c : call) : bool :=
  match c with
  | c_mock_fini_ggtt _ => true
  | _ => false
  end.

(** No call that releases the engine or the translation layer is made
    before the retire routine has answered "idle"; [idle] says whether it
    already has. *)
Fixpoint drained_before_release (idle : bool) (cs : list call) : bool :=
  match cs with
  | [] => true
  | c :: rest =>
      if is_engine_or_ggtt_release c then idle && drained_before_release idle rest
      else drained_before_release (idle || is_idle_report c) rest
  end.

(** The position of the first call that satisfies [p]. *)
Fixpoint position (p : call -> bool) (cs : list call) : option nat :=
  match cs with
  | [] => None
  | c :: rest => if p c then Some 0%nat else S <$> position p rest
  end.

Definition is_params_free (c : call) : bool :=
  match c with c_i915_params_free _ => true | _ => false end.

Definition is_put_device (c : call) : bool :=
  match c with c_put_device _ => true | _ => false end.

(** The cache-attribute table maps every level to itself. *)
Definition identity_table (K : kconst) (tbl : list Z) : Prop :=
  length tbl = I915_MAX_CACHE_LEVEL K /\
  forall i : nat, (i < I915_MAX_CACHE_LEVEL K)%nat -> tbl !! i = Some (Z.of_nat i).

(** The machine after a second construction on [built]. *)
Definition built_twice : world :=
  grow (calls_to_end upstream (all_succeed 0) 7%nat) all_acquired [] 6
       (<[ 7%nat := constructed_pdev upstream 7%nat ]> (pdevs built))
       (<[ 8%nat := constructed_i915 upstream 7%nat ]> (devs built)) built.

(** A caller that constructs one device after another, one oracle for each
    construction, and keeps what it was handed. *)
Fixpoint construct_repeatedly (K : kconst) (os : list oracle) (fuel : nat)
  : M (list (option handle)) :=
  match os with
  | [] => ret []
  | o :: rest =>
      let* r := mock_gem_device K o fuel in
      let* rs := construct_repeatedly K rest fuel in
      ret (r :: rs)
  end.

(** ** More ways to read a trace, and more oracles *)

Definition is_debugger_init (c : call) : bool :=
  match c with c_i915_debugger_init _ => true | _ => false end.

Definition is_debugger_fini (c : call) : bool :=
  match c with c_i915_debugger_fini _ => true | _ => false end.

Definition is_engines_register (c : call) : bool :=
  match c with c_intel_engines_driver_register _ => true | _ => false end.

Definition is_uncore_uninit (c : call) : bool :=
  match c with c_mock_uncore_uninit _ => true | _ => false end.

Definition is_destroy_workqueue (c : call) : bool :=
  match c with c_destroy_workqueue _ => true | _ => false end.

Definition is_hw_probe (c : call) : bool :=
  match c with c_intel_memory_regions_hw_probe _ => true | _ => false end.

(** The calls that ask runtime power management how it fares, and the
    warning about its answer. *)
Definition is_pm_answer (c : call) : bool :=
  match c with
  | c_pm_runtime_enabled _ _ | c_pm_runtime_get_sync _ _ | c_WARN_ON => true
  | _ => false
  end.

Definition is_warning (c : call) : bool :=
  match c with c_WARN_ON => true | _ => false end.

(** The oracle [o] with other answers from runtime power management. *)
Definition with_pm (enabled : bool) (sync : Z) (o : oracle) : oracle :=
  {| o_kzalloc_pdev := o_kzalloc_pdev o; o_devres_open_group := o_devres_open_group o;
     o_devm_drm_dev_alloc := o_devm_drm_dev_alloc o;
     o_devm_drm_dev_alloc_err := o_devm_drm_dev_alloc_err o; o_pm_runtime_enabled := enabled;
     o_pm_runtime_get_sync := sync; o_mock_uncore_init := o_mock_uncore_init o;
     o_alloc_workqueue := o_alloc_workqueue o;
     o_sched_engine_create := o_sched_engine_create o;
     o_drmm_kzalloc := o_drmm_kzalloc o; o_mock_engine := o_mock_engine o;
     o_mock_engine_init := o_mock_engine_init o; o_retire := o_retire o |}.

(** How often a resource was acquired. *)
Definition times_acquired (r : resource) (acq : list resource) : nat :=
  length (filter (fun x => x = r) acq).

Section Drain.

Variable o : oracle.

(** The calls of [n] rounds of the drain that all find work left, from
    retire count [k] and timeout [t] on. *)
Fixpoint busy_trace (slots : list (option handle)) (i915 : handle)
    (k : nat) (t : Z) (n : nat) : list call :=
  match n with
  | O => []
  | S n' =>
      flushed slots ++ [c_intel_gt_retire_requests_timeout i915 t false] ++
      busy_trace slots i915 (S k) (snd (o_retire o k t)) n'
  end.

(** The calls of a drain whose retire routine first answers "idle" on
    round [n]: [n] rounds that find work left, then one that does not. *)
Definition drain_trace (slots : list (option handle)) (i915 : handle)
    (k : nat) (t : Z) (n : nat) : list call :=
  busy_trace slots i915 k t n ++
  flushed slots ++ [c_intel_gt_retire_requests_timeout i915 (timeout_at o n k t) true].

(** The retire routine, asked from retire count [k] on with the timeouts it
    leaves behind, finds work left on the rounds before [n]. *)
Definition busy_before (n k : nat) (t : Z) : Prop :=
  forall m, (m < n)%nat -> fst (o_retire o (k + m) (timeout_at o m k t)) = false.

(** The retire routine never finds the tile idle. *)
Definition never_idle : Prop := forall k t, fst (o_retire o k t) = false.

(** The retire routine finds the tile idle whenever it is asked. *)
Definition always_idle : Prop := forall k t, fst (o_retire o k t) = true.

End Drain.

Definition is_retire (c : call) : bool :=
  match c with c_intel_gt_retire_requests_timeout _ _ _ => true | _ => false end.

Definition is_engine_flush (c : call) : bool :=
  match c with c_mock_engine_flush _ => true | _ => false end.

(** A retire routine that always finds work left, and lets the timeout run
    down below zero. *)
Definition retire_never (k : nat) (timeout : Z) : bool * Z := (false, timeout - 1).

Definition never_drained : oracle :=
  {| o_kzalloc_pdev := true; o_devres_open_group := true;
     o_devm_drm_dev_alloc := true; o_devm_drm_dev_alloc_err := -12; o_pm_runtime_enabled := true;
     o_pm_runtime_get_sync := 0; o_mock_uncore_init := 0;
     o_alloc_workqueue := true; o_sched_engine_create := true;
     o_drmm_kzalloc := true; o_mock_engine := true; o_mock_engine_init := 0;
     o_retire := retire_never |}.

(** Oracles that fail one step each; [-12] is [-ENOMEM]. *)
Definition identity_alloc_fails : oracle :=
  {| o_kzalloc_pdev := false; o_devres_open_group := true;
     o_devm_drm_dev_alloc := true; o_devm_drm_dev_alloc_err := -12; o_pm_runtime_enabled := true;
     o_pm_runtime_get_sync := 0; o_mock_uncore_init := 0;
     o_alloc_workqueue := true; o_sched_engine_create := true;
     o_drmm_kzalloc := true; o_mock_engine := true; o_mock_engine_init := 0;
     o_retire := retire_after 0 |}.

Definition group_open_fails : oracle :=
  {| o_kzalloc_pdev := true; o_devres_open_group := false;
     o_devm_drm_dev_alloc := true; o_devm_drm_dev_alloc_err := -12; o_pm_runtime_enabled := true;
     o_pm_runtime_get_sync := 0; o_mock_uncore_init := 0;
     o_alloc_workqueue := true; o_sched_engine_create := true;
     o_drmm_kzalloc := true; o_mock_engine := true; o_mock_engine_init := 0;
     o_retire := retire_after 0 |}.

Definition device_alloc_fails : oracle :=
  {| o_kzalloc_pdev := true; o_devres_open_group := true;
     o_devm_drm_dev_alloc := false; o_devm_drm_dev_alloc_err := -12; o_pm_runtime_enabled := true;
     o_pm_runtime_get_sync := 0; o_mock_uncore_init := 0;
     o_alloc_workqueue := true; o_sched_engine_create := true;
     o_drmm_kzalloc := true; o_mock_engine := true; o_mock_engine_init := 0;
     o_retire := retire_after 0 |}.

Definition uncore_init_fails : oracle :=
  {| o_kzalloc_pdev := true; o_devres_open_group := true;
     o_devm_drm_dev_alloc := true; o_devm_drm_dev_alloc_err := -12; o_pm_runtime_enabled := true;
     o_pm_runtime_get_sync := 0; o_mock_uncore_init := -12;
     o_alloc_workqueue := true; o_sched_engine_create := true;
     o_drmm_kzalloc := true; o_mock_engine := true; o_mock_engine_init := 0;
     o_retire := retire_after 0 |}.

Definition workqueue_alloc_fails : oracle :=
  {| o_kzalloc_pdev := true; o_devres_open_group := true;
     o_devm_drm_dev_alloc := true; o_devm_drm_dev_alloc_err := -12; o_pm_runtime_enabled := true;
     o_pm_runtime_get_sync := 0; o_mock_uncore_init := 0;
     o_alloc_workqueue := false; o_sched_engine_create := true;
     o_drmm_kzalloc := true; o_mock_engine := true; o_mock_engine_init := 0;
     o_retire := retire_after 0 |}.

Definition engine_init_fails : oracle :=
  {| o_kzalloc_pdev := true; o_devres_open_group := true;
     o_devm_drm_dev_alloc := true; o_devm_drm_dev_alloc_err := -12; o_pm_runtime_enabled := true;
     o_pm_runtime_get_sync := 0; o_mock_uncore_init := 0;
     o_alloc_workqueue := true; o_sched_engine_create := true;
     o_drmm_kzalloc := true; o_mock_engine := true; o_mock_engine_init := -12;
     o_retire := retire_after 0 |}.

(** ** Symbolic execution *)

(** Unfold the state primitives, the record accessors and the collaborators,
    leaving the operations on the two stores folded. *)
Ltac unfold_prims :=
  cbv beta iota zeta delta
    [bind ret emit acquire release out_of_fuel fault new_handle
     pdev_get pdev_set i915_get i915_set
     add_call add_acquired add_released count_retire bump_handle with_pdevs with_devs
     calls acquired released retire_calls next_handle pdevs devs
     set_class set_dev_release set_dev_name set_dev_dma_mask set_dev_iommu_fake
     set_dev_drvdata set_dev_pm set_dev_kref set_dev_devres
     class dev_release dev_name dev_dma_mask dev_iommu_fake dev_drvdata dev_pm dev_kref
     dev_devres
     set_gt_name set_gt_mock set_gt_wakeref_count set_gt_ggtt set_gt_vm
     set_gt_info_engine_mask set_gt_engine set_gt_reset_flags
     gt_name gt_mock gt_wakeref_count gt_ggtt gt_vm gt_info_engine_mask gt_engine
     gt_reset_flags
     set_drm_managed set_iov_mode set_graphics_ver set_runtime_graphics_ver set_page_sizes
     set_cachelevel_to_pat set_platform_engine_mask set_memory_regions set_gt_slot0 set_gt0
     set_wq set_sched set_mm_wq set_mm_sched set_do_release
     drm_dev drm_driver_of drm_managed iov_mode graphics_ver runtime_graphics_ver page_sizes
     cachelevel_to_pat platform_engine_mask memory_regions gt_slot0 gt0 wq sched mm_wq
     mm_sched do_release to_gt on_gt zeroed_pci_dev zeroed_gt zeroed_i915
     drv_name driver_features drv_release mock_driver pm_domain
     kzalloc_pdev device_initialize dev_set_name dma_coerce_mask_and_coherent
     devres_open_group devm_drm_dev_alloc pci_set_drvdata dev_pm_domain_set
     pm_runtime_enable pm_runtime_dont_use_autosuspend pm_runtime_enabled pm_runtime_get_sync
     WARN_ON i915_params_copy i915_params_free intel_runtime_pm_init_early
     drm_mode_config_init drm_mode_config_cleanup intel_root_gt_init_early
     intel_gt_driver_late_release_all mock_uncore_init mock_uncore_uninit
     intel_memory_regions_hw_probe intel_memory_regions_driver_release
     spin_lock_init init_waitqueue_head i915_gem_init__mm alloc_workqueue destroy_workqueue
     i915_sched_engine_create_cpu i915_sched_engine_put mock_init_contexts drmm_kzalloc
     mock_init_ggtt i915_vm_get mock_fini_ggtt mock_engine mock_engine_init
     intel_gt_driver_remove intel_engines_driver_register ida_init
     i915_debugger_init i915_debugger_fini mock_engine_flush
     intel_gt_retire_requests_timeout i915_gem_drain_workqueue i915_gem_drain_freed_objects
     pr_err kfree_pdev release_dev mock_gt_probe
     devres_release_node devres_release_nodes devres_latest_group
     negb fst snd mjoin].

(** Read what was just written; keep one write per handle. *)
Ltac store_step :=
  first [ rewrite lookup_insert_eq | rewrite insert_insert_eq | rewrite delete_insert_eq
        | match goal with H : _ !! _ = Some _ |- _ => rewrite H end ].

Ltac run := unfold_prims; repeat (store_step; unfold_prims).

(** Two worlds that differ in how their lists are bracketed. *)
Ltac world_eq :=
  repeat match goal with w : world |- _ => destruct w end;
  unfold stop, extend, gone, grow; cbn [calls acquired released retire_calls
    next_handle pdevs devs];
  rewrite ?app_nil_r;
  repeat first [ rewrite <- app_assoc | progress cbn [app] ];
  try reflexivity.

Ltac unfold_summary :=
  unfold construct_outcome, failed, prepared, calls_to_end, calls_to_engine_init,
    calls_to_engine, calls_to_ggtt, calls_to_scheduler, calls_to_workqueue,
    calls_to_shim, calls_to_device, calls_to_group, err_context_calls,
    err_unlock_calls, err_free_wq_calls, err_uncore_calls, err_drv_calls,
    err_context_head, err_unlock_head, err_free_wq_head, err_uncore_head,
    err_drv_head, destroy_calls, err_drv_released, managed_released, probe_calls, early_calls,
    pm_calls, bus_calls, all_acquired, constructed_pdev, constructed_i915,
    prepared_i915, the_engine, the_ggtt, the_sched, the_wq, the_i915, the_pdev.

Ltac side :=
  first [ cbn; apply lookup_insert_eq
        | cbn; eassumption
        | repeat split; reflexivity ].

Section Runs.

Variable K : kconst.
Variable o : oracle.

(** *** The drain loop *)

Lemma for_each_engine_run slots w :
  for_each_engine slots mock_engine_flush w =
    Ret tt (extend (flushed slots) [] (retire_calls w) w).
Proof.
  revert w. induction slots as [|[e|] slots IH]; intros w.
  - unfold flushed; cbn. unfold ret. world_eq.
  - cbn [for_each_engine]. unfold bind at 1, mock_engine_flush at 1, emit.
    rewrite IH. unfold flushed, add_call; cbn. world_eq.
  - cbn [for_each_engine]. apply IH.
Qed.

Lemma flush_loop_run fuel : forall timeout w i915 d,
  devs w !! i915 = Some d ->
  mock_device_flush_loop o fuel i915 timeout w =
    let '(cs, k, finished) :=
      flush_rounds o fuel (gt_engine (gt0 d)) i915 (retire_calls w) timeout in
    stop finished tt (extend cs [] k w).
Proof.
  induction fuel as [|fuel IH]; intros timeout w i915 d Hd.
  - cbn. unfold out_of_fuel. world_eq.
  - cbn [mock_device_flush_loop flush_rounds].
    unfold bind at 1, i915_get at 1. rewrite Hd.
    unfold bind at 1. rewrite for_each_engine_run.
    unfold bind at 1, intel_gt_retire_requests_timeout at 1, to_gt.
    cbn [retire_calls extend].
    destruct (o_retire o (retire_calls w) timeout) as [[|] t'] eqn:Er; cbn [fst snd negb].
    + unfold ret, count_retire, add_call. world_eq.
    + erewrite IH by exact Hd.
      cbn [retire_calls count_retire add_call extend].
      destruct (flush_rounds o fuel (gt_engine (gt0 d)) i915 (S (retire_calls w)) t')
        as [[cs k] finished].
      unfold count_retire, add_call. world_eq.
Qed.

(** The drain makes drain calls only. *)
Lemma flush_rounds_drain fuel : forall slots i915 k t,
  forallb is_drain_call (flush_rounds o fuel slots i915 k t).1.1 = true.
Proof.
  induction fuel as [|fuel IH]; intros slots i915 k t; [reflexivity|].
  cbn [flush_rounds].
  assert (Hf : forallb is_drain_call (flushed slots) = true).
  { unfold flushed. induction (omap id slots); [reflexivity|]. cbn. exact IHl. }
  destruct (o_retire o k t) as [[|] t']; cbn [fst snd].
  - rewrite forallb_app, Hf. reflexivity.
  - specialize (IH slots i915 (S k) t').
    destruct (flush_rounds o fuel slots i915 (S k) t') as [[cs k'] finished].
    cbn [fst] in *. rewrite !forallb_app, Hf, IH. reflexivity.
Qed.

(** A drain that comes to its end ends on the retire routine answering
    "idle", and that is the only such answer; a drain cut short has seen
    none. *)
Lemma flush_rounds_idle fuel : forall slots i915 k t,
  let '(cs, _, finished) := flush_rounds o fuel slots i915 k t in
  if finished then
    exists pre t', cs = pre ++ [c_intel_gt_retire_requests_timeout i915 t' true] /\
                   existsb is_idle_report pre = false
  else existsb is_idle_report cs = false.
Proof.
  induction fuel as [|fuel IH]; intros slots i915 k t; [reflexivity|].
  cbn [flush_rounds].
  assert (Hf : existsb is_idle_report (flushed slots) = false).
  { unfold flushed. induction (omap id slots); [reflexivity|]. cbn. exact IHl. }
  destruct (o_retire o k t) as [[|] t']; cbn [fst snd].
  - exists (flushed slots), t. split; [reflexivity | exact Hf].
  - specialize (IH slots i915 (S k) t').
    destruct (flush_rounds o fuel slots i915 (S k) t') as [[cs k'] [|]].
    + destruct IH as (pre & t'' & -> & Hpre).
      exists ((flushed slots ++ [c_intel_gt_retire_requests_timeout i915 t false]) ++ pre), t''.
      split; [by rewrite <- !app_assoc|].
      rewrite !existsb_app, Hf, Hpre. reflexivity.
    + rewrite !existsb_app, Hf, IH. reflexivity.
Qed.

(** With the retire routine idle on round [n], [S n] units of fuel see the
    drain through. *)
Lemma flush_rounds_finish n : forall slots i915 k t,
  idle_at o n k t ->
  (flush_rounds o (S n) slots i915 k t).2 = true.
Proof.
  induction n as [|n IH]; intros slots i915 k t Hidle; unfold idle_at in Hidle.
  - cbn in Hidle. rewrite Nat.add_0_r in Hidle. cbn [flush_rounds].
    rewrite Hidle. reflexivity.
  - cbn [timeout_at] in Hidle.
    replace (k + S n)%nat with (S k + n)%nat in Hidle by lia.
    specialize (IH slots i915 (S k) (snd (o_retire o k t)) Hidle).
    remember (S n) as m. cbn [flush_rounds].
    destruct (fst (o_retire o k t)); [reflexivity|].
    destruct (flush_rounds o m slots i915 (S k) (snd (o_retire o k t))) as [[cs k'] fin].
    exact IH.
Qed.

(** *** The release callback *)

Lemma mock_device_release_skip fuel w i915 d :
  devs w !! i915 = Some d -> do_release d = false ->
  mock_device_release K o fuel i915 w =
    Ret tt (extend [c_i915_params_free i915] [ConfigCopy] (retire_calls w) w).
Proof.
  intros Hd Hr. unfold mock_device_release.
  unfold bind at 1, i915_get at 1. rewrite Hd, Hr.
  unfold_prims. world_eq.
Qed.

Lemma mock_device_release_full fuel w i915 d :
  devs w !! i915 = Some d -> do_release d = true ->
  mock_device_release K o fuel i915 w =
    let '(cs, k, finished) :=
      flush_rounds o fuel (gt_engine (gt0 d)) i915 (retire_calls w)
                   (MAX_SCHEDULE_TIMEOUT K) in
    if finished then
      Ret tt (extend (c_i915_debugger_fini i915 :: cs ++ teardown_calls i915 d)
                     (Debugger :: teardown_released) k w)
    else
      OutOfFuel (extend (c_i915_debugger_fini i915 :: cs) [Debugger] k w).
Proof.
  intros Hd Hr. unfold mock_device_release.
  unfold bind at 1, i915_get at 1. rewrite Hd, Hr. cbn [negb].
  unfold bind at 1. unfold bind at 1. unfold bind at 1.
  unfold i915_debugger_fini, bind at 1, emit, release.
  unfold mock_device_flush.
  erewrite flush_loop_run by (destruct w; exact Hd).
  cbn [retire_calls add_call add_released].
  destruct (flush_rounds _ _ _ _ _ _) as [[cs k] [|]]; unfold stop.
  - destruct w as [c a r rc nh pd dv]; cbn in Hd. unfold extend.
    run. unfold teardown_calls, teardown_released. world_eq.
  - unfold add_released, add_call. world_eq.
Qed.

(** *** Destruction *)

Lemma drm_managed_release_run (managed : list handle) w :
  foldr (fun _ rest => release GgttMemory >> rest)%prog (ret tt) managed w =
    Ret tt (extend [] (managed_released managed) (retire_calls w) w).
Proof.
  revert w. induction managed as [|g managed IH]; intros w; cbn [foldr].
  - unfold ret. world_eq.
  - unfold bind at 1, release at 1. rewrite IH. unfold add_released. world_eq.
Qed.

Lemma mock_destroy_device_skip fuel w pdev i915 p d :
  devs w !! i915 = Some d -> pdevs w !! pdev = Some p -> bound K pdev i915 p d ->
  do_release d = false ->
  mock_destroy_device K o fuel i915 w =
    Ret tt (gone pdev i915
      (extend [c_devres_release_group pdev; c_i915_params_free i915;
               c_put_device pdev; c_kfree pdev]
              (ConfigCopy :: managed_released (drm_managed d) ++
               [DeviceAggregate; DevresGroup; Identity])
              (retire_calls w) w)).
Proof.
  intros Hd Hp (Hdev & Hdrv & Hk & Hrel & Hres) Hr.
  unfold mock_destroy_device, devres_release_group, put_device.
  destruct w as [c a r rc nh pd dv]; cbn in Hd, Hp.
  destruct p as [p1 p2 p3 p4 p5 p6 p7 p8 p9].
  destruct d as [d1 d2 d3 d4 d5 d6 d7 d8 d9 d10 d11 d12 d13 d14 d15 d16 d17].
  cbn in Hdev, Hdrv, Hk, Hrel, Hres, Hr; subst.
  run. unfold drm_dev_release. run.
  erewrite mock_device_release_skip by (cbn; first [eassumption | reflexivity]).
  unfold extend. run.
  rewrite drm_managed_release_run. unfold extend. run.
  world_eq.
Qed.

Lemma mock_destroy_device_full fuel w pdev i915 p d :
  devs w !! i915 = Some d -> pdevs w !! pdev = Some p -> bound K pdev i915 p d ->
  do_release d = true ->
  mock_destroy_device K o fuel i915 w =
    let '(cs, k, finished) :=
      flush_rounds o fuel (gt_engine (gt0 d)) i915 (retire_calls w)
                   (MAX_SCHEDULE_TIMEOUT K) in
    if finished then
      Ret tt (gone pdev i915
        (extend (c_devres_release_group pdev :: c_i915_debugger_fini i915 ::
                 cs ++ teardown_calls i915 d ++ [c_put_device pdev; c_kfree pdev])
                (Debugger :: teardown_released ++ managed_released (drm_managed d) ++
                 [DeviceAggregate; DevresGroup; Identity])
                k w))
    else
      OutOfFuel
        (extend (c_devres_release_group pdev :: c_i915_debugger_fini i915 :: cs)
                [Debugger] k
                (with_pdevs (<[pdev := set_dev_devres [] p]> (pdevs w)) w)).
Proof.
  intros Hd Hp (Hdev & Hdrv & Hk & Hrel & Hres) Hr.
  unfold mock_destroy_device, devres_release_group, put_device.
  destruct w as [c a r rc nh pd dv]; cbn in Hd, Hp.
  destruct p as [p1 p2 p3 p4 p5 p6 p7 p8 p9].
  destruct d as [d1 d2 d3 d4 d5 d6 d7 d8 d9 d10 d11 d12 d13 d14 d15 d16 d17].
  cbn in Hdev, Hdrv, Hk, Hrel, Hres, Hr; subst.
  run. unfold drm_dev_release. run.
  erewrite mock_device_release_full by (cbn; first [eassumption | reflexivity]).
  cbn [retire_calls gt_engine gt0].
  destruct (flush_rounds _ _ _ _ _ _) as [[cs k] [|]].
  - unfold extend. run.
    rewrite drm_managed_release_run. unfold extend. run.
    unfold teardown_calls, teardown_released. world_eq.
  - unfold extend. run. world_eq.
Qed.

(** *** Construction *)

Lemma cachelevel_loop_run n : forall i w i915 d,
  devs w !! i915 = Some d ->
  cachelevel_loop n i i915 w =
    Ret tt (with_devs
      (<[i915 := set_cachelevel_to_pat (cachelevel_fill n i (cachelevel_to_pat d)) d]>
         (devs w)) w).
Proof.
  induction n as [|n IH]; intros i w i915 d Hd.
  - cbn. unfold ret. f_equal. destruct w as [c a r rc nh pd dv]; cbn in Hd.
    unfold with_devs; cbn. f_equal. symmetry. apply insert_id.
    rewrite Hd. by destruct d.
  - cbn [cachelevel_loop cachelevel_fill].
    unfold bind at 1, i915_set at 1. rewrite Hd.
    erewrite IH by (cbn; apply lookup_insert_eq).
    unfold with_devs; cbn. by rewrite insert_insert_eq.
Qed.

(** From the first call to the point where the register shim is set up. *)
Lemma prelude_run fuel w :
  o_kzalloc_pdev o = true -> o_devres_open_group o = true ->
  o_devm_drm_dev_alloc o = true ->
  mock_gem_device K o fuel w =
    mock_gem_device_resources K o fuel (the_i915 (next_handle w)) (prepared K o w).
Proof.
  intros E1 E2 E3. destruct w as [c a r rc nh pd dv].
  unfold mock_gem_device. unfold_summary. unfold grow.
  cbn [next_handle calls acquired released retire_calls pdevs devs].
  run. rewrite E1. run.
  destruct (CONFIG_INTEL_IOMMU K); run; rewrite E2; run; rewrite E3; run;
    unfold mock_gem_device_init; run;
    (destruct (o_pm_runtime_enabled o); run;
     [destruct (o_pm_runtime_get_sync o =? 0); run|]);
    (erewrite cachelevel_loop_run by side); run;
    (f_equal; world_eq).
Qed.

(** The unwind chain ends in [mock_destroy_device] on a device whose
    [do_release] is still false. *)
Ltac unwind :=
  unfold err_context, err_unlock, err_free_wq, err_uncore, err_drv; run;
  (erewrite mock_destroy_device_skip by side);
  unfold gone, extend; run; unfold_summary; unfold grow; world_eq.

Ltac branch b := destruct b; run; [| solve [unwind] ].

(** [mock_gem_device] runs as summed up in [construct_outcome]: it never runs
    out of fuel and never follows a wild pointer. *)
Lemma mock_gem_device_run fuel w :
  mock_gem_device K o fuel w = construct_outcome K o w.
Proof.
  destruct (o_kzalloc_pdev o) eqn:E1; cycle 1.
  { unfold mock_gem_device, construct_outcome. run. rewrite E1.
    run. unfold grow. world_eq. }
  destruct (o_devres_open_group o) eqn:E2; cycle 1.
  { unfold mock_gem_device, construct_outcome, put_device.
    destruct w as [c a r rc nh pd dv].
    run. rewrite E1. run.
    destruct (CONFIG_INTEL_IOMMU K); run; rewrite E2; run;
      unfold_summary; unfold grow; world_eq. }
  destruct (o_devm_drm_dev_alloc o) eqn:E3; cycle 1.
  { unfold mock_gem_device, construct_outcome, put_device, devres_release_group.
    destruct w as [c a r rc nh pd dv].
    run. rewrite E1. run.
    destruct (CONFIG_INTEL_IOMMU K); run; rewrite E2; run; rewrite E3; run;
      unfold_summary; unfold grow; world_eq. }
  rewrite prelude_run by assumption.
  unfold construct_outcome. rewrite E1, E2, E3. cbn [negb]. clear E1 E2 E3.
  destruct w as [c a r rc nh pd dv].
  unfold prepared, grow, constructed_pdev, prepared_i915, the_i915, the_pdev.
  cbn [next_handle calls acquired released retire_calls pdevs devs].
  unfold mock_gem_device_resources. run.
  destruct (o_mock_uncore_init o =? 0) eqn:E6; run; rewrite E6; run; [| solve [unwind] ].
  branch (o_alloc_workqueue o). branch (o_sched_engine_create o).
  branch (o_drmm_kzalloc o).
  unfold mock_gem_device_engine. run.
  destruct (o_mock_engine o); run.
  - rewrite (list_lookup_insert_eq _ _ _) by (rewrite length_replicate; apply RCS0_in_range).
    run.
    rewrite (list_lookup_insert_eq _ _ _) by (rewrite length_replicate; apply RCS0_in_range).
    run.
    destruct (o_mock_engine_init o =? 0) eqn:E11; run; rewrite ?E11; run;
      [| solve [unwind] ].
    unfold_summary; unfold grow; world_eq.
  - rewrite (list_lookup_insert_eq _ _ _) by (rewrite length_replicate; apply RCS0_in_range).
    run. unwind.
Qed.

Lemma construct_success_inv fuel w i915 w' :
  mock_gem_device K o fuel w = Ret (Some i915) w' ->
  i915 = the_i915 (next_handle w) /\
  w' = grow (calls_to_end K o (next_handle w)) all_acquired [] 6
         (<[the_pdev (next_handle w) := constructed_pdev K (next_handle w)]> (pdevs w))
         (<[the_i915 (next_handle w) := constructed_i915 K (next_handle w)]> (devs w)) w.
Proof.
  rewrite mock_gem_device_run. unfold construct_outcome, failed.
  repeat match goal with
         | |- context [if negb ?b then _ else _] => destruct b; cbn [negb]
         end;
    intros H; inversion H; subst; split; reflexivity.
Qed.

(** *** The loop over the cache levels *)

Lemma cachelevel_fill_length n : forall i tbl,
  length (cachelevel_fill n i tbl) = length tbl.
Proof.
  induction n as [|n IH]; intros i tbl; cbn; [reflexivity|].
  rewrite IH. apply length_insert.
Qed.

Lemma cachelevel_fill_below n : forall i tbl j,
  (j < i)%nat -> cachelevel_fill n i tbl !! j = tbl !! j.
Proof.
  induction n as [|n IH]; intros i tbl j Hj; cbn; [reflexivity|].
  rewrite IH by lia. apply list_lookup_insert_ne. lia.
Qed.

Lemma cachelevel_fill_lookup n : forall i tbl j,
  (i + n <= length tbl)%nat -> (i <= j < i + n)%nat ->
  cachelevel_fill n i tbl !! j = Some (Z.of_nat j).
Proof.
  induction n as [|n IH]; intros i tbl j Hlen Hj; cbn; [lia|].
  destruct (decide (j = i)) as [->|Hne].
  - rewrite cachelevel_fill_below by lia. apply list_lookup_insert_eq. lia.
  - apply IH; [rewrite length_insert|]; lia.
Qed.

(** Whatever the table held, after the loop it is the identity. *)
Lemma cachelevel_fill_any (tbl : list Z) :
  length tbl = I915_MAX_CACHE_LEVEL K ->
  identity_table K (cachelevel_fill (I915_MAX_CACHE_LEVEL K) 0 tbl).
Proof.
  intros Hlen. split.
  - by rewrite cachelevel_fill_length.
  - intros i Hi. apply cachelevel_fill_lookup; lia.
Qed.

Lemma cachelevel_fill_identity :
  identity_table K
    (cachelevel_fill (I915_MAX_CACHE_LEVEL K) 0 (replicate (I915_MAX_CACHE_LEVEL K) 0)).
Proof. apply cachelevel_fill_any, length_replicate. Qed.

End Runs.

(** ** The release callback on a device that is not ready *)

(** C6: on a device whose [do_release] is false the release callback makes
    one call, the freeing of the configuration copy, and leaves everything
    else as it was: no other call, no other release, both stores unchanged. *)
Theorem release_skipped_frees_config_copy_only K o fuel w i915 d :
  devs w !! i915 = Some d -> do_release d = false ->
  exists w',
    mock_device_release K o fuel i915 w = Ret tt w' /\
    calls w' = calls w ++ [c_i915_params_free i915] /\
    released w' = released w ++ [ConfigCopy] /\
    acquired w' = acquired w /\
    devs w' = devs w /\ pdevs w' = pdevs w /\
    retire_calls w' = retire_calls w /\ next_handle w' = next_handle w.
Proof.
  intros Hd Hr. eexists. split; [apply (mock_device_release_skip K o fuel w i915 d Hd Hr)|].
  cbn. repeat split; reflexivity.
Qed.

Lemma release_skipped_frees_config_copy_only_witness :
  exists w',
    mock_device_release upstream (all_succeed 0) 0 2%nat abandoned = Ret tt w' /\
    calls w' = calls abandoned ++ [c_i915_params_free 2%nat] /\
    released w' = released abandoned ++ [ConfigCopy] /\
    acquired w' = acquired abandoned /\
    devs w' = devs abandoned /\ pdevs w' = pdevs abandoned /\
    retire_calls w' = retire_calls abandoned /\ next_handle w' = next_handle abandoned.
Proof.
  apply (release_skipped_frees_config_copy_only upstream (all_succeed 0) 0 abandoned
           2%nat (prepared_i915 upstream 1%nat)); reflexivity.
Defined.

(** ** Construction: all or nothing *)

Section Construction.

Variable K : kconst.
Variable o : oracle.

(** C3: whatever the collaborators answer, [mock_gem_device] hands back
    either the device aggregate with every step of the construction done and
    [do_release] set, or NULL with nothing new in the store of devices; it
    never stops half-way. *)
Theorem device_whole_or_null fuel w :
  match mock_gem_device K o fuel w with
  | Ret (Some i915) w' =>
      construction_succeeds o = true /\
      i915 = the_i915 (next_handle w) /\
      exists d,
        devs w' !! i915 = Some d /\
        d = constructed_i915 K (next_handle w) /\
        do_release d = true /\
        wq d = Some (the_wq (next_handle w)) /\
        sched d = Some (the_sched (next_handle w)) /\
        gt_ggtt (gt0 d) = Some (the_ggtt (next_handle w)) /\
        gt_engine (gt0 d) !! RCS0 K = Some (Some (the_engine (next_handle w))) /\
        acquired w' = acquired w ++ all_acquired /\
        released w' = released w
  | Ret None w' =>
      construction_succeeds o = false /\
      forall h d, devs w' !! h = Some d -> devs w !! h = Some d
  | OutOfFuel _ | Fault _ => False
  end.
Proof.
  rewrite mock_gem_device_run. unfold construct_outcome, construction_succeeds, failed.
  destruct (o_kzalloc_pdev o); cbn [negb andb]; [|by split].
  destruct (o_devres_open_group o); cbn [negb andb]; [|by split].
  destruct (o_devm_drm_dev_alloc o); cbn [negb andb]; [|by split].
  assert (Hgone : forall (dv : gmap handle drm_i915_private) i h d,
             delete i dv !! h = Some d -> dv !! h = Some d).
  { intros dv i h d H. apply lookup_delete_Some in H. tauto. }
  destruct (o_mock_uncore_init o =? 0); cbn [negb andb]; [|split; [done | apply Hgone]].
  destruct (o_alloc_workqueue o); cbn [negb andb]; [|split; [done | apply Hgone]].
  destruct (o_sched_engine_create o); cbn [negb andb]; [|split; [done | apply Hgone]].
  destruct (o_drmm_kzalloc o); cbn [negb andb]; [|split; [done | apply Hgone]].
  destruct (o_mock_engine o); cbn [negb andb]; [|split; [done | apply Hgone]].
  destruct (o_mock_engine_init o =? 0); cbn [negb andb]; [|split; [done | apply Hgone]].
  split; [done|]. split; [done|]. eexists. split; [apply lookup_insert_eq|].
  repeat split; try reflexivity.
  - cbn. apply list_lookup_insert_eq. rewrite length_replicate. apply RCS0_in_range.
  - cbn. apply app_nil_r.
Qed.

(** C2: when the allocation of the translation layer fails,
    [mock_gem_device] releases the scheduler, destroys the workqueue,
    uninitialises the register shim, releases the grouped scope and the
    identity, in that order, and returns NULL. *)
Theorem unwind_from_ggtt_alloc_failure fuel w :
  device_allocated o = true -> o_mock_uncore_init o = 0 ->
  o_alloc_workqueue o = true -> o_sched_engine_create o = true ->
  o_drmm_kzalloc o = false ->
  let n := next_handle w in
  exists w',
    mock_gem_device K o fuel w = Ret None w' /\
    calls w' =
      calls w ++ calls_to_scheduler K o n (Some (the_sched n)) ++
      [c_mock_init_contexts (the_i915 n);
       c_drmm_kzalloc (the_i915 n) None;
       c_i915_sched_engine_put (Some (the_sched n));
       c_destroy_workqueue (Some (the_wq n));
       c_mock_uncore_uninit (the_i915 n);
       c_intel_gt_driver_late_release_all (the_i915 n);
       c_intel_memory_regions_driver_release (the_i915 n);
       c_drm_mode_config_cleanup (the_i915 n);
       c_devres_release_group (the_pdev n);
       c_i915_params_free (the_i915 n);
       c_put_device (the_pdev n);
       c_kfree (the_pdev n)] /\
    released w' =
      released w ++
      [Scheduler; Workqueue; RegisterShim; RootGt; MemoryRegions; ModeConfig;
       ConfigCopy; DeviceAggregate; DevresGroup; Identity] /\
    acquired w' = acquired w ++ take 10 all_acquired /\
    outstanding (take 10 all_acquired)
      [Scheduler; Workqueue; RegisterShim; RootGt; MemoryRegions; ModeConfig;
       ConfigCopy; DeviceAggregate; DevresGroup; Identity] = [] /\
    pdevs w' !! the_pdev n = None /\ devs w' !! the_i915 n = None.
Proof.
  intros Ha E6 E7 E8 E9 n. unfold device_allocated in Ha. subst n.
  apply andb_prop in Ha as [Ha E3]. apply andb_prop in Ha as [E1 E2].
  rewrite mock_gem_device_run. unfold construct_outcome.
  rewrite E1, E2, E3, E6, E7, E8, E9. cbn [negb Z.eqb]. unfold failed.
  eexists. split; [reflexivity|]. cbn [calls released acquired pdevs devs grow].
  split.
  { unfold calls_to_ggtt. rewrite <- app_assoc. reflexivity. }
  repeat split; try reflexivity; apply lookup_delete_eq.
Qed.

(** C8: the scheduler is created on the workqueue allocated just before,
    three wide and with [cpu_all_mask]; when its creation fails the workqueue
    is destroyed, then the chain from the register shim on runs, and NULL is
    returned. *)
Theorem scheduler_bound_to_workqueue fuel w :
  device_allocated o = true -> o_mock_uncore_init o = 0 ->
  o_alloc_workqueue o = true ->
  let n := next_handle w in
  exists r w' post,
    mock_gem_device K o fuel w = Ret r w' /\
    calls w' =
      calls w ++ calls_to_shim o n ++ probe_calls n ++
      [c_alloc_workqueue "%s"%string (WQ_UNBOUND K) 0 "mock"%string (Some (the_wq n));
       c_i915_sched_engine_create_cpu 3 (Some (the_wq n)) cpu_all_mask
         (if o_sched_engine_create o then Some (the_sched n) else None)] ++ post /\
    (o_sched_engine_create o = false ->
     r = None /\
     post =
       [c_destroy_workqueue (Some (the_wq n));
        c_mock_uncore_uninit (the_i915 n);
        c_intel_gt_driver_late_release_all (the_i915 n);
        c_intel_memory_regions_driver_release (the_i915 n);
        c_drm_mode_config_cleanup (the_i915 n);
        c_devres_release_group (the_pdev n);
        c_i915_params_free (the_i915 n);
        c_put_device (the_pdev n);
        c_kfree (the_pdev n)] /\
     released w' =
       released w ++
       [Workqueue; RegisterShim; RootGt; MemoryRegions; ModeConfig; ConfigCopy;
        DeviceAggregate; DevresGroup; Identity]).
Proof.
  intros Ha E6 E7 n. unfold device_allocated in Ha. subst n.
  apply andb_prop in Ha as [Ha E3]. apply andb_prop in Ha as [E1 E2].
  rewrite mock_gem_device_run. unfold construct_outcome.
  rewrite E1, E2, E3, E6, E7. cbn [negb Z.eqb]. unfold failed.
  destruct (o_sched_engine_create o) eqn:E8; cbn [negb];
    [destruct (o_drmm_kzalloc o) eqn:E9; cbn [negb];
      [destruct (o_mock_engine o) eqn:E10; cbn [negb];
        [destruct (o_mock_engine_init o =? 0) eqn:E11; cbn [negb]|]|]|];
    eexists _, _, (after_scheduler K o (next_handle w));
    unfold after_scheduler, after_ggtt, after_engine_init;
    rewrite ?E8, ?E9, ?E10, ?E11; cbn [negb];
    (split; [reflexivity|]);
    (split; [| first [discriminate | intros _; repeat split; reflexivity]]);
    cbn [calls grow];
    unfold calls_to_end, calls_to_engine_init, calls_to_engine, calls_to_ggtt,
      calls_to_scheduler, calls_to_workqueue;
    repeat first [ rewrite <- app_assoc | progress cbn [app] ];
    reflexivity.
Qed.

(** C9: on every failure after the device aggregate was allocated the
    release callback, run by [mock_destroy_device] at the end of the unwind
    chain, finds [do_release] false and only frees the configuration copy;
    nothing is released twice. *)
Theorem no_double_release_on_failure fuel w :
  device_allocated o = true -> construction_succeeds o = false ->
  let n := next_handle w in
  exists w' pre acq rel,
    mock_gem_device K o fuel w = Ret None w' /\
    calls w' =
      calls w ++ pre ++
      [c_devres_release_group (the_pdev n); c_i915_params_free (the_i915 n);
       c_put_device (the_pdev n); c_kfree (the_pdev n)] /\
    existsb is_params_free pre = false /\
    acquired w' = acquired w ++ acq /\
    released w' = released w ++ rel /\
    NoDup rel /\
    (forall r, In r [ComputeEngine; Scheduler; Workqueue; RegisterShim; TranslationLayer] ->
               (times_released r rel <= 1)%nat) /\
    devs w' !! the_i915 n = None.
Proof.
  intros Ha Hf n. unfold device_allocated in Ha. subst n.
  apply andb_prop in Ha as [Ha E3]. apply andb_prop in Ha as [E1 E2].
  unfold construction_succeeds in Hf. rewrite E1, E2, E3 in Hf. cbn [andb] in Hf.
  rewrite mock_gem_device_run. unfold construct_outcome.
  rewrite E1, E2, E3. cbn [negb]. unfold failed.
  set (n := next_handle w).
  assert (Hpm : existsb is_params_free (calls_to_shim o n) = false).
  { unfold calls_to_shim, calls_to_device, calls_to_group, early_calls, pm_calls.
    destruct (o_pm_runtime_enabled o); [|reflexivity].
    destruct (o_pm_runtime_get_sync o =? 0); reflexivity. }
  assert (Hfin : forall (l : list resource),
            bool_decide (NoDup l) = true ->
            forallb (fun r => (times_released r l <=? 1)%nat)
              [ComputeEngine; Scheduler; Workqueue; RegisterShim; TranslationLayer] = true ->
            NoDup l /\
            (forall r, In r [ComputeEngine; Scheduler; Workqueue; RegisterShim;
                             TranslationLayer] -> (times_released r l <= 1)%nat) /\
            delete (the_i915 n) (devs w) !! the_i915 n = None).
  { intros l Hnd Hall. split; [by apply bool_decide_eq_true in Hnd|].
    split; [|apply lookup_delete_eq].
    intros r Hr. rewrite forallb_forall in Hall. apply Nat.leb_le, Hall, Hr. }
  destruct (o_mock_uncore_init o =? 0); cbn [negb andb] in *.
  2: { eexists _, (calls_to_shim o n ++ err_drv_head n), _, _.
       split; [reflexivity|]. cbn [calls acquired released devs grow].
       split; [unfold err_drv_calls; by rewrite <- !app_assoc|].
       split; [rewrite existsb_app, Hpm; reflexivity|].
       split; [reflexivity|]. split; [reflexivity|]. by apply Hfin. }
  destruct (o_alloc_workqueue o); cbn [negb andb] in *.
  2: { eexists _, (calls_to_workqueue K o n None ++ err_uncore_head n), _, _.
       split; [reflexivity|]. cbn [calls acquired released devs grow].
       split; [unfold err_uncore_calls; by rewrite <- !app_assoc|].
       split; [unfold calls_to_workqueue; rewrite !existsb_app, Hpm; reflexivity|].
       split; [reflexivity|]. split; [reflexivity|]. by apply Hfin. }
  destruct (o_sched_engine_create o); cbn [negb andb] in *.
  2: { eexists _, (calls_to_scheduler K o n None ++ err_free_wq_head n), _, _.
       split; [reflexivity|]. cbn [calls acquired released devs grow].
       split; [unfold err_free_wq_calls; by rewrite <- !app_assoc|].
       split; [unfold calls_to_scheduler, calls_to_workqueue;
               rewrite !existsb_app, Hpm; reflexivity|].
       split; [reflexivity|]. split; [reflexivity|]. by apply Hfin. }
  destruct (o_drmm_kzalloc o); cbn [negb andb] in *.
  2: { eexists _, (calls_to_ggtt K o n None ++ err_unlock_head n), _, _.
       split; [reflexivity|]. cbn [calls acquired released devs grow].
       split; [unfold err_unlock_calls; by rewrite <- !app_assoc|].
       split; [unfold calls_to_ggtt, calls_to_scheduler, calls_to_workqueue;
               rewrite !existsb_app, Hpm; reflexivity|].
       split; [reflexivity|]. split; [reflexivity|]. by apply Hfin. }
  destruct (o_mock_engine o); cbn [negb andb] in *.
  2: { eexists _, (calls_to_engine K o n None ++ err_unlock_head n), _, _.
       split; [reflexivity|]. cbn [calls acquired released devs grow].
       split; [unfold err_unlock_calls; by rewrite <- !app_assoc|].
       split; [unfold calls_to_engine, calls_to_ggtt, calls_to_scheduler,
                 calls_to_workqueue;
               rewrite !existsb_app, Hpm; reflexivity|].
       split; [reflexivity|]. split; [reflexivity|]. by apply Hfin. }
  destruct (o_mock_engine_init o =? 0); cbn [negb andb] in *; [discriminate|].
  eexists _, (calls_to_engine_init K o n ++ err_context_head n), _, _.
  split; [reflexivity|]. cbn [calls acquired released devs grow].
  split; [unfold err_context_calls; by rewrite <- !app_assoc|].
  split; [unfold calls_to_engine_init, calls_to_engine, calls_to_ggtt,
            calls_to_scheduler, calls_to_workqueue;
          rewrite !existsb_app, Hpm; reflexivity|].
  split; [reflexivity|]. split; [reflexivity|]. by apply Hfin.
Qed.

(** The unwind chain when the engine cannot be constructed: the translation
    layer, set up two steps before, is acquired and never torn down. *)
Lemma unwind_from_engine_failure fuel w :
  device_allocated o = true -> o_mock_uncore_init o = 0 ->
  o_alloc_workqueue o = true -> o_sched_engine_create o = true ->
  o_drmm_kzalloc o = true -> o_mock_engine o = false ->
  let n := next_handle w in
  mock_gem_device K o fuel w =
    failed (calls_to_engine K o n None ++ err_unlock_calls n)
      (take 12 all_acquired)
      [Scheduler; Workqueue; RegisterShim; RootGt; MemoryRegions; ModeConfig;
       ConfigCopy; GgttMemory; DeviceAggregate; DevresGroup; Identity] 5 true w.
Proof.
  intros Ha E6 E7 E8 E9 E10 n. unfold device_allocated in Ha. subst n.
  apply andb_prop in Ha as [Ha E3]. apply andb_prop in Ha as [E1 E2].
  rewrite mock_gem_device_run. unfold construct_outcome.
  rewrite E1, E2, E3, E6, E7, E8, E9, E10. reflexivity.
Qed.

(** Up to the translation layer the unwind chain is complete: a failure at
    any earlier step leaves nothing acquired. *)
Lemma unwind_complete_before_translation_layer fuel w :
  (o_kzalloc_pdev o && o_devres_open_group o && o_devm_drm_dev_alloc o &&
   (o_mock_uncore_init o =? 0) && o_alloc_workqueue o && o_sched_engine_create o &&
   o_drmm_kzalloc o)%bool = false ->
  exists w' acq rel,
    mock_gem_device K o fuel w = Ret None w' /\
    acquired w' = acquired w ++ acq /\
    released w' = released w ++ rel /\
    (forall r, In r acq -> times_released r rel = 1%nat) /\
    outstanding acq rel = [].
Proof.
  intros Hf. rewrite mock_gem_device_run. unfold construct_outcome, failed.
  destruct (o_kzalloc_pdev o); cbn [negb andb] in *;
    [destruct (o_devres_open_group o); cbn [negb andb] in *;
      [destruct (o_devm_drm_dev_alloc o); cbn [negb andb] in *;
        [destruct (o_mock_uncore_init o =? 0); cbn [negb andb] in *;
          [destruct (o_alloc_workqueue o); cbn [negb andb] in *;
            [destruct (o_sched_engine_create o); cbn [negb andb] in *;
              [destruct (o_drmm_kzalloc o); cbn [negb andb] in *;
                [discriminate|]|]|]|]|]|]|];
    eexists _, _, _; (split; [reflexivity|]); cbn [acquired released grow];
    (split; [reflexivity|]); (split; [reflexivity|]);
    (split; [| vm_compute; reflexivity]);
    intros r Hr; cbn in Hr; intuition subst; vm_compute; reflexivity.
Qed.

(** A construction hands out fresh pointers only and touches no device
    that was there before. *)
Lemma construct_frame fuel w r w' :
  mock_gem_device K o fuel w = Ret r w' ->
  (next_handle w <= next_handle w')%nat /\
  forall h, (h < next_handle w)%nat -> devs w' !! h = devs w !! h.
Proof.
  rewrite mock_gem_device_run. unfold construct_outcome, failed.
  repeat match goal with
         | |- context [if negb ?b then _ else _] => destruct b; cbn [negb]
         end;
    intros H; inversion H; subst; cbn [next_handle devs grow];
    (split; [lia|]); intros h Hh;
    rewrite ?lookup_delete_ne, ?lookup_insert_ne by (unfold the_i915; lia);
    reflexivity.
Qed.

(** Every run returns: the device when every fallible step succeeded, in
    the store as constructed, and NULL otherwise. *)
Lemma construct_result fuel w :
  let n := next_handle w in
  exists w1,
    mock_gem_device K o fuel w =
      Ret (if construction_succeeds o then Some (the_i915 n) else None) w1 /\
    (construction_succeeds o = true ->
     devs w1 !! the_i915 n = Some (constructed_i915 K n) /\
     (the_i915 n < next_handle w1)%nat).
Proof.
  intros n. subst n. rewrite mock_gem_device_run.
  unfold construct_outcome, failed, construction_succeeds.
  repeat match goal with
         | |- context [if negb ?b then _ else _] => destruct b; cbn [negb andb]
         end;
    eexists; (split; [reflexivity|]); intros H; try discriminate H.
  cbn [devs next_handle grow]. split; [apply lookup_insert_eq | unfold the_i915; lia].
Qed.

End Construction.

(** ** Constructing again and again *)

Section Repeated.

Variable K : kconst.

Lemma construct_repeatedly_frame fuel os : forall w rs w',
  construct_repeatedly K os fuel w = Ret rs w' ->
  (next_handle w <= next_handle w')%nat /\
  forall h, (h < next_handle w)%nat -> devs w' !! h = devs w !! h.
Proof.
  induction os as [|o os IH]; intros w rs w' H; cbn [construct_repeatedly] in H.
  - inversion H; subst. by split.
  - unfold bind at 1 in H.
    destruct (mock_gem_device K o fuel w) as [r w1| |] eqn:E1; try discriminate.
    unfold bind at 1 in H.
    destruct (construct_repeatedly K os fuel w1) as [rs' w2| |] eqn:E2; try discriminate.
    inversion H; subst.
    apply construct_frame in E1 as [Hle1 Hsame1].
    apply IH in E2 as [Hle2 Hsame2].
    split; [lia|]. intros h Hh. rewrite Hsame2 by lia. by apply Hsame1.
Qed.

(** C7: however often the construction is run, and whatever the
    collaborators answer on each run, the runs all return, and each run whose
    fallible steps succeed hands back a device; a run with a failing step
    hands back NULL.  Every device handed back has, when the last run is
    over, the same cache-attribute table, the one that maps each level [i]
    below [I915_MAX_CACHE_LEVEL] to [i]: later runs leave the tables of
    earlier devices alone.  Every run that gets to allocate the device
    aggregate goes on from a device whose table is filled in, also when it
    fails later and frees the device.  The loop itself, run on a device with
    whatever [I915_MAX_CACHE_LEVEL] entries in its table, returns with the
    identity table and changes nothing else of the device, so that running
    it again gives the same table. *)
Theorem cachelevel_table_identity os fuel w :
  exists rs w',
    construct_repeatedly K os fuel w = Ret rs w' /\
    Forall2 (fun o r =>
               if construction_succeeds o then
                 exists i915 d,
                   r = Some i915 /\ devs w' !! i915 = Some d /\
                   identity_table K (cachelevel_to_pat d) /\
                   cachelevel_to_pat d =
                     cachelevel_fill (I915_MAX_CACHE_LEVEL K) 0
                       (replicate (I915_MAX_CACHE_LEVEL K) 0)
               else r = None) os rs /\
    (forall o w0,
       device_allocated o = true ->
       exists d,
         mock_gem_device K o fuel w0 =
           mock_gem_device_resources K o fuel (the_i915 (next_handle w0)) (prepared K o w0) /\
         devs (prepared K o w0) !! the_i915 (next_handle w0) = Some d /\
         identity_table K (cachelevel_to_pat d)) /\
    (forall w0 i915 d,
       devs w0 !! i915 = Some d ->
       length (cachelevel_to_pat d) = I915_MAX_CACHE_LEVEL K ->
       exists tbl,
         cachelevel_loop (I915_MAX_CACHE_LEVEL K) 0 i915 w0 =
           Ret tt (with_devs (<[i915 := set_cachelevel_to_pat tbl d]> (devs w0)) w0) /\
         identity_table K tbl /\
         cachelevel_loop (I915_MAX_CACHE_LEVEL K) 0 i915
           (with_devs (<[i915 := set_cachelevel_to_pat tbl d]> (devs w0)) w0) =
           Ret tt (with_devs (<[i915 := set_cachelevel_to_pat tbl d]> (devs w0)) w0)).
Proof.
  assert (Hruns : forall os w, exists rs w',
    construct_repeatedly K os fuel w = Ret rs w' /\
    Forall2 (fun o r =>
               if construction_succeeds o then
                 exists i915 d,
                   r = Some i915 /\ devs w' !! i915 = Some d /\
                   identity_table K (cachelevel_to_pat d) /\
                   cachelevel_to_pat d =
                     cachelevel_fill (I915_MAX_CACHE_LEVEL K) 0
                       (replicate (I915_MAX_CACHE_LEVEL K) 0)
               else r = None) os rs).
  { clear os w. induction os as [|o os IH]; intros w; cbn [construct_repeatedly].
    - exists [], w. split; [reflexivity | constructor].
    - destruct (construct_result K o fuel w) as (w1 & Hrun & Hdev).
      destruct (IH w1) as (rs & w' & Hrest & Hall).
      eexists _, w'. unfold bind at 1. rewrite Hrun. unfold bind at 1. rewrite Hrest.
      split; [reflexivity|]. constructor; [|exact Hall].
      destruct (construction_succeeds o); [|reflexivity].
      destruct (Hdev eq_refl) as [Hd Hlt].
      apply construct_repeatedly_frame in Hrest as [_ Hsame].
      exists (the_i915 (next_handle w)), (constructed_i915 K (next_handle w)).
      split; [reflexivity|]. split; [by rewrite Hsame|].
      split; [apply cachelevel_fill_identity | reflexivity]. }
  destruct (Hruns os w) as (rs & w' & Hrun & Hall).
  exists rs, w'. split; [exact Hrun|]. split; [exact Hall|]. split.
  - intros o w0 Ha. unfold device_allocated in Ha.
    apply andb_prop in Ha as [Ha E3]. apply andb_prop in Ha as [E1 E2].
    exists (prepared_i915 K (next_handle w0)).
    split; [by apply prelude_run|].
    split; [cbn; apply lookup_insert_eq | apply cachelevel_fill_identity].
  - intros w0 i915 d Hd Hlen.
    exists (cachelevel_fill (I915_MAX_CACHE_LEVEL K) 0 (cachelevel_to_pat d)).
    pose proof (cachelevel_fill_any K _ Hlen) as Hid.
    split; [by apply cachelevel_loop_run|]. split; [exact Hid|].
    assert (Hidem :
      cachelevel_fill (I915_MAX_CACHE_LEVEL K) 0
        (cachelevel_fill (I915_MAX_CACHE_LEVEL K) 0 (cachelevel_to_pat d)) =
      cachelevel_fill (I915_MAX_CACHE_LEVEL K) 0 (cachelevel_to_pat d)).
    { destruct Hid as [Hl Hi]. apply list_eq. intros j.
      destruct (decide (j < I915_MAX_CACHE_LEVEL K)%nat) as [Hj|Hj].
      - rewrite (Hi j Hj). apply cachelevel_fill_lookup; [rewrite Hl|]; lia.
      - rewrite !lookup_ge_None_2; [reflexivity | lia |].
        rewrite cachelevel_fill_length; lia. }
    erewrite cachelevel_loop_run by (cbn; apply lookup_insert_eq).
    destruct d, w0. cbn in *. by rewrite insert_insert_eq, Hidem.
Qed.

End Repeated.

(** ** Teardown *)

Section Teardown.

Variable K : kconst.
Variable o : oracle.

(** Drain calls release nothing; among them only the retire routine's
    "idle" answer changes what may follow. *)
Lemma drained_before_release_drain l : forall idle rest,
  forallb is_drain_call l = true ->
  drained_before_release idle (l ++ rest) =
    drained_before_release (idle || existsb is_idle_report l) rest.
Proof.
  induction l as [|c l IH]; intros idle rest Hl; cbn [app existsb].
  - by rewrite orb_false_r.
  - cbn [forallb] in Hl. apply andb_prop in Hl as [Hc Hl].
    cbn [drained_before_release].
    replace (is_engine_or_ggtt_release c) with false by (by destruct c).
    rewrite IH by exact Hl. by rewrite orb_assoc.
Qed.

Lemma drain_releases_nothing l :
  forallb is_drain_call l = true -> existsb is_engine_or_ggtt_release l = false.
Proof.
  induction l as [|c l IH]; [reflexivity|]. cbn. intros [Hc Hl]%andb_prop.
  rewrite IH by exact Hl. by destruct c.
Qed.

Lemma teardown_steps_drain l :
  forallb is_drain_call l = true -> teardown_steps l = replicate (length l) 2%nat.
Proof.
  induction l as [|c l IH]; [reflexivity|]. cbn [forallb]. intros [Hc Hl]%andb_prop.
  specialize (IH Hl). unfold teardown_steps in *.
  destruct c; try discriminate Hc; cbn; by rewrite IH.
Qed.

(** C4: in the teardown path the calls that release the engine
    ([intel_gt_driver_remove]) and the translation layer ([mock_fini_ggtt])
    come only after the drain loop has returned, and the drain loop returns
    only on the retire routine answering that no work remains; a drain that
    is cut short is followed by no release at all. *)
Theorem drain_before_free fuel w i915 d :
  devs w !! i915 = Some d -> do_release d = true ->
  exists drain,
    forallb is_drain_call drain = true /\
    match mock_device_release K o fuel i915 w with
    | Ret _ w' =>
        exists pre t,
          drain = pre ++ [c_intel_gt_retire_requests_timeout i915 t true] /\
          existsb is_idle_report pre = false /\
          calls w' =
            calls w ++ c_i915_debugger_fini i915 :: drain ++ teardown_calls i915 d /\
          drained_before_release false
            (c_i915_debugger_fini i915 :: drain ++ teardown_calls i915 d) = true
    | OutOfFuel w' =>
        existsb is_idle_report drain = false /\
        calls w' = calls w ++ c_i915_debugger_fini i915 :: drain /\
        existsb is_engine_or_ggtt_release (c_i915_debugger_fini i915 :: drain) = false
    | Fault _ => False
    end /\
    match mock_device_flush K o fuel i915 w with
    | Ret _ w' => calls w' = calls w ++ drain /\ existsb is_idle_report drain = true
    | OutOfFuel w' => calls w' = calls w ++ drain /\ existsb is_idle_report drain = false
    | Fault _ => False
    end.
Proof.
  intros Hd Hr. rewrite (mock_device_release_full K o fuel w i915 d Hd Hr).
  unfold mock_device_flush. rewrite (flush_loop_run o fuel _ w i915 d Hd).
  pose proof (flush_rounds_drain o fuel (gt_engine (gt0 d)) i915 (retire_calls w)
                (MAX_SCHEDULE_TIMEOUT K)) as Hdrain.
  pose proof (flush_rounds_idle o fuel (gt_engine (gt0 d)) i915 (retire_calls w)
                (MAX_SCHEDULE_TIMEOUT K)) as Hidle.
  destruct (flush_rounds _ _ _ _ _ _) as [[cs k] [|]]; cbn [fst] in Hdrain;
    exists cs; (split; [exact Hdrain|]); unfold stop.
  - destruct Hidle as (pre & t & -> & Hpre). split.
    + exists pre, t. repeat split; try reflexivity; [exact Hpre|].
      cbn [drained_before_release is_engine_or_ggtt_release orb is_idle_report].
      rewrite drained_before_release_drain by exact Hdrain.
      rewrite existsb_app, Hpre. reflexivity.
    + split; [reflexivity|]. rewrite existsb_app, Hpre. reflexivity.
  - split; [|by split].
    repeat split; try assumption. cbn [existsb is_engine_or_ggtt_release orb].
    by apply drain_releases_nothing.
Qed.

(** C5, as the code has it: a device that was constructed to the end is torn
    down in this order, given fuel for the rounds the drain needs.  The
    release of the grouped scope is entered first and runs the release
    callback: debugger fini, the drain, removal of the engine, the two
    drains of deferred work, teardown of the translation layer, release of
    the scheduler, late release and release of the memory regions,
    destruction of the workqueue, cleanup of the mode configuration, uninit
    of the register shim, and the freeing of the configuration copy.  Only
    then are the managed memory, the device aggregate and the scope released,
    and the reference of the identity is dropped last.  Nothing stays
    acquired. *)
Theorem teardown_sequence fuel w rounds :
  construction_succeeds o = true ->
  idle_at o rounds (retire_calls w) (MAX_SCHEDULE_TIMEOUT K) ->
  let n := next_handle w in
  exists w1 w2 drain,
    mock_gem_device K o fuel w = Ret (Some (the_i915 n)) w1 /\
    mock_destroy_device K o (S rounds) (the_i915 n) w1 = Ret tt w2 /\
    forallb is_drain_call drain = true /\
    calls w2 =
      calls w1 ++
      [c_devres_release_group (the_pdev n); c_i915_debugger_fini (the_i915 n)] ++
      drain ++
      [c_intel_gt_driver_remove (the_i915 n);
       c_i915_gem_drain_workqueue (the_i915 n);
       c_i915_gem_drain_freed_objects (the_i915 n);
       c_mock_fini_ggtt (Some (the_ggtt n));
       c_i915_sched_engine_put (Some (the_sched n));
       c_intel_gt_driver_late_release_all (the_i915 n);
       c_intel_memory_regions_driver_release (the_i915 n);
       c_destroy_workqueue (Some (the_wq n));
       c_drm_mode_config_cleanup (the_i915 n);
       c_mock_uncore_uninit (the_i915 n);
       c_i915_params_free (the_i915 n);
       c_put_device (the_pdev n);
       c_kfree (the_pdev n)] /\
    teardown_steps (drop (length (calls w1)) (calls w2)) =
      [11; 1]%nat ++ replicate (length drain) 2%nat ++
      [3; 4; 4; 5; 6; 7; 7; 8; 9; 10; 12; 11; 11]%nat /\
    acquired w2 = acquired w ++ all_acquired /\
    released w2 =
      released w ++
      [Debugger; ComputeEngine; TranslationLayer; Scheduler; RootGt; MemoryRegions;
       Workqueue; ModeConfig; RegisterShim; ConfigCopy; GgttMemory; DeviceAggregate;
       DevresGroup; Identity] /\
    outstanding all_acquired
      [Debugger; ComputeEngine; TranslationLayer; Scheduler; RootGt; MemoryRegions;
       Workqueue; ModeConfig; RegisterShim; ConfigCopy; GgttMemory; DeviceAggregate;
       DevresGroup; Identity] = [] /\
    devs w2 !! the_i915 n = None /\ pdevs w2 !! the_pdev n = None.
Proof.
  intros Hs Hidle n. subst n. unfold construction_succeeds in Hs.
  repeat match type of Hs with (_ && _)%bool = true =>
           let H := fresh "E" in apply andb_prop in Hs as [Hs H] end.
  rewrite mock_gem_device_run. unfold construct_outcome.
  rewrite Hs, E, E0, E1, E2, E3, E4, E5, E6. cbn [negb].
  set (n := next_handle w).
  exists (grow (calls_to_end K o n) all_acquired [] 6
            (<[the_pdev n := constructed_pdev K n]> (pdevs w))
            (<[the_i915 n := constructed_i915 K n]> (devs w)) w).
  erewrite mock_destroy_device_full by side.
  cbn [retire_calls grow gt_engine gt0 constructed_i915].
  pose proof (flush_rounds_finish o rounds
    (<[RCS0 K := Some (the_engine n)]> (replicate (I915_NUM_ENGINES K) None))
    (the_i915 n) (retire_calls w) (MAX_SCHEDULE_TIMEOUT K) Hidle) as Hfin.
  pose proof (flush_rounds_drain o (S rounds)
    (<[RCS0 K := Some (the_engine n)]> (replicate (I915_NUM_ENGINES K) None))
    (the_i915 n) (retire_calls w) (MAX_SCHEDULE_TIMEOUT K)) as Hdrain.
  destruct (flush_rounds _ _ _ _ _ _) as [[cs k] fin]. cbn [fst snd] in Hfin, Hdrain.
  subst fin.
  eexists _, cs. split; [reflexivity|]. split; [reflexivity|].
  split; [exact Hdrain|].
  cbn [calls acquired released devs pdevs gone extend grow].
  assert (Hcalls :
    (calls w ++ calls_to_end K o n) ++
    c_devres_release_group (the_pdev n) :: c_i915_debugger_fini (the_i915 n) ::
    cs ++ teardown_calls (the_i915 n) (constructed_i915 K n) ++
    [c_put_device (the_pdev n); c_kfree (the_pdev n)] =
    (calls w ++ calls_to_end K o n) ++
    [c_devres_release_group (the_pdev n); c_i915_debugger_fini (the_i915 n)] ++
    cs ++
    [c_intel_gt_driver_remove (the_i915 n);
     c_i915_gem_drain_workqueue (the_i915 n);
     c_i915_gem_drain_freed_objects (the_i915 n);
     c_mock_fini_ggtt (Some (the_ggtt n));
     c_i915_sched_engine_put (Some (the_sched n));
     c_intel_gt_driver_late_release_all (the_i915 n);
     c_intel_memory_regions_driver_release (the_i915 n);
     c_destroy_workqueue (Some (the_wq n));
     c_drm_mode_config_cleanup (the_i915 n);
     c_mock_uncore_uninit (the_i915 n);
     c_i915_params_free (the_i915 n);
     c_put_device (the_pdev n);
     c_kfree (the_pdev n)]) by reflexivity.
  split; [exact Hcalls|].
  split.
  { rewrite Hcalls, drop_app_length. unfold teardown_steps.
    rewrite !omap_app. change (omap teardown_step cs) with (teardown_steps cs).
    rewrite (teardown_steps_drain cs Hdrain). reflexivity. }
  split; [reflexivity|].
  split; [by rewrite <- app_assoc|].
  split; [vm_compute; reflexivity|].
  split; apply lookup_delete_eq.
Qed.

End Teardown.

(** Runs of the statements above on the upstream constants. *)

Lemma unwind_from_ggtt_alloc_failure_witness :
  exists w',
    mock_gem_device upstream ggtt_alloc_fails 0 boot = Ret None w' /\
    calls w' =
      calls boot ++ calls_to_scheduler upstream ggtt_alloc_fails 1%nat (Some 4%nat) ++
      [c_mock_init_contexts 2%nat;
       c_drmm_kzalloc 2%nat None;
       c_i915_sched_engine_put (Some 4%nat);
       c_destroy_workqueue (Some 3%nat);
       c_mock_uncore_uninit 2%nat;
       c_intel_gt_driver_late_release_all 2%nat;
       c_intel_memory_regions_driver_release 2%nat;
       c_drm_mode_config_cleanup 2%nat;
       c_devres_release_group 1%nat;
       c_i915_params_free 2%nat;
       c_put_device 1%nat;
       c_kfree 1%nat] /\
    released w' =
      released boot ++
      [Scheduler; Workqueue; RegisterShim; RootGt; MemoryRegions; ModeConfig;
       ConfigCopy; DeviceAggregate; DevresGroup; Identity] /\
    acquired w' = acquired boot ++ take 10 all_acquired /\
    outstanding (take 10 all_acquired)
      [Scheduler; Workqueue; RegisterShim; RootGt; MemoryRegions; ModeConfig;
       ConfigCopy; DeviceAggregate; DevresGroup; Identity] = [] /\
    pdevs w' !! 1%nat = None /\ devs w' !! 2%nat = None.
Proof.
  apply (unwind_from_ggtt_alloc_failure upstream ggtt_alloc_fails 0 boot); reflexivity.
Defined.


Lemma scheduler_bound_to_workqueue_witness :
  exists r w' post,
    mock_gem_device upstream sched_create_fails 0 boot = Ret r w' /\
    calls w' =
      calls boot ++ calls_to_shim sched_create_fails 1%nat ++ probe_calls 1%nat ++
      [c_alloc_workqueue "%s"%string 2 0 "mock"%string (Some 3%nat);
       c_i915_sched_engine_create_cpu 3 (Some 3%nat) cpu_all_mask None] ++ post /\
    (false = false ->
     r = None /\
     post =
       [c_destroy_workqueue (Some 3%nat);
        c_mock_uncore_uninit 2%nat;
        c_intel_gt_driver_late_release_all 2%nat;
        c_intel_memory_regions_driver_release 2%nat;
        c_drm_mode_config_cleanup 2%nat;
        c_devres_release_group 1%nat;
        c_i915_params_free 2%nat;
        c_put_device 1%nat;
        c_kfree 1%nat] /\
     released w' =
       released boot ++
       [Workqueue; RegisterShim; RootGt; MemoryRegions; ModeConfig; ConfigCopy;
        DeviceAggregate; DevresGroup; Identity]).
Proof.
  apply (scheduler_bound_to_workqueue upstream sched_create_fails 0 boot); reflexivity.
Defined.

Lemma no_double_release_on_failure_witness :
  exists w' pre acq rel,
    mock_gem_device upstream engine_fails 0 boot = Ret None w' /\
    calls w' =
      calls boot ++ pre ++
      [c_devres_release_group 1%nat; c_i915_params_free 2%nat;
       c_put_device 1%nat; c_kfree 1%nat] /\
    existsb is_params_free pre = false /\
    acquired w' = acquired boot ++ acq /\
    released w' = released boot ++ rel /\
    NoDup rel /\
    (forall r, In r [ComputeEngine; Scheduler; Workqueue; RegisterShim; TranslationLayer] ->
               (times_released r rel <= 1)%nat) /\
    devs w' !! 2%nat = None.
Proof.
  apply (no_double_release_on_failure upstream engine_fails 0 boot); reflexivity.
Defined.

Lemma cachelevel_table_identity_witness :
  exists rs w',
    construct_repeatedly upstream [all_succeed 0; engine_fails; all_succeed 0] 0 boot =
      Ret rs w' /\
    Forall2 (fun o r =>
               if construction_succeeds o then
                 exists i915 d,
                   r = Some i915 /\ devs w' !! i915 = Some d /\
                   identity_table upstream (cachelevel_to_pat d) /\
                   cachelevel_to_pat d = cachelevel_fill 4 0 (replicate 4 0)
               else r = None) [all_succeed 0; engine_fails; all_succeed 0] rs /\
    (forall o w0,
       device_allocated o = true ->
       exists d,
         mock_gem_device upstream o 0 w0 =
           mock_gem_device_resources upstream o 0 (the_i915 (next_handle w0))
             (prepared upstream o w0) /\
         devs (prepared upstream o w0) !! the_i915 (next_handle w0) = Some d /\
         identity_table upstream (cachelevel_to_pat d)) /\
    (forall w0 i915 d,
       devs w0 !! i915 = Some d ->
       length (cachelevel_to_pat d) = 4%nat ->
       exists tbl,
         cachelevel_loop 4 0 i915 w0 =
           Ret tt (with_devs (<[i915 := set_cachelevel_to_pat tbl d]> (devs w0)) w0) /\
         identity_table upstream tbl /\
         cachelevel_loop 4 0 i915
           (with_devs (<[i915 := set_cachelevel_to_pat tbl d]> (devs w0)) w0) =
           Ret tt (with_devs (<[i915 := set_cachelevel_to_pat tbl d]> (devs w0)) w0)).
Proof.
  apply (cachelevel_table_identity upstream [all_succeed 0; engine_fails; all_succeed 0]
           0 boot).
Defined.

Lemma drain_before_free_witness :
  exists drain,
    forallb is_drain_call drain = true /\
    match mock_device_release upstream (all_succeed 1) 2 2%nat built with
    | Ret _ w' =>
        exists pre t,
          drain = pre ++ [c_intel_gt_retire_requests_timeout 2%nat t true] /\
          existsb is_idle_report pre = false /\
          calls w' =
            calls built ++ c_i915_debugger_fini 2%nat ::
            drain ++ teardown_calls 2%nat (constructed_i915 upstream 1%nat) /\
          drained_before_release false
            (c_i915_debugger_fini 2%nat ::
             drain ++ teardown_calls 2%nat (constructed_i915 upstream 1%nat)) = true
    | OutOfFuel w' =>
        existsb is_idle_report drain = false /\
        calls w' = calls built ++ c_i915_debugger_fini 2%nat :: drain /\
        existsb is_engine_or_ggtt_release (c_i915_debugger_fini 2%nat :: drain) = false
    | Fault _ => False
    end /\
    match mock_device_flush upstream (all_succeed 1) 2 2%nat built with
    | Ret _ w' => calls w' = calls built ++ drain /\ existsb is_idle_report drain = true
    | OutOfFuel w' => calls w' = calls built ++ drain /\ existsb is_idle_report drain = false
    | Fault _ => False
    end.
Proof.
  apply (drain_before_free upstream (all_succeed 1) 2 built 2%nat
           (constructed_i915 upstream 1%nat)); reflexivity.
Defined.

Lemma teardown_sequence_witness :
  exists w1 w2 drain,
    mock_gem_device upstream (all_succeed 1) 0 boot = Ret (Some 2%nat) w1 /\
    mock_destroy_device upstream (all_succeed 1) 2 2%nat w1 = Ret tt w2 /\
    forallb is_drain_call drain = true /\
    calls w2 =
      calls w1 ++
      [c_devres_release_group 1%nat; c_i915_debugger_fini 2%nat] ++
      drain ++
      [c_intel_gt_driver_remove 2%nat;
       c_i915_gem_drain_workqueue 2%nat;
       c_i915_gem_drain_freed_objects 2%nat;
       c_mock_fini_ggtt (Some 5%nat);
       c_i915_sched_engine_put (Some 4%nat);
       c_intel_gt_driver_late_release_all 2%nat;
       c_intel_memory_regions_driver_release 2%nat;
       c_destroy_workqueue (Some 3%nat);
       c_drm_mode_config_cleanup 2%nat;
       c_mock_uncore_uninit 2%nat;
       c_i915_params_free 2%nat;
       c_put_device 1%nat;
       c_kfree 1%nat] /\
    teardown_steps (drop (length (calls w1)) (calls w2)) =
      [11; 1]%nat ++ replicate (length drain) 2%nat ++
      [3; 4; 4; 5; 6; 7; 7; 8; 9; 10; 12; 11; 11]%nat /\
    acquired w2 = acquired boot ++ all_acquired /\
    released w2 =
      released boot ++
      [Debugger; ComputeEngine; TranslationLayer; Scheduler; RootGt; MemoryRegions;
       Workqueue; ModeConfig; RegisterShim; ConfigCopy; GgttMemory; DeviceAggregate;
       DevresGroup; Identity] /\
    outstanding all_acquired
      [Debugger; ComputeEngine; TranslationLayer; Scheduler; RootGt; MemoryRegions;
       Workqueue; ModeConfig; RegisterShim; ConfigCopy; GgttMemory; DeviceAggregate;
       DevresGroup; Identity] = [] /\
    devs w2 !! 2%nat = None /\ pdevs w2 !! 1%nat = None.
Proof.
  apply (teardown_sequence upstream (all_succeed 1) 0 boot 1); reflexivity.
Defined.

(** C5, as the design document orders the twelve steps, fails: on the
    upstream constants, with every call succeeding and the tile idle at
    once, the configuration copy is freed (step 12) before the reference of
    the identity is dropped (step 11), and the release of the grouped scope
    (step 11) is entered before the debugger hooks are finalised (step 1). *)
Lemma teardown_order_as_specified_fails :
  exists w2,
    mock_gem_device upstream (all_succeed 0) 0 boot = Ret (Some 2%nat) built /\
    mock_destroy_device upstream (all_succeed 0) 1 2%nat built = Ret tt w2 /\
    teardown_steps (drop (length (calls built)) (calls w2)) =
      [11; 1; 2; 2; 3; 4; 4; 5; 6; 7; 7; 8; 9; 10; 12; 11; 11]%nat /\
    in_step_order (teardown_steps (drop (length (calls built)) (calls w2))) = false /\
    position is_params_free (drop (length (calls built)) (calls w2)) = Some 14%nat /\
    position is_put_device (drop (length (calls built)) (calls w2)) = Some 15%nat.
Proof.
  eexists. split; [vm_compute; reflexivity|].
  split; [vm_compute; reflexivity|].
  repeat split; vm_compute; reflexivity.
Qed.

(** C1 fails on the code: when the engine cannot be constructed (and when
    it cannot be initialised) the unwind chain starts at [err_unlock], which
    releases the scheduler; the translation layer that [mock_init_ggtt] set
    up two steps earlier is never torn down: [mock_fini_ggtt] is not called
    and the translation layer stays acquired after [mock_gem_device] has
    returned NULL.  The release callback does call it. *)
Theorem prefix_unwind_leaks_translation_layer :
  exists w',
    mock_gem_device upstream engine_fails 0 boot = Ret None w' /\
    acquired w' = take 12 all_acquired /\
    In TranslationLayer (acquired w') /\
    times_released TranslationLayer (released w') = 0%nat /\
    existsb is_mock_fini_ggtt (calls w') = false /\
    held w' = [TranslationLayer].
Proof.
  eexists. split.
  { rewrite (unwind_from_engine_failure upstream engine_fails 0 boot) by reflexivity.
    reflexivity. }
  cbn [acquired released calls grow boot app].
  repeat split; try (vm_compute; reflexivity).
  vm_compute. tauto.
Qed.

(** ** Copy-on-write mappings *)

(** C10: with [VM_SHARED] and [VM_MAYWRITE] two different single bits,
    [is_cow_mapping flags] is true exactly when the [VM_MAYWRITE] bit of
    [flags] is set and its [VM_SHARED] bit is clear. *)
Theorem is_cow_mapping_iff (VM_SHARED VM_MAYWRITE shared_bit maywrite_bit flags : Z) :
  0 <= shared_bit -> 0 <= maywrite_bit -> shared_bit <> maywrite_bit ->
  VM_SHARED = 2 ^ shared_bit -> VM_MAYWRITE = 2 ^ maywrite_bit ->
  is_cow_mapping VM_SHARED VM_MAYWRITE flags = true <->
  Z.testbit flags maywrite_bit = true /\ Z.testbit flags shared_bit = false.
Proof.
  intros Hs Hm Hne -> ->. unfold is_cow_mapping. rewrite Z.eqb_eq. split.
  - intros H. split.
    + apply (f_equal (fun z => Z.testbit z maywrite_bit)) in H.
      rewrite Z.land_spec, Z.lor_spec, !Z.pow2_bits_eqb in H by lia.
      rewrite Z.eqb_refl, orb_true_r, andb_true_r in H. exact H.
    + apply (f_equal (fun z => Z.testbit z shared_bit)) in H.
      rewrite Z.land_spec, Z.lor_spec, !Z.pow2_bits_eqb in H by lia.
      rewrite Z.eqb_refl, orb_true_l, andb_true_r in H.
      rewrite H. apply Z.eqb_neq. lia.
  - intros [Hw Hsh]. apply Z.bits_inj'. intros i Hi.
    rewrite Z.land_spec, Z.lor_spec, !Z.pow2_bits_eqb by lia.
    destruct (Z.eqb_spec maywrite_bit i) as [<-|Hmi].
    + rewrite Hw, orb_true_r. reflexivity.
    + destruct (Z.eqb_spec shared_bit i) as [<-|Hsi].
      * rewrite Hsh. reflexivity.
      * apply andb_false_r.
Qed.

Lemma is_cow_mapping_iff_witness :
  is_cow_mapping 8 32 33 = true <->
  Z.testbit 33 5 = true /\ Z.testbit 33 3 = false.
Proof.
  apply (is_cow_mapping_iff 8 32 3 5 33); [lia | lia | lia | reflexivity | reflexivity].
Defined.

(** ** The early exits and the other labels of the unwind chain *)

Section Paths.

Variable K : kconst.
Variable o : oracle.

(** A construction whose fallible steps all succeed. *)
Lemma construct_success_run fuel w :
  construction_succeeds o = true ->
  mock_gem_device K o fuel w =
    Ret (Some (the_i915 (next_handle w)))
      (grow (calls_to_end K o (next_handle w)) all_acquired [] 6
         (<[the_pdev (next_handle w) := constructed_pdev K (next_handle w)]> (pdevs w))
         (<[the_i915 (next_handle w) := constructed_i915 K (next_handle w)]> (devs w))
         w).
Proof.
  intros Hs. unfold construction_succeeds in Hs.
  repeat match type of Hs with (_ && _)%bool = true =>
           let H := fresh "E" in apply andb_prop in Hs as [Hs H] end.
  rewrite mock_gem_device_run. unfold construct_outcome.
  rewrite Hs, E, E0, E1, E2, E3, E4, E5, E6. reflexivity.
Qed.

(** When the identity cannot be allocated, [mock_gem_device] returns NULL
    after that one call: nothing is acquired, nothing released, no pointer
    handed out, both stores as they were. *)
Theorem identity_alloc_failure fuel w :
  o_kzalloc_pdev o = false ->
  exists w',
    mock_gem_device K o fuel w = Ret None w' /\
    calls w' = calls w ++ [c_kzalloc_pdev None] /\
    acquired w' = acquired w /\ released w' = released w /\
    next_handle w' = next_handle w /\
    pdevs w' = pdevs w /\ devs w' = devs w.
Proof.
  intros E1. rewrite mock_gem_device_run. unfold construct_outcome. rewrite E1.
  eexists. split; [reflexivity|]. cbn. rewrite !app_nil_r. by repeat split.
Qed.

(** When the grouped scope cannot be opened, the one reference of the
    identity is dropped, which runs [release_dev] and frees it; NULL is
    returned, the device aggregate was never allocated, and nothing stays
    acquired. *)
Theorem group_open_failure fuel w :
  o_kzalloc_pdev o = true -> o_devres_open_group o = false ->
  let n := next_handle w in
  exists w',
    mock_gem_device K o fuel w = Ret None w' /\
    calls w' =
      calls w ++ bus_calls n ++
      [c_devres_open_group (the_pdev n) false;
       c_put_device (the_pdev n); c_kfree (the_pdev n)] /\
    acquired w' = acquired w ++ [Identity] /\
    released w' = released w ++ [Identity] /\
    pdevs w' !! the_pdev n = None /\ devs w' = devs w.
Proof.
  intros E1 E2 n. subst n. rewrite mock_gem_device_run. unfold construct_outcome.
  rewrite E1, E2. cbn [negb]. unfold failed.
  eexists. split; [reflexivity|]. cbn [calls acquired released pdevs devs grow].
  split; [unfold calls_to_group; by rewrite <- app_assoc|].
  repeat split; try reflexivity. apply lookup_delete_eq.
Qed.

(** When the device aggregate cannot be allocated, the failure is logged on
    a line of its own, with the error that the [ERR_PTR] carries; the grouped
    scope is released and the identity freed; the release callback does not
    run (the configuration copy was never made, and is not freed) and NULL is
    returned. *)
Theorem device_alloc_failure fuel w :
  o_kzalloc_pdev o = true -> o_devres_open_group o = true ->
  o_devm_drm_dev_alloc o = false ->
  let n := next_handle w in
  exists w',
    mock_gem_device K o fuel w = Ret None w' /\
    calls w' =
      calls w ++ bus_calls n ++
      [c_devres_open_group (the_pdev n) true;
       c_devm_drm_dev_alloc (the_pdev n) None;
       c_pr_err ("Failed to allocate mock GEM device: err=%ld" ++ newline)%string
                [o_devm_drm_dev_alloc_err o];
       c_devres_release_group (the_pdev n);
       c_put_device (the_pdev n); c_kfree (the_pdev n)] /\
    acquired w' = acquired w ++ [Identity; DevresGroup] /\
    released w' = released w ++ [DevresGroup; Identity] /\
    pdevs w' !! the_pdev n = None /\ devs w' = devs w.
Proof.
  intros E1 E2 E3 n. subst n. rewrite mock_gem_device_run. unfold construct_outcome.
  rewrite E1, E2, E3. cbn [negb]. unfold failed.
  eexists. split; [reflexivity|]. cbn [calls acquired released pdevs devs grow].
  split; [unfold calls_to_device, calls_to_group; by rewrite <- !app_assoc|].
  repeat split; try reflexivity. apply lookup_delete_eq.
Qed.

(** When the register shim cannot be set up, the chain from [err_drv] runs:
    late release, release of the memory regions, cleanup of the mode
    configuration, then [mock_destroy_device].  The shim is not
    uninitialised.  The memory regions are released although they were never
    probed; everything that was acquired is released. *)
Theorem uncore_init_failure fuel w :
  device_allocated o = true -> o_mock_uncore_init o <> 0 ->
  let n := next_handle w in
  exists w',
    mock_gem_device K o fuel w = Ret None w' /\
    calls w' =
      calls w ++ calls_to_shim o n ++
      [c_intel_gt_driver_late_release_all (the_i915 n);
       c_intel_memory_regions_driver_release (the_i915 n);
       c_drm_mode_config_cleanup (the_i915 n);
       c_devres_release_group (the_pdev n);
       c_i915_params_free (the_i915 n);
       c_put_device (the_pdev n); c_kfree (the_pdev n)] /\
    acquired w' =
      acquired w ++
      [Identity; DevresGroup; DeviceAggregate; ConfigCopy; ModeConfig; RootGt] /\
    released w' =
      released w ++
      [RootGt; MemoryRegions; ModeConfig; ConfigCopy; DeviceAggregate; DevresGroup;
       Identity] /\
    outstanding
      [Identity; DevresGroup; DeviceAggregate; ConfigCopy; ModeConfig; RootGt]
      [RootGt; MemoryRegions; ModeConfig; ConfigCopy; DeviceAggregate; DevresGroup;
       Identity] = [] /\
    pdevs w' !! the_pdev n = None /\ devs w' !! the_i915 n = None.
Proof.
  intros Ha E6 n. subst n. unfold device_allocated in Ha.
  apply andb_prop in Ha as [Ha E3]. apply andb_prop in Ha as [E1 E2].
  apply Z.eqb_neq in E6.
  rewrite mock_gem_device_run. unfold construct_outcome.
  rewrite E1, E2, E3, E6. cbn [negb]. unfold failed.
  eexists. split; [reflexivity|]. cbn [calls acquired released pdevs devs grow].
  repeat split; try reflexivity; apply lookup_delete_eq.
Qed.

(** When the workqueue cannot be allocated, the chain from [err_uncore]
    runs: the register shim is uninitialised first, then the chain from
    [err_drv].  No workqueue is destroyed, and nothing stays acquired. *)
Theorem workqueue_alloc_failure fuel w :
  device_allocated o = true -> o_mock_uncore_init o = 0 ->
  o_alloc_workqueue o = false ->
  let n := next_handle w in
  exists w',
    mock_gem_device K o fuel w = Ret None w' /\
    calls w' =
      calls w ++ calls_to_shim o n ++ probe_calls n ++
      [c_alloc_workqueue "%s"%string (WQ_UNBOUND K) 0 "mock"%string None;
       c_mock_uncore_uninit (the_i915 n);
       c_intel_gt_driver_late_release_all (the_i915 n);
       c_intel_memory_regions_driver_release (the_i915 n);
       c_drm_mode_config_cleanup (the_i915 n);
       c_devres_release_group (the_pdev n);
       c_i915_params_free (the_i915 n);
       c_put_device (the_pdev n); c_kfree (the_pdev n)] /\
    released w' =
      released w ++
      [RegisterShim; RootGt; MemoryRegions; ModeConfig; ConfigCopy; DeviceAggregate;
       DevresGroup; Identity] /\
    acquired w' = acquired w ++ take 8 all_acquired /\
    outstanding (take 8 all_acquired)
      [RegisterShim; RootGt; MemoryRegions; ModeConfig; ConfigCopy; DeviceAggregate;
       DevresGroup; Identity] = [] /\
    pdevs w' !! the_pdev n = None /\ devs w' !! the_i915 n = None.
Proof.
  intros Ha E6 E7 n. subst n. unfold device_allocated in Ha.
  apply andb_prop in Ha as [Ha E3]. apply andb_prop in Ha as [E1 E2].
  rewrite mock_gem_device_run. unfold construct_outcome.
  rewrite E1, E2, E3, E6, E7. cbn [negb Z.eqb]. unfold failed.
  eexists. split; [reflexivity|]. cbn [calls acquired released pdevs devs grow].
  split; [unfold calls_to_workqueue; by rewrite <- !app_assoc|].
  repeat split; try reflexivity; apply lookup_delete_eq.
Qed.

(** When the engine cannot be initialised, the chain from [err_context]
    runs: the engine is removed, then the scheduler is put, the workqueue
    destroyed and the register shim uninitialised, each with the pointer its
    allocation returned.  [mock_fini_ggtt] is not called on this path
    either: of all that was acquired only the translation layer stays. *)
Theorem engine_init_failure fuel w :
  device_allocated o = true -> o_mock_uncore_init o = 0 ->
  o_alloc_workqueue o = true -> o_sched_engine_create o = true ->
  o_drmm_kzalloc o = true -> o_mock_engine o = true ->
  o_mock_engine_init o <> 0 ->
  let n := next_handle w in
  exists w',
    mock_gem_device K o fuel w = Ret None w' /\
    calls w' =
      calls w ++ calls_to_engine K o n (Some (the_engine n)) ++
      [c_mock_engine_init (Some (the_engine n)) (o_mock_engine_init o);
       c_intel_gt_driver_remove (the_i915 n);
       c_i915_sched_engine_put (Some (the_sched n));
       c_destroy_workqueue (Some (the_wq n));
       c_mock_uncore_uninit (the_i915 n);
       c_intel_gt_driver_late_release_all (the_i915 n);
       c_intel_memory_regions_driver_release (the_i915 n);
       c_drm_mode_config_cleanup (the_i915 n);
       c_devres_release_group (the_pdev n);
       c_i915_params_free (the_i915 n);
       c_put_device (the_pdev n); c_kfree (the_pdev n)] /\
    released w' =
      released w ++
      [ComputeEngine; Scheduler; Workqueue; RegisterShim; RootGt; MemoryRegions;
       ModeConfig; ConfigCopy; GgttMemory; DeviceAggregate; DevresGroup; Identity] /\
    acquired w' = acquired w ++ take 13 all_acquired /\
    outstanding (take 13 all_acquired)
      [ComputeEngine; Scheduler; Workqueue; RegisterShim; RootGt; MemoryRegions;
       ModeConfig; ConfigCopy; GgttMemory; DeviceAggregate; DevresGroup; Identity] =
      [TranslationLayer] /\
    pdevs w' !! the_pdev n = None /\ devs w' !! the_i915 n = None.
Proof.
  intros Ha E6 E7 E8 E9 E10 E11 n. subst n. unfold device_allocated in Ha.
  apply andb_prop in Ha as [Ha E3]. apply andb_prop in Ha as [E1 E2].
  apply Z.eqb_neq in E11.
  rewrite mock_gem_device_run. unfold construct_outcome.
  rewrite E1, E2, E3, E6, E7, E8, E9, E10, E11. cbn [negb Z.eqb]. unfold failed.
  eexists. split; [reflexivity|]. cbn [calls acquired released pdevs devs grow].
  split; [unfold calls_to_engine_init; by rewrite <- !app_assoc|].
  repeat split; try reflexivity; apply lookup_delete_eq.
Qed.

(** *** What holds on every path *)

Ltac unfold_calls :=
  unfold calls_to_end, calls_to_engine_init, calls_to_engine, calls_to_ggtt,
    calls_to_scheduler, calls_to_workqueue, calls_to_shim, calls_to_device,
    calls_to_group, err_context_calls, err_unlock_calls, err_free_wq_calls,
    err_uncore_calls, err_drv_calls, err_context_head, err_unlock_head,
    err_free_wq_head, err_uncore_head, err_drv_head, destroy_calls, probe_calls,
    early_calls, bus_calls.

(** Look for a call in a trace that has the power-management calls in its
    middle. *)
Ltac scan Hpm :=
  unfold_calls;
  repeat first [ rewrite existsb_app | rewrite Hpm
               | progress cbn [existsb app orb is_drain_call is_debugger_fini
                               is_debugger_init is_engines_register] ];
  try reflexivity.

Ltac pm_cases :=
  unfold pm_calls; destruct (o_pm_runtime_enabled o);
  [destruct (o_pm_runtime_get_sync o =? 0)|]; reflexivity.

Ltac each_path :=
  destruct (o_kzalloc_pdev o); cbn [negb andb];
    [destruct (o_devres_open_group o); cbn [negb andb];
      [destruct (o_devm_drm_dev_alloc o); cbn [negb andb];
        [destruct (o_mock_uncore_init o =? 0); cbn [negb andb];
          [destruct (o_alloc_workqueue o); cbn [negb andb];
            [destruct (o_sched_engine_create o); cbn [negb andb];
              [destruct (o_drmm_kzalloc o); cbn [negb andb];
                [destruct (o_mock_engine o); cbn [negb andb];
                  [destruct (o_mock_engine_init o =? 0); cbn [negb andb]
                  |]|]|]|]|]|]|]|].

(** A construction never drains: whether it succeeds or fails, and whatever
    fuel it is given, it returns without a call of [mock_engine_flush], of
    the retire routine or of [i915_debugger_fini]; the release callback, when
    the unwind chain runs it, takes its short branch. *)
Theorem construction_never_drains fuel w :
  exists r w' cs,
    mock_gem_device K o fuel w = Ret r w' /\
    (forall fuel', mock_gem_device K o fuel' w = Ret r w') /\
    calls w' = calls w ++ cs /\
    existsb is_drain_call cs = false /\
    existsb is_debugger_fini cs = false /\
    retire_calls w' = retire_calls w.
Proof.
  set (n := next_handle w).
  assert (Hpm1 : existsb is_drain_call (pm_calls o n) = false) by pm_cases.
  assert (Hpm2 : existsb is_debugger_fini (pm_calls o n) = false) by pm_cases.
  assert (Hrun : forall fuel', mock_gem_device K o fuel' w = construct_outcome K o w)
    by (intros; apply mock_gem_device_run).
  rewrite Hrun. setoid_rewrite Hrun. clear Hrun.
  unfold construct_outcome, failed. fold n.
  each_path; eexists _, _, _;
    (split; [reflexivity|]); (split; [reflexivity|]); (split; [reflexivity|]);
    (split; [scan Hpm1|]); (split; [scan Hpm2 | reflexivity]).
Qed.

(** The debugger hooks are initialised, and the engine entered in the
    driver's table, exactly when the construction comes to its end: no path
    through the unwind chain has seen either call. *)
Theorem debugger_init_iff_success fuel w :
  exists r w' cs,
    mock_gem_device K o fuel w = Ret r w' /\
    calls w' = calls w ++ cs /\
    existsb is_debugger_init cs = construction_succeeds o /\
    existsb is_engines_register cs = construction_succeeds o /\
    (if construction_succeeds o then r = Some (the_i915 (next_handle w)) else r = None).
Proof.
  set (n := next_handle w).
  assert (Hpm1 : existsb is_debugger_init (pm_calls o n) = false) by pm_cases.
  assert (Hpm2 : existsb is_engines_register (pm_calls o n) = false) by pm_cases.
  rewrite mock_gem_device_run.
  unfold construct_outcome, failed, construction_succeeds. fold n.
  each_path; eexists _, _, _;
    (split; [reflexivity|]); (split; [reflexivity|]);
    (split; [scan Hpm1|]); (split; [scan Hpm2 | reflexivity]).
Qed.

(** A construction only appends to the trace and the ledger and hands out
    at most six fresh pointers; what an earlier pointer leads to, in either
    store, is not touched, whether the construction succeeds or unwinds. *)
Theorem construction_touches_nothing_else fuel w h :
  (h < next_handle w)%nat ->
  exists r w' cs acq rel,
    mock_gem_device K o fuel w = Ret r w' /\
    calls w' = calls w ++ cs /\
    acquired w' = acquired w ++ acq /\
    released w' = released w ++ rel /\
    devs w' !! h = devs w !! h /\
    pdevs w' !! h = pdevs w !! h /\
    (next_handle w <= next_handle w' <= next_handle w + 6)%nat.
Proof.
  intros Hh. rewrite mock_gem_device_run. unfold construct_outcome, failed.
  each_path; eexists _, _, _, _, _;
    (split; [reflexivity|]); cbn [calls acquired released devs pdevs next_handle grow];
    (split; [reflexivity|]); (split; [reflexivity|]); (split; [reflexivity|]);
    (split; [rewrite ?lookup_delete_ne, ?lookup_insert_ne
               by (unfold the_i915; lia); reflexivity|]);
    (split; [rewrite ?lookup_delete_ne, ?lookup_insert_ne
               by (unfold the_pdev; lia); reflexivity | lia]).
Qed.

Ltac ledger k :=
  eexists _, k, _;
  (split; [reflexivity|]); cbn [acquired released grow];
  (split; [reflexivity|]); (split; [reflexivity|]);
  (split; [vm_compute; reflexivity|]);
  (split; [apply (bool_decide_unpack _); vm_compute; reflexivity|]).

(** After a failed construction the ledger is a prefix of the order of
    acquisition, and nothing of it is outstanding except the translation
    layer, which stays whenever the failure came after [mock_init_ggtt].
    Nothing is released twice, and nothing is released that was not
    acquired, except the memory regions when the register shim failed. *)
Theorem failed_construction_ledger fuel w :
  construction_succeeds o = false ->
  exists w' k rel,
    mock_gem_device K o fuel w = Ret None w' /\
    acquired w' = acquired w ++ take k all_acquired /\
    released w' = released w ++ rel /\
    outstanding (take k all_acquired) rel =
      (if (o_kzalloc_pdev o && o_devres_open_group o && o_devm_drm_dev_alloc o &&
           (o_mock_uncore_init o =? 0) && o_alloc_workqueue o &&
           o_sched_engine_create o && o_drmm_kzalloc o)%bool
       then [TranslationLayer] else []) /\
    NoDup rel /\
    (forall r, r <> MemoryRegions ->
               (times_released r rel <= times_acquired r (take k all_acquired))%nat).
Proof.
  intros Hf. rewrite mock_gem_device_run.
  unfold construct_outcome, failed. unfold construction_succeeds in Hf.
  revert Hf.
  each_path; intros Hf; try discriminate Hf;
    first [ ledger 0%nat | ledger 1%nat | ledger 2%nat | ledger 6%nat
          | ledger 8%nat | ledger 9%nat | ledger 10%nat | ledger 12%nat
          | ledger 13%nat ];
    intros r Hr; destruct r; try (vm_compute; lia); congruence.
Qed.

(** Runtime power management cannot fail a construction.  Whether
    [pm_runtime_enabled] says yes or no, and whatever [pm_runtime_get_sync]
    returns, the construction returns the same pointer or NULL, leaves the
    same devices in the store and the same ledger, and makes the same calls
    apart from the questions to power management themselves; an error of
    [pm_runtime_get_sync] shows as one warning, and the call is not
    made at all when runtime power management is not enabled. *)
Theorem power_management_cannot_fail fuel w enabled sync :
  exists r w1 w2 cs1 cs2,
    mock_gem_device K o fuel w = Ret r w1 /\
    mock_gem_device K (with_pm enabled sync o) fuel w = Ret r w2 /\
    devs w1 = devs w2 /\ pdevs w1 = pdevs w2 /\
    acquired w1 = acquired w2 /\ released w1 = released w2 /\
    next_handle w1 = next_handle w2 /\
    calls w1 = calls w ++ cs1 /\ calls w2 = calls w ++ cs2 /\
    filter (fun c => is_pm_answer c = false) cs1 =
      filter (fun c => is_pm_answer c = false) cs2 /\
    length (filter (fun c => is_warning c = true) cs2) =
      (if device_allocated o && enabled && negb (sync =? 0) then 1%nat else 0%nat) /\
    (enabled = false -> filter (fun c => is_pm_answer c = true) cs2 =
       if device_allocated o
       then [c_pm_runtime_enabled (the_pdev (next_handle w)) false] else []).
Proof.
  set (n := next_handle w).
  assert (Hpm : forall o', filter (fun c => is_pm_answer c = false) (pm_calls o' n) =
                  [c_pci_set_drvdata (the_pdev n) (the_i915 n);
                   c_dev_pm_domain_set (the_pdev n);
                   c_pm_runtime_enable (the_pdev n);
                   c_pm_runtime_dont_use_autosuspend (the_pdev n)]).
  { intros o'. unfold pm_calls. destruct (o_pm_runtime_enabled o');
      [destruct (o_pm_runtime_get_sync o' =? 0)|]; reflexivity. }
  assert (Hw : length (filter (fun c => is_warning c = true) (pm_calls (with_pm enabled sync o) n)) =
               (if enabled && negb (sync =? 0) then 1%nat else 0%nat)).
  { unfold pm_calls. cbn [o_pm_runtime_enabled o_pm_runtime_get_sync with_pm].
    destruct enabled; [destruct (sync =? 0)|]; reflexivity. }
  assert (Ha : filter (fun c => is_pm_answer c = true)
                 (pm_calls (with_pm false sync o) n) =
               [c_pm_runtime_enabled (the_pdev n) false]) by reflexivity.
  rewrite !mock_gem_device_run.
  unfold construct_outcome, failed, device_allocated. fold n.
  cbn [o_kzalloc_pdev o_devres_open_group o_devm_drm_dev_alloc o_mock_uncore_init
       o_alloc_workqueue o_sched_engine_create o_drmm_kzalloc o_mock_engine
       o_mock_engine_init with_pm].
  each_path; eexists _, _, _, _, _;
    (split; [reflexivity|]); (split; [reflexivity|]);
    do 5 (split; [reflexivity|]);
    (split; [reflexivity|]); (split; [reflexivity|]);
    (split; [unfold_calls; rewrite ?filter_app, ?Hpm; reflexivity|]);
    (split; [unfold_calls; rewrite ?filter_app, ?length_app, ?Hw; cbn [andb];
             destruct (enabled && negb (sync =? 0))%bool; reflexivity|]);
    intros ->; unfold_calls; rewrite ?filter_app, ?Ha; reflexivity.
Qed.

End Paths.

(** ** The drain *)

Section Draining.

Variable K : kconst.
Variable o : oracle.

Lemma busy_before_step n k t :
  busy_before o (S n) k t ->
  fst (o_retire o k t) = false /\ busy_before o n (S k) (snd (o_retire o k t)).
Proof.
  intros Hb. split.
  - specialize (Hb 0%nat ltac:(lia)). cbn in Hb. by rewrite Nat.add_0_r in Hb.
  - intros m Hm. specialize (Hb (S m) ltac:(lia)). cbn [timeout_at] in Hb.
    by replace (k + S m)%nat with (S k + m)%nat in Hb by lia.
Qed.

Lemma flush_rounds_busy slots i915 fuel : forall k t,
  busy_before o fuel k t ->
  flush_rounds o fuel slots i915 k t = (busy_trace o slots i915 k t fuel, (fuel + k)%nat, false).
Proof.
  induction fuel as [|fuel IH]; intros k t Hb; [reflexivity|].
  apply busy_before_step in Hb as [Hk Hb].
  cbn [flush_rounds busy_trace]. rewrite Hk, (IH _ _ Hb).
  rewrite <- app_assoc. do 2 f_equal. lia.
Qed.

Lemma flush_rounds_exact slots i915 n : forall k t fuel,
  busy_before o n k t -> idle_at o n k t -> (n < fuel)%nat ->
  flush_rounds o fuel slots i915 k t = (drain_trace o slots i915 k t n, (S n + k)%nat, true).
Proof.
  induction n as [|n IH]; intros k t fuel Hb Hi Hf;
    (destruct fuel as [|fuel]; [lia|]); unfold idle_at in Hi.
  - cbn in Hi. rewrite Nat.add_0_r in Hi. cbn [flush_rounds]. rewrite Hi. reflexivity.
  - apply busy_before_step in Hb as [Hk Hb].
    cbn [timeout_at] in Hi. replace (k + S n)%nat with (S k + n)%nat in Hi by lia.
    cbn [flush_rounds]. rewrite Hk, (IH _ _ fuel Hb Hi) by lia.
    unfold drain_trace. cbn [busy_trace timeout_at].
    rewrite <- !app_assoc. do 2 f_equal. lia.
Qed.

Lemma busy_before_le n m k t :
  (m <= n)%nat -> busy_before o n k t -> busy_before o m k t.
Proof. intros Hle Hb j Hj. apply Hb. lia. Qed.

Lemma busy_trace_retires slots i915 n : forall k t,
  length (filter (fun c => is_retire c = true) (busy_trace o slots i915 k t n)) = n /\
  length (filter (fun c => is_engine_flush c = true) (busy_trace o slots i915 k t n)) =
    (n * length (omap id slots))%nat.
Proof.
  assert (Hf : forall l : list handle,
             filter (fun c => is_retire c = true) (map c_mock_engine_flush l) = [] /\
             length (filter (fun c => is_engine_flush c = true) (map c_mock_engine_flush l))
               = length l).
  { induction l as [|e l [IH1 IH2]]; [by split|]. split.
    - cbn [map]. rewrite filter_cons_False by (cbn; congruence). exact IH1.
    - cbn [map]. rewrite filter_cons_True by reflexivity. cbn [length]. by rewrite IH2. }
  induction n as [|n IH]; intros k t; [by split|].
  cbn [busy_trace]. destruct (IH (S k) (snd (o_retire o k t))) as [IH1 IH2].
  destruct (Hf (omap id slots)) as [H1 H2]. unfold flushed.
  rewrite !filter_app, !length_app, H1, H2, IH1, IH2.
  rewrite filter_cons_True by reflexivity.
  rewrite filter_cons_False by (cbn; congruence).
  rewrite !filter_nil. cbn [length]. split; lia.
Qed.

(** When the retire routine first reports the tile idle on round [n]
    (counting from zero), [mock_device_flush] returns exactly with more
    than [n] units of fuel, after [n + 1] rounds: each round flushes every
    engine and then asks the retire routine, which is handed the timeout the
    round before left behind, starting from [MAX_SCHEDULE_TIMEOUT].  With
    less fuel the drain is still going when the fuel is used up.  The drain
    changes nothing but the trace and the retire count. *)
Theorem drain_takes_rounds fuel w i915 d n :
  devs w !! i915 = Some d ->
  busy_before o n (retire_calls w) (MAX_SCHEDULE_TIMEOUT K) ->
  idle_at o n (retire_calls w) (MAX_SCHEDULE_TIMEOUT K) ->
  mock_device_flush K o fuel i915 w =
    if (n <? fuel)%nat then
      Ret tt (extend (drain_trace o (gt_engine (gt0 d)) i915 (retire_calls w)
                                  (MAX_SCHEDULE_TIMEOUT K) n)
                     [] (S n + retire_calls w) w)
    else
      OutOfFuel (extend (busy_trace o (gt_engine (gt0 d)) i915 (retire_calls w)
                                    (MAX_SCHEDULE_TIMEOUT K) fuel)
                        [] (fuel + retire_calls w) w).
Proof.
  intros Hd Hb Hi. unfold mock_device_flush.
  rewrite (flush_loop_run o fuel _ w i915 d Hd).
  destruct (n <? fuel)%nat eqn:E.
  - apply Nat.ltb_lt in E. by rewrite (flush_rounds_exact _ _ n _ _ fuel Hb Hi E).
  - apply Nat.ltb_ge in E.
    by rewrite (flush_rounds_busy _ _ fuel _ _ (busy_before_le _ _ _ _ E Hb)).
Qed.

(** The loop of [mock_device_flush] looks at the answer of the retire
    routine only, never at the timeout: when the routine never reports the
    tile idle the drain does not return, whatever the fuel, and every unit of
    fuel is one more round of flushing every engine and asking again. *)
Theorem drain_ignores_timeout fuel w i915 d :
  devs w !! i915 = Some d ->
  never_idle o ->
  exists cs,
    mock_device_flush K o fuel i915 w =
      OutOfFuel (extend cs [] (fuel + retire_calls w) w) /\
    length (filter (fun c => is_retire c = true) cs) = fuel /\
    length (filter (fun c => is_engine_flush c = true) cs) =
      (fuel * length (omap id (gt_engine (gt0 d))))%nat /\
    existsb is_idle_report cs = false.
Proof.
  intros Hd Hn.
  exists (busy_trace o (gt_engine (gt0 d)) i915 (retire_calls w) (MAX_SCHEDULE_TIMEOUT K) fuel).
  assert (Hb : busy_before o fuel (retire_calls w) (MAX_SCHEDULE_TIMEOUT K))
    by (intros m _; apply Hn).
  split; [|split; [|split]].
  - unfold mock_device_flush. rewrite (flush_loop_run o fuel _ w i915 d Hd).
    by rewrite (flush_rounds_busy _ _ fuel _ _ Hb).
  - apply busy_trace_retires.
  - apply busy_trace_retires.
  - pose proof (flush_rounds_idle o fuel (gt_engine (gt0 d)) i915 (retire_calls w)
                                  (MAX_SCHEDULE_TIMEOUT K)) as H.
    by rewrite (flush_rounds_busy _ _ fuel _ _ Hb) in H.
Qed.

End Draining.

(** ** Devices over their life *)

Section Lifecycle.

Variable K : kconst.
Variable o : oracle.

Lemma omap_replicate_None {A} n : omap id (replicate n (@None A)) = [].
Proof. induction n as [|n IH]; [reflexivity | exact IH]. Qed.

(** An array of empty slots with one slot filled holds one element. *)
Lemma omap_one_slot {A} (e : A) n : forall i,
  (i < n)%nat -> omap id (<[i := Some e]> (replicate n None)) = [e].
Proof.
  induction n as [|n IH]; intros i Hi; [lia|].
  destruct i as [|i]; cbn.
  - by rewrite omap_replicate_None.
  - apply IH. lia.
Qed.

Lemma flushed_constructed n :
  flushed (gt_engine (gt0 (constructed_i915 K n))) = [c_mock_engine_flush (the_engine n)].
Proof.
  unfold flushed. cbn [gt_engine gt0 constructed_i915].
  rewrite omap_one_slot by apply RCS0_in_range. reflexivity.
Qed.

(** The first round of a drain on which the retire routine reports idle. *)
Lemma flush_rounds_at_once fuel slots i915 k t :
  fst (o_retire o k t) = true ->
  flush_rounds o (S fuel) slots i915 k t =
    (flushed slots ++ [c_intel_gt_retire_requests_timeout i915 t true], S k, true).
Proof. intros H. cbn [flush_rounds]. by rewrite H. Qed.

(** The pointers a construction leaves wired: the device and its identity
    point at each other, the identity holds one reference, frees itself
    through [release_dev] and keeps the device in one devres group; [mm.wq]
    and [mm.sched] are the workqueue and the scheduler of the device, the
    address space of the tile is its translation layer, which is the one
    managed allocation; the five pointers handed out are all different. *)
Theorem constructed_device_wiring fuel w i915 w' :
  mock_gem_device K o fuel w = Ret (Some i915) w' ->
  exists d p q s g,
    devs w' !! i915 = Some d /\
    pdevs w' !! drm_dev d = Some p /\
    dev_drvdata p = Some i915 /\
    bound K (drm_dev d) i915 p d /\
    dev_name p = Some "mock"%string /\
    dev_pm p = Some pm_domain /\
    wq d = Some q /\ mm_wq d = Some q /\
    sched d = Some s /\ mm_sched d = Some s /\
    gt_ggtt (gt0 d) = Some g /\ gt_vm (gt0 d) = Some g /\
    drm_managed d = [g] /\
    gt_name (gt0 d) = Some "Mock GT"%string /\
    gt_slot0 d = true /\
    NoDup [drm_dev d; i915; q; s; g] /\
    Forall (fun h => (next_handle w <= h < next_handle w')%nat) [drm_dev d; i915; q; s; g].
Proof.
  intros Hrun. apply construct_success_inv in Hrun as [-> ->].
  set (n := next_handle w).
  exists (constructed_i915 K n), (constructed_pdev K n), (the_wq n), (the_sched n),
         (the_ggtt n).
  cbn [devs pdevs grow drm_dev constructed_i915 next_handle].
  split; [apply lookup_insert_eq|]. split; [apply lookup_insert_eq|].
  do 13 (split; [first [reflexivity | by repeat split]|]).
  fold n. unfold the_pdev, the_i915, the_wq, the_sched, the_ggtt. split.
  - repeat (apply NoDup_cons; split; [rewrite ?elem_of_cons, elem_of_nil; lia|]).
    apply NoDup_nil_2.
  - repeat constructor; lia.
Qed.

(** The tile of a constructed device has one engine: the slot [RCS0] of
    [gt->engine] holds the pointer [mock_engine] returned and every other
    slot is empty, so [for_each_engine] visits that engine alone; both
    engine masks are the bit of engine 0, the wakeref count is one, the
    device is marked as a mock with system memory as its only region, and
    the wedged bit of the reset flags is clear. *)
Theorem constructed_device_engines fuel w i915 w' :
  mock_gem_device K o fuel w = Ret (Some i915) w' ->
  exists d e,
    devs w' !! i915 = Some d /\
    length (gt_engine (gt0 d)) = I915_NUM_ENGINES K /\
    gt_engine (gt0 d) !! RCS0 K = Some (Some e) /\
    (forall j, j <> RCS0 K -> (j < I915_NUM_ENGINES K)%nat ->
               gt_engine (gt0 d) !! j = Some None) /\
    omap id (gt_engine (gt0 d)) = [e] /\
    (next_handle w <= e < next_handle w')%nat /\
    e <> i915 /\
    platform_engine_mask d = 1 /\ gt_info_engine_mask (gt0 d) = 1 /\
    gt_wakeref_count (gt0 d) = 1 /\
    gt_mock (gt0 d) = true /\
    memory_regions d = REGION_SMEM K /\
    Z.testbit (gt_reset_flags (gt0 d)) (I915_WEDGED K) = false.
Proof.
  intros Hrun. apply construct_success_inv in Hrun as [-> ->].
  set (n := next_handle w).
  exists (constructed_i915 K n), (the_engine n).
  cbn [devs grow next_handle gt_engine gt0 constructed_i915 platform_engine_mask
       gt_info_engine_mask gt_wakeref_count gt_mock memory_regions gt_reset_flags].
  pose proof (RCS0_in_range K) as Hin.
  split; [apply lookup_insert_eq|].
  split; [by rewrite length_insert, length_replicate|].
  split; [apply list_lookup_insert_eq; by rewrite length_replicate|].
  split.
  { intros j Hj Hlt. rewrite list_lookup_insert_ne by congruence.
    by apply lookup_replicate_2. }
  split; [by apply omap_one_slot|].
  fold n. unfold the_engine, the_i915.
  split; [lia|]. split; [lia|].
  do 5 (split; [reflexivity|]).
  unfold Z.clearbit. cbn [Z.ldiff]. apply Z.testbit_0_l.
Qed.

(** A drain right after construction, the tile idle at once: its one round
    flushes the engine that [mock_engine] made and asks the retire routine
    once, with [MAX_SCHEDULE_TIMEOUT]; nothing is released and the device
    stays as constructed. *)
Theorem flush_after_construction fuel fuel' w :
  construction_succeeds o = true ->
  fst (o_retire o (retire_calls w) (MAX_SCHEDULE_TIMEOUT K)) = true ->
  let n := next_handle w in
  exists w1 w2,
    mock_gem_device K o fuel w = Ret (Some (the_i915 n)) w1 /\
    mock_device_flush K o (S fuel') (the_i915 n) w1 = Ret tt w2 /\
    calls w2 =
      calls w1 ++
      [c_mock_engine_flush (the_engine n);
       c_intel_gt_retire_requests_timeout (the_i915 n) (MAX_SCHEDULE_TIMEOUT K) true] /\
    retire_calls w2 = S (retire_calls w) /\
    acquired w2 = acquired w1 /\ released w2 = released w1 /\
    devs w2 = devs w1 /\ pdevs w2 = pdevs w1.
Proof.
  intros Hs Hidle n. rewrite (construct_success_run K o fuel w Hs). fold n.
  eexists _, _. split; [reflexivity|].
  unfold mock_device_flush.
  erewrite flush_loop_run by (cbn; apply lookup_insert_eq).
  cbn [retire_calls grow].
  rewrite (flush_rounds_at_once _ _ _ _ _ Hidle), flushed_constructed.
  unfold stop. split; [reflexivity|].
  cbn [calls retire_calls acquired released devs pdevs extend grow].
  rewrite app_nil_r. by repeat split.
Qed.

(** Destroying a device a second time is a use after free: once
    [mock_destroy_device] has returned, the device is gone from the store,
    and a second call, or a drain, on the same pointer faults at its first
    read without a call made. *)
Theorem destroy_twice_faults fuel fuel' w rounds :
  construction_succeeds o = true ->
  idle_at o rounds (retire_calls w) (MAX_SCHEDULE_TIMEOUT K) ->
  let n := next_handle w in
  exists w1 w2,
    mock_gem_device K o fuel w = Ret (Some (the_i915 n)) w1 /\
    mock_destroy_device K o (S rounds) (the_i915 n) w1 = Ret tt w2 /\
    mock_destroy_device K o fuel' (the_i915 n) w2 = Fault w2 /\
    mock_device_release K o fuel' (the_i915 n) w2 = Fault w2 /\
    mock_device_flush K o (S fuel') (the_i915 n) w2 = Fault w2.
Proof.
  intros Hs Hidle n. rewrite (construct_success_run K o fuel w Hs). fold n.
  set (w1 := grow _ _ _ _ _ _ w).
  assert (Hd : exists w2, mock_destroy_device K o (S rounds) (the_i915 n) w1 = Ret tt w2 /\
                          devs w2 !! the_i915 n = None).
  { unfold w1. erewrite mock_destroy_device_full by side.
    cbn [retire_calls grow gt_engine gt0 constructed_i915].
    pose proof (flush_rounds_finish o rounds
      (<[RCS0 K := Some (the_engine n)]> (replicate (I915_NUM_ENGINES K) None))
      (the_i915 n) (retire_calls w) (MAX_SCHEDULE_TIMEOUT K) Hidle) as Hfin.
    destruct (flush_rounds _ _ _ _ _ _) as [[cs k] fin]. cbn [snd] in Hfin. subst fin.
    eexists. split; [reflexivity|]. apply lookup_delete_eq. }
  destruct Hd as (w2 & Hd & Hgone).
  exists w1, w2. split; [reflexivity|]. split; [exact Hd|].
  unfold mock_destroy_device, mock_device_release, mock_device_flush.
  cbn [mock_device_flush_loop].
  unfold bind, i915_get. rewrite Hgone. by repeat split.
Qed.

(** The calls of a drain depend on the engine slots only through the
    engines in them. *)
Lemma busy_trace_slots s1 s2 i915 n : forall k t,
  flushed s1 = flushed s2 ->
  busy_trace o s1 i915 k t n = busy_trace o s2 i915 k t n.
Proof.
  induction n as [|n IH]; intros k t Hf; [reflexivity|].
  cbn [busy_trace]. by rewrite Hf, (IH _ _ Hf).
Qed.

Lemma drain_trace_slots s1 s2 i915 n k t :
  flushed s1 = flushed s2 ->
  drain_trace o s1 i915 k t n = drain_trace o s2 i915 k t n.
Proof.
  intros Hf. unfold drain_trace. by rewrite Hf, (busy_trace_slots s1 s2 _ _ _ _ Hf).
Qed.

(** [mock_destroy_device] on a constructed device whose drain first finds
    the tile idle on round [r]: the outcome for every fuel. *)
Lemma destroy_constructed_run fuel w n r :
  devs w !! the_i915 n = Some (constructed_i915 K n) ->
  pdevs w !! the_pdev n = Some (constructed_pdev K n) ->
  busy_before o r (retire_calls w) (MAX_SCHEDULE_TIMEOUT K) ->
  idle_at o r (retire_calls w) (MAX_SCHEDULE_TIMEOUT K) ->
  mock_destroy_device K o fuel (the_i915 n) w =
    if (r <? fuel)%nat then
      Ret tt (gone (the_pdev n) (the_i915 n)
        (extend (c_devres_release_group (the_pdev n) :: c_i915_debugger_fini (the_i915 n) ::
                 drain_trace o [Some (the_engine n)] (the_i915 n) (retire_calls w)
                             (MAX_SCHEDULE_TIMEOUT K) r ++
                 teardown_calls (the_i915 n) (constructed_i915 K n) ++
                 [c_put_device (the_pdev n); c_kfree (the_pdev n)])
                (Debugger :: teardown_released ++ managed_released [the_ggtt n] ++
                 [DeviceAggregate; DevresGroup; Identity])
                (S r + retire_calls w) w))
    else
      OutOfFuel
        (extend (c_devres_release_group (the_pdev n) :: c_i915_debugger_fini (the_i915 n) ::
                 busy_trace o [Some (the_engine n)] (the_i915 n) (retire_calls w)
                            (MAX_SCHEDULE_TIMEOUT K) fuel)
                [Debugger] (fuel + retire_calls w)
                (with_pdevs (<[the_pdev n := set_dev_devres [] (constructed_pdev K n)]>
                               (pdevs w)) w)).
Proof.
  intros Hd Hp Hb Hi.
  rewrite (mock_destroy_device_full K o fuel w _ _ _ _ Hd Hp
             ltac:(by repeat split) eq_refl).
  assert (Hf : flushed (gt_engine (gt0 (constructed_i915 K n))) =
               flushed [Some (the_engine n)]) by apply flushed_constructed.
  destruct (r <? fuel)%nat eqn:E.
  - apply Nat.ltb_lt in E.
    rewrite (flush_rounds_exact o _ _ r _ _ fuel Hb Hi E).
    by rewrite (drain_trace_slots _ _ _ _ _ _ Hf).
  - apply Nat.ltb_ge in E.
    rewrite (flush_rounds_busy o _ _ fuel _ _ (busy_before_le o _ _ _ _ E Hb)).
    by rewrite (busy_trace_slots _ _ _ _ _ _ Hf).
Qed.

(** Two devices constructed one after the other share nothing.  Let the
    drain of the first find its tile idle on round [r1] and, after that, the
    drain of the second on round [r2] (a drain that never finds the tile idle
    never returns).  Destroying the first device with whatever fuel, whether
    the drain comes to its end or is cut short, leaves the second device and
    its identity in the store as constructed.  With fuel for its [r1 + 1]
    rounds it flushes the engine of the first device only, tears down the
    resources of the first only, and frees the first device and its identity.
    Destroying the second device afterwards does the same for the second,
    and nothing of either device stays acquired. *)
Theorem two_devices_independent fuel fuel1 fuel2 w r1 r2 :
  construction_succeeds o = true ->
  busy_before o r1 (retire_calls w) (MAX_SCHEDULE_TIMEOUT K) ->
  idle_at o r1 (retire_calls w) (MAX_SCHEDULE_TIMEOUT K) ->
  busy_before o r2 (S r1 + retire_calls w) (MAX_SCHEDULE_TIMEOUT K) ->
  idle_at o r2 (S r1 + retire_calls w) (MAX_SCHEDULE_TIMEOUT K) ->
  (r1 < fuel1)%nat -> (r2 < fuel2)%nat ->
  let n := next_handle w in
  let m := (6 + n)%nat in
  exists w1 w2 w3 w4 rel,
    mock_gem_device K o fuel w = Ret (Some (the_i915 n)) w1 /\
    mock_gem_device K o fuel w1 = Ret (Some (the_i915 m)) w2 /\
    (forall f, exists w3',
       mock_destroy_device K o f (the_i915 n) w2 =
         (if (r1 <? f)%nat then Ret tt w3' else OutOfFuel w3') /\
       devs w3' !! the_i915 m = Some (constructed_i915 K m) /\
       pdevs w3' !! the_pdev m = Some (constructed_pdev K m)) /\
    mock_destroy_device K o fuel1 (the_i915 n) w2 = Ret tt w3 /\
    calls w3 =
      calls w2 ++
      [c_devres_release_group (the_pdev n); c_i915_debugger_fini (the_i915 n)] ++
      drain_trace o [Some (the_engine n)] (the_i915 n) (retire_calls w)
                  (MAX_SCHEDULE_TIMEOUT K) r1 ++
      teardown_calls (the_i915 n) (constructed_i915 K n) ++
      [c_put_device (the_pdev n); c_kfree (the_pdev n)] /\
    devs w3 !! the_i915 n = None /\ pdevs w3 !! the_pdev n = None /\
    devs w3 !! the_i915 m = Some (constructed_i915 K m) /\
    pdevs w3 !! the_pdev m = Some (constructed_pdev K m) /\
    mock_destroy_device K o fuel2 (the_i915 m) w3 = Ret tt w4 /\
    calls w4 =
      calls w3 ++
      [c_devres_release_group (the_pdev m); c_i915_debugger_fini (the_i915 m)] ++
      drain_trace o [Some (the_engine m)] (the_i915 m) (S r1 + retire_calls w)
                  (MAX_SCHEDULE_TIMEOUT K) r2 ++
      teardown_calls (the_i915 m) (constructed_i915 K m) ++
      [c_put_device (the_pdev m); c_kfree (the_pdev m)] /\
    devs w4 !! the_i915 m = None /\ pdevs w4 !! the_pdev m = None /\
    acquired w4 = acquired w ++ all_acquired ++ all_acquired /\
    released w4 = released w ++ rel /\
    outstanding (all_acquired ++ all_acquired) rel = [].
Proof.
  intros Hs Hb1 Hi1 Hb2 Hi2 Hf1 Hf2 n m.
  pose proof (construct_success_run K o fuel w Hs) as H1. fold n in H1.
  match type of H1 with _ = Ret _ ?x => set (w1 := x) in * end.
  pose proof (construct_success_run K o fuel w1 Hs) as H2.
  change (next_handle w1) with m in H2.
  match type of H2 with _ = Ret _ ?x => set (w2 := x) in * end.
  assert (Hne1 : the_i915 m <> the_i915 n) by (unfold the_i915, m; lia).
  assert (Hne2 : the_pdev m <> the_pdev n) by (unfold the_pdev, m; lia).
  assert (Hd1 : devs w2 !! the_i915 n = Some (constructed_i915 K n)).
  { cbn. rewrite lookup_insert_ne by exact Hne1. apply lookup_insert_eq. }
  assert (Hp1 : pdevs w2 !! the_pdev n = Some (constructed_pdev K n)).
  { cbn. rewrite lookup_insert_ne by exact Hne2. apply lookup_insert_eq. }
  assert (Hdes1 := fun f => destroy_constructed_run f w2 n r1 Hd1 Hp1 Hb1 Hi1).
  change (retire_calls w2) with (retire_calls w) in Hdes1.
  pose proof (Hdes1 fuel1) as Hrun1.
  rewrite (proj2 (Nat.ltb_lt r1 fuel1) Hf1) in Hrun1.
  match type of Hrun1 with _ = Ret tt ?x => set (w3 := x) in * end.
  assert (Hd2 : devs w3 !! the_i915 m = Some (constructed_i915 K m)).
  { cbn. rewrite lookup_delete_ne by (unfold the_i915, m; lia). apply lookup_insert_eq. }
  assert (Hp2 : pdevs w3 !! the_pdev m = Some (constructed_pdev K m)).
  { cbn. rewrite lookup_delete_ne by (unfold the_pdev, m; lia). apply lookup_insert_eq. }
  pose proof (destroy_constructed_run fuel2 w3 m r2 Hd2 Hp2 Hb2 Hi2) as Hrun2.
  rewrite (proj2 (Nat.ltb_lt r2 fuel2) Hf2) in Hrun2.
  change (retire_calls w3) with (S r1 + retire_calls w)%nat in Hrun2.
  match type of Hrun2 with _ = Ret tt ?x => set (w4 := x) in * end.
  exists w1, w2, w3, w4.
  exists ((Debugger :: teardown_released ++ managed_released [the_ggtt n] ++
           [DeviceAggregate; DevresGroup; Identity]) ++
          (Debugger :: teardown_released ++ managed_released [the_ggtt m] ++
           [DeviceAggregate; DevresGroup; Identity])).
  split; [exact H1|]. split; [exact H2|]. split.
  { intros f. rewrite (Hdes1 f). destruct (r1 <? f)%nat; eexists;
      (split; [reflexivity|]); cbn [devs pdevs gone extend with_pdevs].
    - split; [exact Hd2 | exact Hp2].
    - split; cbn; [|rewrite lookup_insert_ne by (unfold the_pdev, m; lia)];
        apply lookup_insert_eq. }
  split; [exact Hrun1|]. split; [reflexivity|].
  split; [apply lookup_delete_eq|]. split; [apply lookup_delete_eq|].
  split; [exact Hd2|]. split; [exact Hp2|]. split; [exact Hrun2|].
  split; [reflexivity|].
  split; [apply lookup_delete_eq|]. split; [apply lookup_delete_eq|].
  split; [cbn; by rewrite <- app_assoc|].
  split; [cbn; by rewrite <- !app_assoc|].
  vm_compute. reflexivity.
Qed.

(** A device whose tile never goes idle cannot be destroyed: for every
    fuel [mock_destroy_device] is still in the drain when the fuel is used
    up.  By then the devres group is detached from the identity and the
    debugger hooks are finalised, and nothing else is released: the device
    and its identity are still in the store, and [put_device] has not been
    called. *)
Theorem destroy_blocks_while_busy fuel w pdev i915 p d :
  devs w !! i915 = Some d -> pdevs w !! pdev = Some p -> bound K pdev i915 p d ->
  do_release d = true ->
  never_idle o ->
  exists w' cs,
    mock_destroy_device K o fuel i915 w = OutOfFuel w' /\
    calls w' = calls w ++ [c_devres_release_group pdev; c_i915_debugger_fini i915] ++ cs /\
    forallb is_drain_call cs = true /\
    existsb is_idle_report cs = false /\
    length (filter (fun c => is_retire c = true) cs) = fuel /\
    released w' = released w ++ [Debugger] /\
    acquired w' = acquired w /\
    devs w' !! i915 = Some d /\
    pdevs w' !! pdev = Some (set_dev_devres [] p).
Proof.
  intros Hd Hp Hb Hr Hn.
  rewrite (mock_destroy_device_full K o fuel w pdev i915 p d Hd Hp Hb Hr).
  assert (Hbusy : busy_before o fuel (retire_calls w) (MAX_SCHEDULE_TIMEOUT K))
    by (intros j _; apply Hn).
  pose proof (flush_rounds_drain o fuel (gt_engine (gt0 d)) i915 (retire_calls w)
                (MAX_SCHEDULE_TIMEOUT K)) as Hdrain.
  pose proof (flush_rounds_idle o fuel (gt_engine (gt0 d)) i915 (retire_calls w)
                (MAX_SCHEDULE_TIMEOUT K)) as Hidle.
  rewrite (flush_rounds_busy o _ _ fuel _ _ Hbusy) in *. cbn [fst] in Hdrain.
  eexists _, _. split; [reflexivity|].
  split; [reflexivity|]. split; [exact Hdrain|]. split; [exact Hidle|].
  split; [apply busy_trace_retires|].
  cbn. split; [reflexivity|]. split; [reflexivity|].
  split; [exact Hd | apply lookup_insert_eq].
Qed.

End Lifecycle.

(** ** The theorems above at concrete machines *)

Lemma identity_alloc_failure_witness :
  exists w',
    mock_gem_device upstream identity_alloc_fails 0 boot = Ret None w' /\
    calls w' = calls boot ++ [c_kzalloc_pdev None] /\
    acquired w' = acquired boot /\ released w' = released boot /\
    next_handle w' = next_handle boot /\
    pdevs w' = pdevs boot /\ devs w' = devs boot.
Proof.
  apply (identity_alloc_failure upstream identity_alloc_fails 0 boot); reflexivity.
Defined.

Lemma group_open_failure_witness :
  exists w',
    mock_gem_device upstream group_open_fails 0 boot = Ret None w' /\
    calls w' =
      calls boot ++ bus_calls 1%nat ++
      [c_devres_open_group 1%nat false; c_put_device 1%nat; c_kfree 1%nat] /\
    acquired w' = acquired boot ++ [Identity] /\
    released w' = released boot ++ [Identity] /\
    pdevs w' !! 1%nat = None /\ devs w' = devs boot.
Proof.
  apply (group_open_failure upstream group_open_fails 0 boot); reflexivity.
Defined.

Lemma device_alloc_failure_witness :
  exists w',
    mock_gem_device upstream device_alloc_fails 0 boot = Ret None w' /\
    calls w' =
      calls boot ++ bus_calls 1%nat ++
      [c_devres_open_group 1%nat true; c_devm_drm_dev_alloc 1%nat None;
       c_pr_err ("Failed to allocate mock GEM device: err=%ld" ++ newline)%string [-12];
       c_devres_release_group 1%nat; c_put_device 1%nat; c_kfree 1%nat] /\
    acquired w' = acquired boot ++ [Identity; DevresGroup] /\
    released w' = released boot ++ [DevresGroup; Identity] /\
    pdevs w' !! 1%nat = None /\ devs w' = devs boot.
Proof.
  apply (device_alloc_failure upstream device_alloc_fails 0 boot); reflexivity.
Defined.

Lemma uncore_init_failure_witness :
  exists w',
    mock_gem_device upstream uncore_init_fails 0 boot = Ret None w' /\
    calls w' =
      calls boot ++ calls_to_shim uncore_init_fails 1%nat ++
      [c_intel_gt_driver_late_release_all 2%nat;
       c_intel_memory_regions_driver_release 2%nat;
       c_drm_mode_config_cleanup 2%nat; c_devres_release_group 1%nat;
       c_i915_params_free 2%nat; c_put_device 1%nat; c_kfree 1%nat] /\
    acquired w' =
      acquired boot ++
      [Identity; DevresGroup; DeviceAggregate; ConfigCopy; ModeConfig; RootGt] /\
    released w' =
      released boot ++
      [RootGt; MemoryRegions; ModeConfig; ConfigCopy; DeviceAggregate; DevresGroup;
       Identity] /\
    outstanding
      [Identity; DevresGroup; DeviceAggregate; ConfigCopy; ModeConfig; RootGt]
      [RootGt; MemoryRegions; ModeConfig; ConfigCopy; DeviceAggregate; DevresGroup;
       Identity] = [] /\
    pdevs w' !! 1%nat = None /\ devs w' !! 2%nat = None.
Proof.
  apply (uncore_init_failure upstream uncore_init_fails 0 boot);
    [reflexivity | cbn; lia].
Defined.

Lemma workqueue_alloc_failure_witness :
  exists w',
    mock_gem_device upstream workqueue_alloc_fails 0 boot = Ret None w' /\
    calls w' =
      calls boot ++ calls_to_shim workqueue_alloc_fails 1%nat ++ probe_calls 1%nat ++
      [c_alloc_workqueue "%s" 2 0 "mock" None;
       c_mock_uncore_uninit 2%nat;
       c_intel_gt_driver_late_release_all 2%nat;
       c_intel_memory_regions_driver_release 2%nat;
       c_drm_mode_config_cleanup 2%nat; c_devres_release_group 1%nat;
       c_i915_params_free 2%nat; c_put_device 1%nat; c_kfree 1%nat] /\
    released w' =
      released boot ++
      [RegisterShim; RootGt; MemoryRegions; ModeConfig; ConfigCopy; DeviceAggregate;
       DevresGroup; Identity] /\
    acquired w' = acquired boot ++ take 8 all_acquired /\
    outstanding (take 8 all_acquired)
      [RegisterShim; RootGt; MemoryRegions; ModeConfig; ConfigCopy; DeviceAggregate;
       DevresGroup; Identity] = [] /\
    pdevs w' !! 1%nat = None /\ devs w' !! 2%nat = None.
Proof.
  apply (workqueue_alloc_failure upstream workqueue_alloc_fails 0 boot); reflexivity.
Defined.

Lemma engine_init_failure_witness :
  exists w',
    mock_gem_device upstream engine_init_fails 0 boot = Ret None w' /\
    calls w' =
      calls boot ++ calls_to_engine upstream engine_init_fails 1%nat (Some 6%nat) ++
      [c_mock_engine_init (Some 6%nat) (-12);
       c_intel_gt_driver_remove 2%nat;
       c_i915_sched_engine_put (Some 4%nat);
       c_destroy_workqueue (Some 3%nat); c_mock_uncore_uninit 2%nat;
       c_intel_gt_driver_late_release_all 2%nat;
       c_intel_memory_regions_driver_release 2%nat;
       c_drm_mode_config_cleanup 2%nat;
       c_devres_release_group 1%nat; c_i915_params_free 2%nat;
       c_put_device 1%nat; c_kfree 1%nat] /\
    released w' =
      released boot ++
      [ComputeEngine; Scheduler; Workqueue; RegisterShim; RootGt; MemoryRegions;
       ModeConfig; ConfigCopy; GgttMemory; DeviceAggregate; DevresGroup; Identity] /\
    acquired w' = acquired boot ++ take 13 all_acquired /\
    outstanding (take 13 all_acquired)
      [ComputeEngine; Scheduler; Workqueue; RegisterShim; RootGt; MemoryRegions;
       ModeConfig; ConfigCopy; GgttMemory; DeviceAggregate; DevresGroup; Identity] =
      [TranslationLayer] /\
    pdevs w' !! 1%nat = None /\ devs w' !! 2%nat = None.
Proof.
  apply (engine_init_failure upstream engine_init_fails 0 boot);
    first [reflexivity | cbn; lia].
Defined.

Lemma construction_touches_nothing_else_witness :
  exists r w' cs acq rel,
    mock_gem_device upstream engine_fails 0 built = Ret r w' /\
    calls w' = calls built ++ cs /\
    acquired w' = acquired built ++ acq /\
    released w' = released built ++ rel /\
    devs w' !! 2%nat = devs built !! 2%nat /\
    pdevs w' !! 2%nat = pdevs built !! 2%nat /\
    (next_handle built <= next_handle w' <= next_handle built + 6)%nat.
Proof.
  apply (construction_touches_nothing_else upstream engine_fails 0 built 2%nat).
  cbn. lia.
Defined.

Lemma failed_construction_ledger_witness :
  exists w' k rel,
    mock_gem_device upstream engine_fails 0 boot = Ret None w' /\
    acquired w' = acquired boot ++ take k all_acquired /\
    released w' = released boot ++ rel /\
    outstanding (take k all_acquired) rel = [TranslationLayer] /\
    NoDup rel /\
    (forall r, r <> MemoryRegions ->
               (times_released r rel <= times_acquired r (take k all_acquired))%nat).
Proof.
  apply (failed_construction_ledger upstream engine_fails 0 boot). reflexivity.
Defined.

Lemma drain_takes_rounds_witness :
  mock_device_flush upstream (all_succeed 2) 5 2%nat built =
    Ret tt (extend
      [c_mock_engine_flush 6%nat;
       c_intel_gt_retire_requests_timeout 2%nat 9223372036854775807 false;
       c_mock_engine_flush 6%nat;
       c_intel_gt_retire_requests_timeout 2%nat 9223372036854775806 false;
       c_mock_engine_flush 6%nat;
       c_intel_gt_retire_requests_timeout 2%nat 9223372036854775805 true]
      [] 3 built).
Proof.
  apply (drain_takes_rounds upstream (all_succeed 2) 5 built 2%nat
           (constructed_i915 upstream 1%nat) 2).
  - reflexivity.
  - intros m Hm. destruct m as [|[|m]]; [reflexivity | reflexivity | lia].
  - reflexivity.
Defined.

Lemma drain_ignores_timeout_witness :
  exists cs,
    mock_device_flush upstream never_drained 3 2%nat built =
      OutOfFuel (extend cs [] 3 built) /\
    length (filter (fun c => is_retire c = true) cs) = 3%nat /\
    length (filter (fun c => is_engine_flush c = true) cs) = 3%nat /\
    existsb is_idle_report cs = false.
Proof.
  apply (drain_ignores_timeout upstream never_drained 3 built 2%nat
           (constructed_i915 upstream 1%nat)).
  - reflexivity.
  - intros k t. reflexivity.
Defined.

Lemma constructed_device_wiring_witness :
  exists d p q s g,
    devs built !! 2%nat = Some d /\
    pdevs built !! drm_dev d = Some p /\
    dev_drvdata p = Some 2%nat /\
    bound upstream (drm_dev d) 2%nat p d /\
    dev_name p = Some "mock"%string /\
    dev_pm p = Some pm_domain /\
    wq d = Some q /\ mm_wq d = Some q /\
    sched d = Some s /\ mm_sched d = Some s /\
    gt_ggtt (gt0 d) = Some g /\ gt_vm (gt0 d) = Some g /\
    drm_managed d = [g] /\
    gt_name (gt0 d) = Some "Mock GT"%string /\
    gt_slot0 d = true /\
    NoDup [drm_dev d; 2%nat; q; s; g] /\
    Forall (fun h => (1 <= h < 7)%nat) [drm_dev d; 2%nat; q; s; g].
Proof.
  apply (constructed_device_wiring upstream (all_succeed 0) 0 boot 2%nat built).
  vm_compute. reflexivity.
Defined.

Lemma constructed_device_engines_witness :
  exists d e,
    devs built !! 2%nat = Some d /\
    length (gt_engine (gt0 d)) = 27%nat /\
    gt_engine (gt0 d) !! 0%nat = Some (Some e) /\
    (forall j, j <> 0%nat -> (j < 27)%nat -> gt_engine (gt0 d) !! j = Some None) /\
    omap id (gt_engine (gt0 d)) = [e] /\
    (1 <= e < 7)%nat /\
    e <> 2%nat /\
    platform_engine_mask d = 1 /\ gt_info_engine_mask (gt0 d) = 1 /\
    gt_wakeref_count (gt0 d) = 1 /\
    gt_mock (gt0 d) = true /\
    memory_regions d = 1 /\
    Z.testbit (gt_reset_flags (gt0 d)) 63 = false.
Proof.
  apply (constructed_device_engines upstream (all_succeed 0) 0 boot 2%nat built).
  vm_compute. reflexivity.
Defined.

Lemma flush_after_construction_witness :
  exists w1 w2,
    mock_gem_device upstream (all_succeed 0) 0 boot = Ret (Some 2%nat) w1 /\
    mock_device_flush upstream (all_succeed 0) 1 2%nat w1 = Ret tt w2 /\
    calls w2 =
      calls w1 ++
      [c_mock_engine_flush 6%nat;
       c_intel_gt_retire_requests_timeout 2%nat 9223372036854775807 true] /\
    retire_calls w2 = 1%nat /\
    acquired w2 = acquired w1 /\ released w2 = released w1 /\
    devs w2 = devs w1 /\ pdevs w2 = pdevs w1.
Proof.
  apply (flush_after_construction upstream (all_succeed 0) 0 0 boot); reflexivity.
Defined.

Lemma destroy_twice_faults_witness :
  exists w1 w2,
    mock_gem_device upstream (all_succeed 1) 0 boot = Ret (Some 2%nat) w1 /\
    mock_destroy_device upstream (all_succeed 1) 2 2%nat w1 = Ret tt w2 /\
    mock_destroy_device upstream (all_succeed 1) 4 2%nat w2 = Fault w2 /\
    mock_device_release upstream (all_succeed 1) 4 2%nat w2 = Fault w2 /\
    mock_device_flush upstream (all_succeed 1) 5 2%nat w2 = Fault w2.
Proof.
  apply (destroy_twice_faults upstream (all_succeed 1) 0 4 boot 1); reflexivity.
Defined.

Lemma two_devices_independent_witness :
  exists w1 w2 w3 w4 rel,
    mock_gem_device upstream (all_succeed 2) 0 boot = Ret (Some 2%nat) w1 /\
    mock_gem_device upstream (all_succeed 2) 0 w1 = Ret (Some 8%nat) w2 /\
    (forall f, exists w3',
       mock_destroy_device upstream (all_succeed 2) f 2%nat w2 =
         (if (2 <? f)%nat then Ret tt w3' else OutOfFuel w3') /\
       devs w3' !! 8%nat = Some (constructed_i915 upstream 7%nat) /\
       pdevs w3' !! 7%nat = Some (constructed_pdev upstream 7%nat)) /\
    mock_destroy_device upstream (all_succeed 2) 3 2%nat w2 = Ret tt w3 /\
    calls w3 =
      calls w2 ++
      [c_devres_release_group 1%nat; c_i915_debugger_fini 2%nat] ++
      [c_mock_engine_flush 6%nat;
       c_intel_gt_retire_requests_timeout 2%nat 9223372036854775807 false;
       c_mock_engine_flush 6%nat;
       c_intel_gt_retire_requests_timeout 2%nat 9223372036854775806 false;
       c_mock_engine_flush 6%nat;
       c_intel_gt_retire_requests_timeout 2%nat 9223372036854775805 true] ++
      teardown_calls 2%nat (constructed_i915 upstream 1%nat) ++
      [c_put_device 1%nat; c_kfree 1%nat] /\
    devs w3 !! 2%nat = None /\ pdevs w3 !! 1%nat = None /\
    devs w3 !! 8%nat = Some (constructed_i915 upstream 7%nat) /\
    pdevs w3 !! 7%nat = Some (constructed_pdev upstream 7%nat) /\
    mock_destroy_device upstream (all_succeed 2) 1 8%nat w3 = Ret tt w4 /\
    calls w4 =
      calls w3 ++
      [c_devres_release_group 7%nat; c_i915_debugger_fini 8%nat] ++
      [c_mock_engine_flush 12%nat;
       c_intel_gt_retire_requests_timeout 8%nat 9223372036854775807 true] ++
      teardown_calls 8%nat (constructed_i915 upstream 7%nat) ++
      [c_put_device 7%nat; c_kfree 7%nat] /\
    devs w4 !! 8%nat = None /\ pdevs w4 !! 7%nat = None /\
    acquired w4 = acquired boot ++ all_acquired ++ all_acquired /\
    released w4 = released boot ++ rel /\
    outstanding (all_acquired ++ all_acquired) rel = [].
Proof.
  apply (two_devices_independent upstream (all_succeed 2) 0 3 1 boot 2 0).
  - reflexivity.
  - intros j Hj. destruct j as [|[|j]]; [reflexivity | reflexivity | lia].
  - reflexivity.
  - intros j Hj. lia.
  - reflexivity.
  - lia.
  - lia.
Defined.

Lemma destroy_blocks_while_busy_witness :
  exists w' cs,
    mock_destroy_device upstream never_drained 3 2%nat built = OutOfFuel w' /\
    calls w' =
      calls built ++ [c_devres_release_group 1%nat; c_i915_debugger_fini 2%nat] ++ cs /\
    forallb is_drain_call cs = true /\
    existsb is_idle_report cs = false /\
    length (filter (fun c => is_retire c = true) cs) = 3%nat /\
    released w' = released built ++ [Debugger] /\
    acquired w' = acquired built /\
    devs w' !! 2%nat = Some (constructed_i915 upstream 1%nat) /\
    pdevs w' !! 1%nat = Some (set_dev_devres [] (constructed_pdev upstream 1%nat)).
Proof.
  apply (destroy_blocks_while_busy upstream never_drained 3 built 1%nat 2%nat
           (constructed_pdev upstream 1%nat) (constructed_i915 upstream 1%nat));
    first [reflexivity | by repeat split | intros k t; reflexivity].
Defined.
